(** * Bubo command dispatch: a shallow embedding of [bubo/bot_commands.py],
    [bubo/communities.py] and [bubo/users.py].

    Handlers are written in a small state-and-exception monad over a
    [World] that holds the configuration, the clock, the bot storage, the
    messages handed to the transport and the state of the remote services.
    The modules these files import without being part of them (storage,
    chat functions, room maintenance, utilities, help strings) and the
    third-party libraries are either modelled from the specification, and
    marked so, or left abstract in the [Collaborators] interface. *)

From Stdlib Require Import String Ascii ZArith List Lia Bool.
From stdpp Require Import base decidable option list strings gmap pretty.

Local Open Scope string_scope.
Local Open Scope Z_scope.

(** ** Python string primitives *)

Module Py.

Definition nl : string := String (ascii_of_nat 10) EmptyString.
Definition dq : string := String (ascii_of_nat 34) EmptyString.

(** [str.isspace] on the ASCII range. *)
Definition is_space (a : ascii) : bool :=
  let n := nat_of_ascii a in
  ((9 <=? n)%nat && (n <=? 13)%nat) || ((28 <=? n)%nat && (n <=? 32)%nat).

Fixpoint split_from (tok s : string) : list string :=
  match s with
  | EmptyString => match tok with EmptyString => [] | _ => [tok] end
  | String a s' =>
      if is_space a then
        match tok with
        | EmptyString => split_from EmptyString s'
        | _ => tok :: split_from EmptyString s'
        end
      else split_from (tok +:+ String a EmptyString) s'
  end.

(** [s.split()]: maximal runs of non-blank characters. *)
Definition split (s : string) : list string := split_from EmptyString s.

(** [sep.join(l)] *)
Definition join (sep : string) (l : list string) : string := String.concat sep l.

(** [s.startswith(p)] *)
Definition startswith (s p : string) : bool := String.prefix p s.

Fixpoint lstrip (s : string) : string :=
  match s with
  | String a s' => if is_space a then lstrip s' else s
  | EmptyString => EmptyString
  end.

Fixpoint rstrip (s : string) : string :=
  match s with
  | String a s' =>
      match rstrip s' with
      | EmptyString => if is_space a then EmptyString else String a EmptyString
      | t => String a t
      end
  | EmptyString => EmptyString
  end.

(** [s.strip()] *)
Definition strip (s : string) : string := rstrip (lstrip s).

Definition lower_ascii (a : ascii) : ascii :=
  let n := nat_of_ascii a in
  if ((65 <=? n)%nat && (n <=? 90)%nat) then ascii_of_nat (n + 32) else a.

(** [s.lower()] on the ASCII range. *)
Fixpoint lower (s : string) : string :=
  match s with
  | String a s' => String (lower_ascii a) (lower s')
  | EmptyString => EmptyString
  end.

(** [s.split(sep)[0]] for a one-character separator. *)
Fixpoint before (sep : ascii) (s : string) : string :=
  match s with
  | String a s' => if Ascii.eqb a sep then EmptyString else String a (before sep s')
  | EmptyString => EmptyString
  end.

Fixpoint filter_chars (keep : ascii -> bool) (s : string) : string :=
  match s with
  | String a s' => if keep a then String a (filter_chars keep s') else filter_chars keep s'
  | EmptyString => EmptyString
  end.

Fixpoint drop_chars (n : nat) (s : string) : string :=
  match n, s with
  | S n', String _ s' => drop_chars n' s'
  | _, _ => s
  end.

Fixpoint replace_go (old new : string) (skip : nat) (s : string) : string :=
  match s with
  | EmptyString => EmptyString
  | String a s' =>
      match skip with
      | S k => replace_go old new k s'
      | O =>
          if String.prefix old s
          then new +:+ replace_go old new (String.length old - 1) s'
          else String a (replace_go old new O s')
      end
  end.

(** [s.replace(old, new)] for a non-empty [old]. *)
Definition replace (s old new : string) : string := replace_go old new O s.

(** [sub in s] *)
Fixpoint contains (s sub : string) : bool :=
  String.prefix sub s ||
  match s with
  | String _ s' => contains s' sub
  | EmptyString => false
  end.

(** Truthiness of a [str]. *)
Definition nonempty (s : string) : bool :=
  match s with EmptyString => false | _ => true end.

(** Truthiness of an [Optional[str]]. *)
Definition truthy (o : option string) : bool :=
  match o with Some s => nonempty s | None => false end.

(** [str(n)] for an [int]. *)
Definition str_int (z : Z) : string := pretty z.
Definition str_nat (n : nat) : string := pretty n.

(** [str(o)] for an [Optional[str]]. *)
Definition str_opt (o : option string) : string :=
  match o with Some s => s | None => "None" end.

End Py.

(** ** The [csv] reader of the Python standard library

    The handlers parse the arguments of their [create] subcommands with
    [csv.reader([line], delimiter=" ")].  The reader is the character
    automaton of CPython's [_csv] module under the default dialect
    (the double quote as quote character, doubled inside quoted fields,
    no escape character, not strict), with its limit on the size of a
    field; [None] as input character stands for the end of the line. *)

(** What depends on the version of the interpreter: CPython before 3.11
    refuses a csv line that holds a NUL character, later versions read
    the character like any other. *)
Class Interpreter := {
  csv_refuses_nul : bool
}.

Module Csv.

Inductive State :=
| START_RECORD | START_FIELD | IN_FIELD | IN_QUOTED_FIELD
| QUOTE_IN_QUOTED_FIELD | EAT_CRNL.

Record Reader := mkReader {
  state : State;
  fields : list string;
  field : string
}.

(** The ways the reader raises [csv.Error]. *)
Inductive Error :=
| FieldTooLarge
| LineContainsNUL
| UnexpectedNewline.

(** [csv.field_size_limit()], which the handlers leave at its default. *)
Definition field_limit : N := 131072.

Definition error_text (e : Error) : string :=
  match e with
  | FieldTooLarge => "field larger than field limit (131072)"
  | LineContainsNUL => "line contains NUL"
  | UnexpectedNewline =>
      "new-line character seen in unquoted field - " +:+
      "do you need to open the file in universal-newline mode?"
  end.

Definition set_state (st : State) (r : Reader) : Reader :=
  mkReader st (fields r) (field r).

Definition parse_save_field (r : Reader) : Reader :=
  mkReader (state r) (fields r ++ [field r]) EmptyString.

(** [parse_add_char]: a field that has reached the limit takes no further
    character. *)
Definition parse_add_char (c : ascii) (r : Reader) : Reader + Error :=
  if (field_limit <=? N.of_nat (String.length (field r)))%N then inr FieldTooLarge
  else inl (mkReader (state r) (fields r) (field r +:+ String c EmptyString)).

(** [parse_add_char] followed by [self->state = st]. *)
Definition add_char_then (st : State) (c : ascii) (r : Reader) : Reader + Error :=
  match parse_add_char c r with
  | inl r' => inl (set_state st r')
  | inr e => inr e
  end.

Definition is_newline (c : ascii) : bool :=
  Ascii.eqb c (ascii_of_nat 10) || Ascii.eqb c (ascii_of_nat 13).

Definition start_field (delimiter quotechar : ascii) (r : Reader)
    (c : option ascii) : Reader + Error :=
  match c with
  | None => inl (set_state START_RECORD (parse_save_field r))
  | Some a =>
      if is_newline a then inl (set_state EAT_CRNL (parse_save_field r))
      else if Ascii.eqb a quotechar then inl (set_state IN_QUOTED_FIELD r)
      else if Ascii.eqb a delimiter then inl (parse_save_field r)
      else add_char_then IN_FIELD a r
  end.

Definition parse_process_char (delimiter quotechar : ascii) (r : Reader)
    (c : option ascii) : Reader + Error :=
  match state r with
  | START_RECORD =>
      match c with
      | None => inl r
      | Some a =>
          if is_newline a then inl (set_state EAT_CRNL r)
          else start_field delimiter quotechar (set_state START_FIELD r) c
      end
  | START_FIELD => start_field delimiter quotechar r c
  | IN_FIELD =>
      match c with
      | None => inl (set_state START_RECORD (parse_save_field r))
      | Some a =>
          if is_newline a then inl (set_state EAT_CRNL (parse_save_field r))
          else if Ascii.eqb a delimiter
          then inl (set_state START_FIELD (parse_save_field r))
          else parse_add_char a r
      end
  | IN_QUOTED_FIELD =>
      match c with
      | None => inl r
      | Some a =>
          if Ascii.eqb a quotechar then inl (set_state QUOTE_IN_QUOTED_FIELD r)
          else parse_add_char a r
      end
  | QUOTE_IN_QUOTED_FIELD =>
      match c with
      | None => inl (set_state START_RECORD (parse_save_field r))
      | Some a =>
          if Ascii.eqb a quotechar then add_char_then IN_QUOTED_FIELD a r
          else if Ascii.eqb a delimiter
          then inl (set_state START_FIELD (parse_save_field r))
          else if is_newline a
          then inl (set_state EAT_CRNL (parse_save_field r))
          else add_char_then IN_FIELD a r
      end
  | EAT_CRNL =>
      match c with
      | None => inl (set_state START_RECORD r)
      | Some a => if is_newline a then inl r else inr UnexpectedNewline
      end
  end.

(** The loop of [Reader_iternext] over the characters of one line, then
    the end of the line. *)
Fixpoint process_line `{Interpreter} (delimiter quotechar : ascii) (r : Reader)
    (line : string) : Reader + Error :=
  match line with
  | EmptyString => parse_process_char delimiter quotechar r None
  | String a line' =>
      if Ascii.eqb a Ascii.zero && csv_refuses_nul then inr LineContainsNUL
      else
        match parse_process_char delimiter quotechar r (Some a) with
        | inl r' => process_line delimiter quotechar r' line'
        | inr e => inr e
        end
  end.

(** [[row for row in csv.reader([line], delimiter=d)][0]]: the only
    record of a one-line input, or the error the reader raises.  When the
    line ends inside a quoted field the input is exhausted and the pending
    field is saved. *)
Definition read_first `{Interpreter} (delimiter : ascii) (line : string)
    : list string + Error :=
  match process_line delimiter (ascii_of_nat 34)
          (mkReader START_RECORD [] EmptyString) line with
  | inl r =>
      match state r with
      | START_RECORD => inl (fields r)
      | _ => inl (fields (parse_save_field r))
      end
  | inr e => inr e
  end.

(** The record alone, [None] when the reader raises. *)
Definition reader_first `{Interpreter} (delimiter : ascii) (line : string)
    : option (list string) :=
  match read_first delimiter line with
  | inl row => Some row
  | inr _ => None
  end.

End Csv.

(** ** Exceptions, configuration, storage and the world *)

Inductive ExnKind :=
| AttributeError | ProtocolError | IndexError | KeyError | ValueError
| EmailNotValidError | CsvError | HTTPError | JSONDecodeError | ConfigError
| OtherException.

Record Exn := mkExn { exn_kind : ExnKind; exn_str : string }.

(** How a computation ends: with a value, with an uncaught exception, or
    not at all within the steps granted to its [while] loops. *)
Inductive Outcome (A : Type) :=
| Done (a : A)
| Raised (e : Exn)
| Unfinished.
Arguments Done {A} a.
Arguments Raised {A} e.
Arguments Unfinished {A}.

(** The fields of [Config] that the handlers read. *)
Record Config := mkConfig {
  admins : list string;
  coordinators : list string;
  server_name : string;
  command_prefix : string;
  user_id : string;
  homeserver_url : string;
  user_token : string;
  keycloak_enabled : bool;
  keycloak_signup_enabled : bool;
  keycloak_signup_url : option string;
  keycloak_signup_token : option string;
  keycloak_signup_page_valid_days : option Z;
  keycloak_signup_page_days_valid : option Z;
  keycloak_signup_organisation : string
}.

Record RoomRow := mkRoomRow {
  room_name : string;
  room_alias : string;
  room_room_id : string;
  room_is_space : bool
}.

Record CommunityRow := mkCommunityRow {
  community_name : string;
  community_alias : string;
  community_title : string
}.

(** A row of the recreate-request table: room id, requester, timestamp and
    the applied flag (default false). *)
Record RecreateRow := mkRecreateRow {
  rr_room_id : string;
  requester : string;
  timestamp : Z;
  applied : bool
}.

(** Modelled from the spec: the persisted state surfaces of the bot
    storage (module [bubo.storage]): the tracked rooms and spaces, the
    tracked groups, the recreate requests and the event-id-to-room-id
    mapping of pending reaction invites. *)
Record Storage := mkStorage {
  rooms : list RoomRow;
  communities : list CommunityRow;
  recreate_rooms : list RecreateRow;
  breakout_rooms : list (string * string)
}.

(** The world a command runs in.  [outbox] lists the messages handed to
    the transport, oldest first, as (room id, text); [delivery n] is the
    event id the homeserver returns for the [n]-th of them, [None] when
    sending it fails; [remote] is the state of the services behind the
    [Collaborators] interface. *)
Record World (R : Type) := mkWorld {
  config : Config;
  clock : Z;
  store : Storage;
  outbox : list (string * string);
  delivery : nat -> option string;
  remote : R
}.
Arguments mkWorld {R}.
Arguments config {R}.
Arguments clock {R}.
Arguments store {R}.
Arguments outbox {R}.
Arguments delivery {R}.
Arguments remote {R}.

Definition with_store {R} (s : Storage) (w : World R) : World R :=
  mkWorld (config w) (clock w) s (outbox w) (delivery w) (remote w).

Definition with_outbox {R} (o : list (string * string)) (w : World R) : World R :=
  mkWorld (config w) (clock w) (store w) o (delivery w) (remote w).

Definition with_clock {R} (t : Z) (w : World R) : World R :=
  mkWorld (config w) t (store w) (outbox w) (delivery w) (remote w).

Definition with_remote {R} (r : R) (w : World R) : World R :=
  mkWorld (config w) (clock w) (store w) (outbox w) (delivery w) r.

Definition with_recreate_rooms (l : list RecreateRow) (s : Storage) : Storage :=
  mkStorage (rooms s) (communities s) l (breakout_rooms s).

Definition with_breakout_rooms (l : list (string * string)) (s : Storage) : Storage :=
  mkStorage (rooms s) (communities s) (recreate_rooms s) l.

Definition with_communities (l : list CommunityRow) (s : Storage) : Storage :=
  mkStorage (rooms s) l (recreate_rooms s) (breakout_rooms s).

Definition with_rooms (l : list RoomRow) (s : Storage) : Storage :=
  mkStorage l (communities s) (recreate_rooms s) (breakout_rooms s).

(** The world once one more message has been handed to the transport. *)
Definition posted {R} (room text : string) (w : World R) : World R :=
  with_outbox (outbox w ++ [(room, text)]) w.

(** ** The command monad: state passing with Python exceptions *)

Definition M (R A : Type) : Type := World R -> Outcome A * World R.

Definition ret {R A} (a : A) : M R A := fun w => (Done a, w).

Definition bind {R A B} (m : M R A) (k : A -> M R B) : M R B :=
  fun w =>
    match m w with
    | (Done a, w') => k a w'
    | (Raised e, w') => (Raised e, w')
    | (Unfinished, w') => (Unfinished, w')
    end.

Definition raise {R A} (e : Exn) : M R A := fun w => (Raised e, w).

Definition out_of_steps {R A} : M R A := fun w => (Unfinished, w).

(** [try: m except ... as e: h e]; the handler re-raises what it does not
    catch. *)
Definition try_except {R A} (m : M R A) (h : Exn -> M R A) : M R A :=
  fun w =>
    match m w with
    | (Raised e, w') => h e w'
    | r => r
    end.

Definition gets {R A} (f : World R -> A) : M R A := fun w => (Done (f w), w).

Definition modify {R} (f : World R -> World R) : M R unit := fun w => (Done tt, f w).

(** A [for] loop over a list. *)
Fixpoint for_each {R A} (l : list A) (body : A -> M R unit) : M R unit :=
  match l with
  | [] => ret tt
  | x :: l' => bind (body x) (fun _ => for_each l' body)
  end.

Declare Scope cmd_scope.
Delimit Scope cmd_scope with cmd.
Notation "x <- c1 ;; c2" := (bind c1 (fun x => c2))
  (at level 100, c1 at next level, c2 at level 200, right associativity) : cmd_scope.
Notation "c1 ;; c2" := (bind c1 (fun _ => c2))
  (at level 100, c2 at level 200, right associativity) : cmd_scope.
Local Open Scope cmd_scope.

(** [try: m] with the exception, if any, handed back as a value; the
    [except] clauses then match on its kind and re-raise what they do not
    name. *)
Definition attempt {R A} (m : M R A) : M R (A + Exn) :=
  try_except (a <- m ;; ret (inl a)) (fun e => ret (inr e)).

Fixpoint for_fold {R A B} (l : list A) (acc : B) (body : B -> A -> M R B) : M R B :=
  match l with
  | [] => ret acc
  | x :: l' => acc' <- body acc x ;; for_fold l' acc' body
  end.

Notation "a == b" := (String.eqb a b) (at level 70, no associativity).

(** ** Interfaces of the absent modules and of third-party libraries *)

(** The constants of [bubo.help_strings] and [bubo.email_strings] that the
    handlers send.  [HELP_ROOMS_RECREATE_CONFIRM p] is the template
    formatted with the command prefix [p]. *)
Class HelpStrings := {
  HELP_HELP : string;
  HELP_INVITE : string;
  HELP_ROOMS : string;
  HELP_SPACES : string;
  HELP_ROOMS_RECREATE : string;
  HELP_ROOMS_RECREATE_CONFIRM : string -> string;
  HELP_ROOMS_UNLINK : string;
  HELP_USERS : string;
  HELP_USERS_CREATE : string;
  HELP_USERS_INVITE : string;
  HELP_USERS_SIGNUPLINK : string;
  HELP_USERS_KEYCLOAK_DISABLED : string;
  HELP_USERS_KEYCLOAK_SIGNUP_DISABLED : string;
  INVITE_LINK_EMAIL : string
}.

(** What [set_user_power] may return, as [Command._power] tells it apart. *)
Inductive PowerResponse :=
| RoomPutStateError (message : string)
| RoomGetStateEventError (message : string)
| RoomPutStateResponse
| StatusInt (code : Z)
| UnexpectedResponse.

(** A Python value as [json] builds and reads it: [None], a [bool], an
    [int], a [float] (by its [repr]), a [str], a [list], or a [dict] by
    its items in insertion order, the keys distinct. *)
Inductive Json :=
| JNull
| JBool (b : bool)
| JInt (z : Z)
| JFloat (repr : string)
| JStr (s : string)
| JList (items : JsonItems)
| JObj (members : JsonMembers)
with JsonItems :=
| JNil
| JCons (item : Json) (rest : JsonItems)
with JsonMembers :=
| JEnd
| JMember (key : string) (value : Json) (rest : JsonMembers).

Definition json_opt_str (o : option string) : Json :=
  match o with Some s => JStr s | None => JNull end.

Definition json_opt_int (o : option Z) : Json :=
  match o with Some z => JInt z | None => JNull end.

(** [d.get(key)] on the items of a [dict]: [None] for a missing key. *)
Fixpoint dict_get (members : JsonMembers) (key : string) : Json :=
  match members with
  | JEnd => JNull
  | JMember k value rest => if k == key then value else dict_get rest key
  end.

(** [type(value).__name__] *)
Definition type_name (value : Json) : string :=
  match value with
  | JNull => "NoneType"
  | JBool _ => "bool"
  | JInt _ => "int"
  | JFloat _ => "float"
  | JStr _ => "str"
  | JList _ => "list"
  | JObj _ => "dict"
  end.

Definition hex_digit (n : nat) : ascii :=
  if (n <? 10)%nat then ascii_of_nat (48 + n) else ascii_of_nat (87 + n).

(** One character of [repr(s)] for a [str] quoted with [quote], on the
    ASCII range. *)
Definition repr_char (quote a : ascii) : string :=
  let n := nat_of_ascii a in
  if Ascii.eqb a quote || (n =? 92)%nat then String (ascii_of_nat 92) (String a "")
  else if (n =? 9)%nat then String (ascii_of_nat 92) "t"
  else if (n =? 10)%nat then String (ascii_of_nat 92) "n"
  else if (n =? 13)%nat then String (ascii_of_nat 92) "r"
  else if (n <? 32)%nat || (n =? 127)%nat then
    String (ascii_of_nat 92)
      (String "x" (String (hex_digit (n / 16)) (String (hex_digit (n mod 16)) "")))
  else String a "".

Fixpoint repr_chars (quote : ascii) (s : string) : string :=
  match s with
  | EmptyString => EmptyString
  | String a s' => repr_char quote a +:+ repr_chars quote s'
  end.

(** [repr(s)] for a [str]: single quotes, unless the text holds a single
    quote and no double quote. *)
Definition repr_str (s : string) : string :=
  let quote :=
    if Py.contains s "'" && negb (Py.contains s Py.dq)
    then ascii_of_nat 34 else "'"%char in
  String quote (repr_chars quote s) +:+ String quote "".

(** [repr(value)] *)
Fixpoint py_repr (value : Json) : string :=
  match value with
  | JNull => "None"
  | JBool b => if b then "True" else "False"
  | JInt z => Py.str_int z
  | JFloat repr => repr
  | JStr s => repr_str s
  | JList items => "[" +:+ repr_items items +:+ "]"
  | JObj members => "{" +:+ repr_members members +:+ "}"
  end
with repr_items (items : JsonItems) : string :=
  match items with
  | JNil => ""
  | JCons item JNil => py_repr item
  | JCons item rest => py_repr item +:+ ", " +:+ repr_items rest
  end
with repr_members (members : JsonMembers) : string :=
  match members with
  | JEnd => ""
  | JMember key value JEnd => repr_str key +:+ ": " +:+ py_repr value
  | JMember key value rest =>
      repr_str key +:+ ": " +:+ py_repr value +:+ ", " +:+ repr_members rest
  end.

(** [str(value)], as an f-string formats it. *)
Definition py_str (value : Json) : string :=
  match value with
  | JStr s => s
  | _ => py_repr value
  end.

(** An HTTP response: the status, [str] of the body bytes, and the body
    as [response.json()] parses it, [None] when the body is no JSON
    document. *)
Record Response := mkResponse {
  status_code : Z;
  content_str : string;
  json_body : option Json
}.

(** A user representation returned by Keycloak. *)
Record KcUser := mkKcUser {
  kc_id : string;
  kc_username : string;
  kc_email : string
}.

(** The tuple [ensure_room_exists] is called with. *)
Definition RoomTuple : Type :=
  option Z * string * string * option string * string * option string
  * bool * bool * string.

(** The tuple [(dbid, name, alias, title, icon, description)]. *)
Record CommunityTuple := mkCommunityTuple {
  ct_dbid : option Z;
  ct_name : string;
  ct_alias : string;
  ct_title : string;
  ct_icon : option string;
  ct_description : option string
}.

(** Operations of [bubo.rooms], [bubo.utils], [bubo.chat_functions],
    [bubo.emails], the Matrix client, Keycloak, [requests],
    [email_validator], the database write behind
    [Storage.store_breakout_room] and [int()].  Each may read and change
    the world and may raise. *)
Class Collaborators (R : Type) := {
  ensure_room_exists : RoomTuple -> M R (string * option string);
  create_breakout_room : string -> string -> M R string;
  set_user_power : string -> string -> Z -> M R PowerResponse;
  get_room_power_levels : string -> M R (option (list (string * Z)));
  recreate_room : string -> string -> M R (option string);
  joined_members : string -> M R (option (list string));
  ensure_room_id : string -> M R string;
  invite_to_room : string -> string -> string -> string -> M R unit;
  room_resolve_alias : string -> M R (option string);
  room_leave : string -> M R unit;
  check_user_id : string -> bool;
  validate_email : string -> string + string;
  kc_get_users : option (string * string) -> M R (list KcUser);
  kc_create_user : string -> string -> M R (option string);
  kc_send_update_account : string -> list string -> M R unit;
  requests_get : string -> list (string * string) -> M R Response;
  requests_post : string -> Json -> list (string * string) -> M R Response;
  send_plain_email : string -> string -> M R unit;
  persist_breakout_room : string -> string -> M R unit;
  py_int : string -> option Z
}.

(** The usernames of a list of accounts, and the accounts with a given
    username. *)
Definition usernames (l : list KcUser) : list string := List.map kc_username l.

Definition username_matches (value : string) (l : list KcUser) : list KcUser :=
  List.filter (fun u => kc_username u == value) l.

(** A command as [Command.__init__] receives it. *)
Record Command := mkCommand {
  command : string;
  room_id : string;
  sender : string;
  event_id : string
}.

(** [self.args = self.command.split()[1:]] *)
Definition args (c : Command) : list string := tail (Py.split (command c)).

Definition TEXT_PERMISSION_DENIED : string := "I'm afraid I cannot let you do that.".

Definition HELP_POWER : string :=
  "Set power level in a room. Usage:" +:+ Py.nl +:+ Py.nl +:+
  "`power <user> <room> [<level>]`" +:+ Py.nl +:+ Py.nl +:+
  "* `user` is the user ID, example `@user:example.tld`" +:+ Py.nl +:+
  "* `room` is a room alias or ID, example `#room:example.tld`. Bot must have power to give power there." +:+ Py.nl +:+
  "* `level` is optional and defaults to `moderator`." +:+ Py.nl +:+ Py.nl +:+
  "Moderator rights can be given by coordinator level users. To give admin in a room, user must be admin of the bot." +:+ Py.nl.

Section Handlers.
Context {R : Type} `{Interpreter} `{HelpStrings} `{Collaborators R}.

(** *** Chat functions and utilities *)

(** Modelled from the spec: [send_text_to_room] of [bubo.chat_functions]
    hands one text message for a room to the transport and returns the
    event id of the message, or [None] when sending failed. *)
Definition send_text_to_room (room text : string) : M R (option string) :=
  fun w => (Done (delivery w (length (outbox w))), posted room text w).

(** Modelled from the spec: [get_users_for_access] of [bubo.utils] looks
    the membership set of a tier up afresh.  Tiers are strictly ordered:
    whoever is in the admin set is permitted what a coordinator is, so the
    set for ["coordinators"] is the configured coordinators together with
    the configured admins. *)
Definition get_users_for_access (access_type : string) : M R (list string) :=
  cfg <- gets config ;;
  if access_type == "admins" then ret (admins cfg)
  else if access_type == "coordinators" then ret (coordinators cfg ++ admins cfg)%list
  else ret [].

(** *** Storage *)

(** Modelled from the spec: [Storage.get_recreate_room] returns the
    recreate request of the room, if there is one. *)
Definition get_recreate_room (room : string) : M R (option RecreateRow) :=
  gets (fun w => List.find (fun r => rr_room_id r == room) (recreate_rooms (store w))).

(** Modelled from the spec: [Storage.delete_recreate_room] deletes the
    recreate requests of the room. *)
Definition delete_recreate_room (room : string) : M R unit :=
  modify (fun w =>
    with_store (with_recreate_rooms
      (List.filter (fun r => negb (rr_room_id r == room)) (recreate_rooms (store w)))
      (store w)) w).

(** Modelled from the spec: [Storage.store_recreate_room] persists a
    request with the current timestamp and the requesting sender, not yet
    applied. *)
Definition store_recreate_room (requester_ room : string) : M R unit :=
  modify (fun w =>
    with_store (with_recreate_rooms
      (recreate_rooms (store w) ++ [mkRecreateRow room requester_ (clock w) false])
      (store w)) w).

(** Modelled from the spec: [Storage.store_breakout_room] records the
    mapping from the announcement's event id to the breakout room.  The
    spec has this registration fail to persist: the write to the database,
    [persist_breakout_room], may raise, and the mapping is recorded when
    it does not. *)
Definition store_breakout_room (event room : string) : M R unit :=
  persist_breakout_room event room ;;
  modify (fun w =>
    with_store (with_breakout_rooms (breakout_rooms (store w) ++ [(event, room)])
      (store w)) w).

(** Modelled from the spec: [Storage.store_community] adds a tracked
    group. *)
Definition store_community (name alias title : string) : M R unit :=
  modify (fun w =>
    with_store (with_communities
      (communities (store w) ++ [mkCommunityRow name alias title]) (store w)) w).

(** Modelled from the spec: [Storage.get_rooms] lists the tracked rooms,
    or the tracked spaces. *)
Definition get_rooms (spaces : bool) : M R (list RoomRow) :=
  gets (fun w => List.filter (fun r => Bool.eqb (room_is_space r) spaces) (rooms (store w))).

(** Modelled from the spec: [Storage.get_room] finds a tracked room by its
    id. *)
Definition get_room (room : string) : M R (option RoomRow) :=
  gets (fun w => List.find (fun r => room_room_id r == room) (rooms (store w))).

(** Modelled from the spec: [Storage.unlink_room] removes a room from the
    tracked rooms. *)
Definition unlink_room (room : string) : M R unit :=
  modify (fun w =>
    with_store (with_rooms
      (List.filter (fun r => negb (room_room_id r == room)) (rooms (store w)))
      (store w)) w).

(** *** Permission gates *)

Definition _ensure_admin (c : Command) : M R bool :=
  admin_users <- get_users_for_access "admins" ;;
  if negb (bool_decide (sender c ∈ admin_users)) then
    send_text_to_room (room_id c)
      (TEXT_PERMISSION_DENIED +:+ " Admin level access needed.") ;;
    ret false
  else ret true.

Definition _ensure_coordinator (c : Command) : M R bool :=
  allowed_users <- get_users_for_access "coordinators" ;;
  if negb (bool_decide (sender c ∈ allowed_users)) then
    send_text_to_room (room_id c)
      (TEXT_PERMISSION_DENIED +:+ " Coordinator level access needed.") ;;
    ret false
  else ret true.

(** The world after a gate has turned the sender away. *)
Definition denied_admin (c : Command) (w : World R) : World R :=
  posted (room_id c) (TEXT_PERMISSION_DENIED +:+ " Admin level access needed.") w.

Definition denied_coordinator (c : Command) (w : World R) : World R :=
  posted (room_id c) (TEXT_PERMISSION_DENIED +:+ " Coordinator level access needed.") w.

(** The recreate request stored for the room of the command. *)
Definition stored_request (c : Command) (w : World R) : option RecreateRow :=
  List.find (fun r => rr_room_id r == room_id c) (recreate_rooms (store w)).

(** The request a bare [recreate] stores for the sender at the current
    time, and the table once the requests of the room have given way to
    it. *)
Definition fresh_request (c : Command) (w : World R) : RecreateRow :=
  mkRecreateRow (room_id c) (sender c) (clock w) false.

Definition restarted_requests (c : Command) (w : World R) : list RecreateRow :=
  (List.filter (fun r => negb (rr_room_id r == room_id c)) (recreate_rooms (store w))
   ++ [fresh_request c w])%list.

(** At most one recreate request per room. *)
Definition one_request_per_room (l : list RecreateRow) : Prop :=
  NoDup (List.map rr_room_id l).

(** [await send_text_to_room(self.client, self.room.room_id, text)] with
    the returned event id dropped. *)
Definition reply (c : Command) (text : string) : M R unit :=
  send_text_to_room (room_id c) text ;; ret tt.

(** *** Room recreation *)

(** The end of [_recreate_room], below its comment "OK confirmation over,
    let's do stuff". *)
Definition recreate_confirmed (c : Command) : M R unit :=
  new_room_id <- recreate_room (room_id c) (event_id c) ;;
  if negb (Py.truthy new_room_id) then
    reply c "Failed to create new room. Please see logs or contact support."
  else ret tt.

Definition _recreate_room (c : Command) (subcommand : option string) : M R unit :=
  ok <- _ensure_admin c ;;
  if negb ok then ret tt else
  if negb (Py.truthy subcommand) then
    room <- get_recreate_room (room_id c) ;;
    if match room with Some r => applied r | None => false end then
      reply c "Can only recreate a room once, this room has already been recreated."
    else
      match room with
      | Some _ => delete_recreate_room (room_id c)
      | None => ret tt
      end ;;
      store_recreate_room (sender c) (room_id c) ;;
      cfg <- gets config ;;
      reply c (HELP_ROOMS_RECREATE_CONFIRM (command_prefix cfg))
  else if negb (Py.str_opt subcommand == "confirm") then
    reply c ("Unknown subcommand. Usage:" +:+ Py.nl +:+ Py.nl +:+ HELP_ROOMS_RECREATE)
  else
    room <- get_recreate_room (room_id c) ;;
    match room with
    | None =>
        reply c "Cannot confirm room recreate before requesting room recreate."
    | Some r =>
        if negb (requester r == sender c) then
          reply c "Room recreate confirm must be given by the room recreate requester."
        else
          now <- gets clock ;;
          if 60 <? now - timestamp r then
            reply c "Room recreate confirmation must be given within 60 seconds. Please request recreation again."
          else recreate_confirmed c
    end.

(** *** [bubo/users.py] *)

Definition list_users : M R (list KcUser) :=
  cfg <- gets config ;;
  if negb (keycloak_enabled cfg) then ret []
  else kc_get_users None.

Definition get_user_by_attr (attr value : string) : M R (option KcUser) :=
  cfg <- gets config ;;
  if negb (keycloak_enabled cfg) then ret None
  else
    users <- kc_get_users (Some (attr, value)) ;;
    match users with
    | [u] => ret (Some u)
    | _ :: _ :: _ =>
        raise (mkExn OtherException
                 ("More than one user found with the same " +:+ attr +:+ " = " +:+ value))
    | [] => ret None
    end.

Definition create_user (username email : string) : M R (option string) :=
  cfg <- gets config ;;
  if negb (keycloak_enabled cfg) then ret None
  else kc_create_user username email.

Definition send_password_reset (user : string) : M R unit :=
  cfg <- gets config ;;
  if negb (keycloak_enabled cfg) then ret tt
  else kc_send_update_account user ["UPDATE_PASSWORD"].

(** [response.raise_for_status()] *)
Definition raise_for_status (response : Response) : M R unit :=
  if (400 <=? status_code response) && (status_code response <? 600)
  then raise (mkExn HTTPError (Py.str_int (status_code response)))
  else ret tt.

(** [response.json()]: raises when the body is no JSON document. *)
Definition response_json (response : Response) : M R Json :=
  match json_body response with
  | Some value => ret value
  | None => raise (mkExn JSONDecodeError "Expecting value: line 1 column 1 (char 0)")
  end.

(** [value.get(key)]: only a [dict] has the method. *)
Definition json_get (value : Json) (key : string) : M R Json :=
  match value with
  | JObj members => ret (dict_get members key)
  | _ =>
      raise (mkExn AttributeError
               ("'" +:+ type_name value +:+ "' object has no attribute 'get'"))
  end.

Definition signup_pages_json (cfg : Config) (creator : string)
    (max_signups valid_days : Json) : Json :=
  JObj (JMember "creator" (JStr creator)
       (JMember "maxSignups" max_signups
       (JMember "validDays" valid_days
       (JMember "token" (json_opt_str (keycloak_signup_token cfg)) JEnd)))).

Definition create_signup_link (creator : string) (max_signups days_valid : Z)
    : M R string :=
  cfg <- gets config ;;
  if negb (keycloak_signup_enabled cfg)
  then raise (mkExn ConfigError "Keycloak-Signup not configured")
  else
    response <- requests_post
      (Py.str_opt (keycloak_signup_url cfg) +:+ "/api/pages")
      (signup_pages_json cfg creator (JInt max_signups) (JInt days_valid))
      [("Content-Type", "application/json")] ;;
    raise_for_status response ;;
    body <- response_json response ;;
    signup_token <- json_get body "signup_token" ;;
    ret (Py.str_opt (keycloak_signup_url cfg) +:+ "/" +:+ py_str signup_token).

Definition invite_user (email creator : string) : M R unit :=
  cfg <- gets config ;;
  if negb (keycloak_signup_enabled cfg) then ret tt
  else
    response <- requests_post
      (Py.str_opt (keycloak_signup_url cfg) +:+ "/api/pages")
      (signup_pages_json cfg creator (JInt 1)
         (json_opt_int (keycloak_signup_page_valid_days cfg)))
      [("Content-Type", "application/json")] ;;
    raise_for_status response ;;
    body <- response_json response ;;
    signup_token <- json_get body "signup_token" ;;
    let message :=
      Py.replace
        (Py.replace
           (Py.replace INVITE_LINK_EMAIL "%%organisation%%"
              (keycloak_signup_organisation cfg))
           "%%link%%"
           (Py.str_opt (keycloak_signup_url cfg) +:+ "/" +:+ py_str signup_token))
        "%%days%%"
        (match keycloak_signup_page_days_valid cfg with
         | Some d => Py.str_int d
         | None => "None"
         end) in
    send_plain_email email message.

(** *** [bubo/communities.py] *)

Definition api_prefix (cfg : Config) : string :=
  homeserver_url cfg +:+ "/_matrix/client/r0".

Definition auth_headers (cfg : Config) : list (string * string) :=
  [("Authorization", "Bearer " +:+ user_token cfg)].

Definition group_profile_url (cfg : Config) (alias : string) : string :=
  api_prefix cfg +:+ "/groups/+" +:+ alias +:+ ":" +:+ server_name cfg +:+ "/profile".

Definition create_group_url (cfg : Config) : string :=
  api_prefix cfg +:+ "/create_group".

Definition create_group_json (community : CommunityTuple) : Json :=
  JObj (JMember "localpart" (JStr (ct_alias community))
       (JMember "profile"
          (JObj (JMember "name" (JStr (ct_name community))
                (JMember "short_description" (JStr (ct_title community))
                (JMember "long_description"
                   (json_opt_str (ct_description community)) JEnd))))
        JEnd)).

Definition ensure_community_exists (community : CommunityTuple)
    : M R (string * option string) :=
  cfg <- gets config ;;
  response <- requests_get (group_profile_url cfg (ct_alias community))
                (auth_headers cfg) ;;
  if status_code response =? 200 then ret ("exists", None)
  else
    response <- requests_post (create_group_url cfg) (create_group_json community)
                  (auth_headers cfg) ;;
    if 201 <? status_code response then
      ret ("error",
           Some (Py.str_int (status_code response) +:+ " / " +:+ content_str response))
    else ret ("created", None).

(** *** Handlers of [Command] *)

Definition breakout_help_text : string :=
  "Creates a breakout room. Usage:" +:+ Py.nl +:+
  Py.nl +:+
  "breakout TOPIC" +:+ Py.nl +:+
  Py.nl +:+
  "For example:" +:+ Py.nl +:+
  Py.nl +:+
  "breakout Bot's are cool" +:+ Py.nl +:+
  Py.nl +:+
  "Any remaining text after the `breakout` command will be used as the name of the room. " +:+
  "The user requesting the breakout room will be automatically invited to the new room " +:+
  "and made admin. " +:+
  "Other users can react to the bot response message with any emoji reaction to " +:+
  "get invited to the room.".

Definition breakout_announcement (name : string) : string :=
  "Breakout room '" +:+ name +:+ "' created!" +:+ Py.nl +:+
  Py.nl +:+ Py.nl +:+
  "React to this message with any emoji reaction to get invited to the room.".

Definition breakout_store_failed : string :=
  "*Error: failed to store breakout room data. The room was created, " +:+
  "but invites via reactions will not work.*".

Definition _breakout (c : Command) : M R unit :=
  match args c with
  | [] => reply c breakout_help_text
  | a0 :: _ =>
      if a0 == "help" then reply c breakout_help_text
      else
        let name := Py.join " " (args c) in
        room <- create_breakout_room name (sender c) ;;
        event <- send_text_to_room (room_id c) (breakout_announcement name) ;;
        match event with
        | Some e =>
            if Py.nonempty e then store_breakout_room e room
            else reply c breakout_store_failed
        | None => reply c breakout_store_failed
        end
  end.

Definition communities_deprecated : string :=
  "NOTE! Communities support is deprecated and will be removed in Bubo v0.4.0." +:+ Py.nl.

Definition communities_usage : string :=
  communities_deprecated +:+
  Py.nl +:+
  "Wrong number of arguments. Usage:" +:+ Py.nl +:+
  Py.nl +:+
  "`communities create NAME ALIAS TITLE`" +:+ Py.nl +:+
  Py.nl +:+
  "For example:" +:+ Py.nl +:+
  Py.nl +:+
  "communities create " +:+ Py.dq +:+ "My epic community" +:+ Py.dq +:+
  " epic-community " +:+ Py.dq +:+ "The best community ever!" +:+ Py.dq +:+ Py.nl +:+
  Py.nl +:+
  "Note, ALIAS should only contain lower case ascii characters and dashes (maybe).".

(** [csv.reader([" ".join(args)], delimiter=" ")], first record. *)
Definition csv_params (l : list string) : M R (list string) :=
  match Csv.read_first " "%char (Py.join " " l) with
  | inl params => ret params
  | inr e => raise (mkExn CsvError (Csv.error_text e))
  end.

Definition community_line (cfg : Config) (community : CommunityRow) : string :=
  "* " +:+ community_name community +:+ " / +" +:+ community_alias community +:+
  ":" +:+ server_name cfg +:+ " / " +:+ community_title community +:+ Py.nl.

(** [_communities] past its coordinator gate. *)
Definition communities_after_gate (c : Command) : M R unit :=
  cfg <- gets config ;;
  text <-
    match args c with
    | a0 :: rest =>
        if a0 == "create" then
          params <- csv_params rest ;;
          match params with
          | [p0; p1; p2] =>
              if p0 == "help" then ret communities_usage
              else
                r <- ensure_community_exists (mkCommunityTuple None p0 p1 p2 None None) ;;
                let '(result, error) := r in
                if result == "created" then
                  store_community p0 p1 p2 ;;
                  ret (communities_deprecated +:+ Py.nl +:+
                       "Community " +:+ p0 +:+ " (+" +:+ p1 +:+ ":" +:+
                       server_name cfg +:+ ") " +:+ "created successfully.")
                else if result == "exists" then
                  ret (communities_deprecated +:+ Py.nl +:+
                       "Sorry! Community " +:+ p0 +:+ " (+" +:+ p1 +:+ ":" +:+
                       server_name cfg +:+ ") " +:+ "already exists.")
                else ret ("Error creating community: " +:+ Py.str_opt error)
          | _ => ret communities_usage
          end
        else ret "Unknown subcommand!"
    | [] =>
        dbresult <- gets (fun w => communities (store w)) ;;
        ret (communities_deprecated +:+ Py.nl +:+
             "I currently maintain the following communities:" +:+ Py.nl +:+ Py.nl +:+
             Py.join "" (List.map (community_line cfg) dbresult))
    end ;;
  reply c text.

Definition _communities (c : Command) : M R unit :=
  ok <- _ensure_coordinator c ;;
  if negb ok then ret tt else communities_after_gate c.

(** [_invite] past its coordinator gate. *)
Definition invite_after_gate (c : Command) : M R unit :=
  match args c with
  | [] => reply c HELP_INVITE
  | a0 :: others =>
      if a0 == "help" then reply c HELP_INVITE
      else
        r <- attempt (ensure_room_id a0) ;;
        match r with
        | inr e =>
            match exn_kind e with
            | AttributeError | ProtocolError =>
                reply c "Could not resolve room ID. Please ensure room exists."
            | IndexError =>
                reply c ("Cannot understand arguments." +:+ Py.nl +:+ Py.nl +:+ HELP_INVITE)
            | _ => raise e
            end
        | inl room =>
            match others with
            | [] => invite_to_room room (sender c) (room_id c) a0
            | _ =>
                for_each others (fun user =>
                  if negb (check_user_id user)
                  then reply c ("Invalid user mxid: " +:+ user)
                  else invite_to_room room user (room_id c) a0)
            end
        end
  end.

Definition _invite (c : Command) : M R unit :=
  ok <- _ensure_coordinator c ;;
  if negb ok then ret tt else invite_after_gate c.

Definition power_of_level (level : string) : Z :=
  if level == "admin" then 100 else 50.

(** [_power] past its coordinator gate. *)
Definition power_after_gate (c : Command) : M R unit :=
  text <-
    match args c with
    | [] => ret HELP_POWER
    | a0 :: _ =>
        if a0 == "help" then ret HELP_POWER
        else
          r <- attempt
                 (match args c with
                  | user :: room :: _ =>
                      if Py.startswith room "#" then
                        response <- room_resolve_alias room ;;
                        match response with
                        | Some resolved => ret (user, resolved)
                        | None => raise (mkExn AttributeError "room_id")
                        end
                      else ret (user, room)
                  | _ => raise (mkExn IndexError "list index out of range")
                  end) ;;
          match r with
          | inr e =>
              match exn_kind e with
              | AttributeError =>
                  ret "Could not resolve room ID. Please ensure room exists."
              | IndexError =>
                  ret ("Cannot understand arguments." +:+ Py.nl +:+ Py.nl +:+ HELP_POWER)
              | _ => raise e
              end
          | inl (user, room) =>
              let level :=
                match args c with
                | _ :: _ :: l :: _ => l
                | _ => "moderator"
                end in
              if negb ((level == "moderator") || (level == "admin")) then
                ret "Level must be 'moderator' or 'admin'."
              else
                denied <-
                  (if level == "admin"
                   then (is_admin <- _ensure_admin c ;; ret (negb is_admin))
                   else ret false) ;;
                if (denied : bool) then
                  ret "Only bot admins can set admin level power, sorry."
                else
                  response <- set_user_power room user (power_of_level level) ;;
                  match response with
                  | RoomPutStateError message | RoomGetStateEventError message =>
                      ret ("Sorry, command failed." +:+ Py.nl +:+ Py.nl +:+ message)
                  | RoomPutStateResponse =>
                      ret "Power level was successfully set as requested."
                  | StatusInt code =>
                      if code =? 403 then
                        ret "Failed to set power level - no permissions to do so or not in room."
                      else
                        ret ("Failed to set power level - error code " +:+
                             Py.str_int code +:+ ".")
                  | UnexpectedResponse =>
                      ret "Unknown power level response, please consult the logs."
                  end
          end
    end ;;
  reply c text.

Definition _power (c : Command) : M R unit :=
  ok <- _ensure_coordinator c ;;
  if negb ok then ret tt else power_after_gate c.

Definition _show_help (c : Command) : M R unit := reply c HELP_HELP.

Definition room_line (cfg : Config) (room : RoomRow) : string :=
  "* " +:+ room_name room +:+ " / #" +:+ room_alias room +:+ ":" +:+
  server_name cfg +:+ " / " +:+ room_room_id room.

Definition _list_rooms (spaces : bool) : M R string :=
  cfg <- gets config ;;
  rooms_ <- get_rooms spaces ;;
  ret ("I currently maintain the following " +:+
       (if spaces then "spaces" else "rooms") +:+ ":" +:+ Py.nl +:+ Py.nl +:+
       Py.join "" (List.map (fun room => room_line cfg room +:+ Py.nl) rooms_)).

(** [users.get(key, 0)] on the power-level dictionary. *)
Definition power_of (users : list (string * Z)) (key : string) : Z :=
  match List.find (fun kv => fst kv == key) users with
  | Some kv => snd kv
  | None => 0
  end.

Definition _list_no_admin_rooms (spaces : bool) : M R string :=
  cfg <- gets config ;;
  rooms_ <- get_rooms spaces ;;
  rooms_list <- for_fold rooms_ [] (fun rooms_list room =>
    levels <- get_room_power_levels (room_room_id room) ;;
    match levels with
    | Some ((_ :: _) as users) =>
        if power_of users (user_id cfg) <? 100 then
          members <- joined_members (room_room_id room) ;;
          let admin_users := List.filter (fun kv => snd kv =? 100) users in
          let suffix :=
            match admin_users with
            | [] => ""
            | _ => ". **The " +:+ (if spaces then "space" else "room") +:+ " has " +:+
                   Py.str_nat (length admin_users) +:+ " other admins.**"
            end in
          ret (rooms_list ++
               [room_line cfg room +:+ " / users: " +:+
                match members with
                | Some ((_ :: _) as user_count) => Py.str_nat (length user_count)
                | _ => "unknown"
                end +:+ suffix +:+ Py.nl])%list
        else ret rooms_list
    | _ => ret rooms_list
    end) ;;
  ret ("I lack admin power in the following " +:+
       (if spaces then "spaces" else "rooms") +:+ " I maintain:" +:+ Py.nl +:+ Py.nl +:+
       Py.join "" rooms_list).

(** [_unlink_room] past its coordinator gate. *)
Definition unlink_room_after_gate (c : Command) (leave : bool) : M R unit :=
  match args c with
  | _ :: a1 :: _ =>
      r <- attempt (ensure_room_id a1) ;;
      match r with
      | inr e =>
          match exn_kind e with
          | KeyError | ProtocolError => reply c "Error resolving room ID"
          | _ => raise e
          end
      | inl room =>
          tracked <- get_room room ;;
          match tracked with
          | None =>
              reply c ("Cannot unlink room " +:+ room +:+
                       " which doesn't seem tracked by Bubo")
          | Some _ =>
              unlink_room room ;;
              (if leave then room_leave room else ret tt) ;;
              reply c ("Room " +:+ room +:+ " has been removed from Bubo database." +:+
                       (if leave then " Bubo has also left the room" else ""))
          end
      end
  | _ => reply c HELP_ROOMS_UNLINK
  end.

Definition _unlink_room (c : Command) (leave : bool) : M R unit :=
  ok <- _ensure_coordinator c ;;
  if negb ok then ret tt else unlink_room_after_gate c leave.

Definition yes_or_no (s : string) : bool := (s == "yes") || (s == "no").

Definition rooms_help (space : bool) : string :=
  if space then HELP_SPACES else HELP_ROOMS.

Definition wrong_arguments_text (space : bool) : string :=
  "Wrong number or bad arguments. Usage:" +:+ Py.nl +:+ Py.nl +:+ rooms_help space.

(** What a branch of a handler leaves behind: it returned, or it fell
    through with the text to send, if any. *)
Inductive Flow :=
| Return
| Text (text : option string).

(** [_rooms] past its coordinator gate. *)
Definition rooms_after_gate (c : Command) (space : bool) : M R unit :=
  cfg <- gets config ;;
  let type_text := if space then "Space" else "Room" in
  flow <-
    match args c with
    | a0 :: rest =>
        if a0 == "create" then
          params <- csv_params rest ;;
          match params with
          | [p0; p1; p2; p3; p4] =>
              if negb (yes_or_no p3) || negb (yes_or_no p3) || (p0 == "help") then
                ret (Text (Some (wrong_arguments_text space)))
              else
                r <- ensure_room_exists
                       (None, p0, p1, None, p2, None,
                        (if p3 == "yes" then true else false),
                        (if p4 == "yes" then true else false),
                        (if space then "space" else "")) ;;
                let '(result, error) := r in
                if result == "created" then
                  ret (Text (Some (type_text +:+ " " +:+ p0 +:+ " (#" +:+ p1 +:+ ":" +:+
                                   server_name cfg +:+ ") " +:+ "created successfully.")))
                else if result == "exists" then
                  ret (Text (Some ("Sorry! " +:+ type_text +:+ " " +:+ p0 +:+ " (#" +:+
                                   p1 +:+ ":" +:+ server_name cfg +:+ ") " +:+
                                   "already exists.")))
                else
                  ret (Text (Some ("Error creating " +:+ type_text +:+ ": " +:+
                                   Py.str_opt error)))
          | _ =>
              ret (Text (Some (wrong_arguments_text space)))
          end
        else if a0 == "help" then ret (Text (Some (rooms_help space)))
        else if a0 == "list" then
          text <- _list_rooms space ;; ret (Text (Some text))
        else if a0 == "list-no-admin" then
          text <- _list_no_admin_rooms space ;; ret (Text (Some text))
        else if a0 == "recreate" then
          _recreate_room c (List.head rest) ;; ret Return
        else if a0 == "unlink" then
          _unlink_room c false ;; ret (Text None)
        else if a0 == "unlink-and-leave" then
          _unlink_room c true ;; ret (Text None)
        else ret (Text (Some "Unknown subcommand!"))
    | [] => text <- _list_rooms false ;; ret (Text (Some text))
    end ;;
  match flow with
  | Text text => if Py.truthy text then reply c (Py.str_opt text) else ret tt
  | Return => ret tt
  end.

Definition _rooms (c : Command) (space : bool) : M R unit :=
  ok <- _ensure_coordinator c ;;
  if negb ok then ret tt else rooms_after_gate c space.

Definition _unknown_command (c : Command) : M R unit :=
  reply c ("Unknown command '" +:+ command c +:+
           "'. Try the 'help' command for more information.").

(** [re.sub(r"[^a-z0-9._\-]", "", s)] *)
Definition username_char (a : ascii) : bool :=
  let n := nat_of_ascii a in
  ((97 <=? n)%nat && (n <=? 122)%nat) || ((48 <=? n)%nat && (n <=? 57)%nat)
  || (n =? 46)%nat || (n =? 95)%nat || (n =? 45)%nat.

Definition username_candidate_of (email : string) : string :=
  Py.filter_chars username_char (Py.lower (Py.before "@"%char email)).

(** [f"{username_candidate}{counter}"] *)
Definition suffixed (username_candidate : string) (counter : nat) : string :=
  username_candidate +:+ Py.str_nat counter.

(** The [while not username] loop of [users create], run for at most
    [fuel] iterations.  A lookup that raises counts as an existing user;
    an empty candidate that is free leaves [username] false, and the loop
    goes round again. *)
Fixpoint pick_username (fuel : nat) (username_candidate candidate : string)
    (counter : nat) : M R string :=
  match fuel with
  | O => out_of_steps
  | S fuel' =>
      r <- attempt (get_user_by_attr "username" candidate) ;;
      let existing_user :=
        match r with
        | inl (Some _) => true
        | inl None => false
        | inr _ => true
        end in
      if existing_user then
        pick_username fuel' username_candidate
          (suffixed username_candidate (counter + 1)) (counter + 1)
      else if Py.nonempty candidate then ret candidate
      else pick_username fuel' username_candidate candidate counter
  end.

(** The end of the body of the [for email in emails] loop of
    [users create], once the username is chosen. *)
Definition users_create_account (texts : list string) (email username : string)
    : M R (list string) :=
  user <- create_user username email ;;
  match user with
  | Some uid =>
      if Py.nonempty uid then
        send_password_reset uid ;;
        ret (texts ++ ["Successfully create " +:+ email +:+ "!"])%list
      else ret (texts ++ ["Failed to create user for email " +:+ email])%list
  | None => ret (texts ++ ["Failed to create user for email " +:+ email])%list
  end.

(** The body of the [for email in emails] loop of [users create]. *)
Definition users_create_email (fuel : nat) (texts : list string) (email : string)
    : M R (list string) :=
  match validate_email email with
  | inr ex =>
      ret (texts ++ ["The email " +:+ email +:+ " looks invalid: " +:+ ex])%list
  | inl email =>
      r <- attempt (get_user_by_attr "email" email) ;;
      match r with
      | inr ex =>
          ret (texts ++ ["Error looking up existing users by email " +:+ email +:+
                         ": " +:+ exn_str ex])%list
      | inl (Some _) =>
          ret (texts ++ ["Found an existing user by email " +:+ email +:+
                         " - ignoring"])%list
      | inl None =>
          let username_candidate := username_candidate_of email in
          username <- pick_username fuel username_candidate username_candidate 0 ;;
          users_create_account texts email username
      end
  end.

(** The body of the [for email in emails] loop of [users invite]. *)
Definition users_invite_email (c : Command) (texts : list string) (email : string)
    : M R (list string) :=
  match validate_email email with
  | inr ex =>
      ret (texts ++ ["The email " +:+ email +:+ " looks invalid: " +:+ ex])%list
  | inl email =>
      r <- attempt (invite_user email (sender c)) ;;
      match r with
      | inr _ => ret (texts ++ ["Error inviting " +:+ email +:+ ", please see logs."])%list
      | inl _ => ret (texts ++ ["Successfully invited " +:+ email +:+ "!"])%list
      end
  end.

(** [{email.strip() for email in emails}], in iteration order. *)
Definition email_set (emails : list string) : list string :=
  elements (list_to_set (List.map Py.strip emails) : gset string).

Definition usernames_found (users : list KcUser) : string :=
  "The following usernames were found: " +:+ Py.join ", " (List.map kc_username users).

(** The [invite] branch of [_users] past its coordinator gate; [rest] is
    [self.args[1:]]. *)
Definition users_invite_after_gate (c : Command) (rest : list string) : M R Flow :=
  cfg <- gets config ;;
  if negb (keycloak_signup_enabled cfg) then
    reply c HELP_USERS_KEYCLOAK_SIGNUP_DISABLED ;; ret Return
  else
    match rest with
    | [] => reply c HELP_USERS_INVITE ;; ret Return
    | a1 :: _ =>
        if a1 == "help" then reply c HELP_USERS_INVITE ;; ret Return
        else
          texts <- for_fold (email_set rest) [] (users_invite_email c) ;;
          ret (Text (Some (Py.join Py.nl texts)))
    end.

Definition users_invite (c : Command) (rest : list string) : M R Flow :=
  ok <- _ensure_coordinator c ;;
  if negb ok then ret Return else users_invite_after_gate c rest.

(** The [signuplink] branch of [_users] past its coordinator gate. *)
Definition users_signuplink_after_gate (c : Command) (rest : list string) : M R Flow :=
  cfg <- gets config ;;
  if negb (keycloak_signup_enabled cfg) then
    reply c HELP_USERS_KEYCLOAK_SIGNUP_DISABLED ;; ret Return
  else
    match rest with
    | a1 :: a2 :: _ =>
        if a1 == "help" then reply c HELP_USERS_SIGNUPLINK ;; ret Return
        else
          match py_int a1, py_int a2 with
          | Some max_signups, Some days_valid =>
              if (max_signups <? 1) || (days_valid <? 1) then
                reply c HELP_USERS_SIGNUPLINK ;; ret Return
              else
                r <- attempt (create_signup_link (sender c) max_signups days_valid) ;;
                match r with
                | inr _ =>
                    ret (Text (Some "Error creating signup link. Please contact an administrator."))
                | inl signup_link =>
                    ret (Text (Some
                      ("Signup link created for " +:+ Py.str_int max_signups +:+
                       " signups with a validity of " +:+ Py.str_int days_valid +:+
                       " days. " +:+ "The link is " +:+ signup_link)))
                end
          | _, _ => reply c HELP_USERS_SIGNUPLINK ;; ret Return
          end
    | _ => reply c HELP_USERS_SIGNUPLINK ;; ret Return
    end.

Definition users_signuplink (c : Command) (rest : list string) : M R Flow :=
  ok <- _ensure_coordinator c ;;
  if negb ok then ret Return else users_signuplink_after_gate c rest.

Definition _users (fuel : nat) (c : Command) : M R unit :=
  cfg <- gets config ;;
  if negb (keycloak_enabled cfg) then reply c HELP_USERS_KEYCLOAK_DISABLED else
  flow <-
    match args c with
    | a0 :: rest =>
        if a0 == "list" then
          ok <- _ensure_admin c ;;
          if negb ok then ret Return else
          users <- list_users ;;
          ret (Text (Some (usernames_found users)))
        else if a0 == "help" then ret (Text (Some HELP_USERS))
        else if a0 == "create" then
          ok <- _ensure_admin c ;;
          if negb ok then ret Return else
          match rest with
          | [] => ret (Text (Some HELP_USERS_CREATE))
          | a1 :: _ =>
              if a1 == "help" then ret (Text (Some HELP_USERS_CREATE))
              else
                texts <- for_fold (email_set rest) [] (users_create_email fuel) ;;
                ret (Text (Some (Py.join Py.nl texts)))
          end
        else if a0 == "invite" then users_invite c rest
        else if a0 == "signuplink" then users_signuplink c rest
        else ret (Text None)
    | [] =>
        ok <- _ensure_admin c ;;
        if negb ok then ret Return else
        users <- list_users ;;
        ret (Text (Some (usernames_found users)))
    end ;;
  match flow with
  | Return => ret tt
  | Text text =>
      reply c (if Py.truthy text then Py.str_opt text else HELP_USERS)
  end.

(** [Command.process]; [fuel] bounds the iterations of the username
    loop. *)
Definition process (fuel : nat) (c : Command) : M R unit :=
  if Py.startswith (command c) "breakout" then _breakout c
  else if Py.startswith (command c) "communities" then _communities c
  else if Py.startswith (command c) "help" then _show_help c
  else if Py.startswith (command c) "invite" then _invite c
  else if Py.startswith (command c) "power" then _power c
  else if Py.startswith (command c) "rooms" then _rooms c false
  else if Py.startswith (command c) "spaces" then _rooms c true
  else if Py.startswith (command c) "users" then _users fuel c
  else _unknown_command c.

(** The verbs [process] knows, in the order it tries them, each with its
    handler. *)
Definition routes (fuel : nat) : list (string * (Command -> M R unit)) :=
  [ ("breakout", _breakout);
    ("communities", _communities);
    ("help", _show_help);
    ("invite", _invite);
    ("power", _power);
    ("rooms", fun c => _rooms c false);
    ("spaces", fun c => _rooms c true);
    ("users", _users fuel) ].

Definition known_verbs : list string :=
  ["help"; "breakout"; "rooms"; "spaces"; "communities"; "power"; "invite"; "users"].

(** The first whitespace-separated token of the command text. *)
Definition first_token (c : Command) : option string :=
  List.head (Py.split (command c)).

Definition unknown_command_text (c : Command) : string :=
  "Unknown command '" +:+ command c +:+
  "'. Try the 'help' command for more information.".

(** An argument list that asks for help: empty, or with [help] first. *)
Definition asks_help (l : list string) : Prop :=
  l = [] ∨ exists rest, l = "help" :: rest.

(** The handlers that call for the coordinator tier, each with what it
    does past its gate; and the two such branches of [_users]. *)
Definition coordinator_gated : list ((Command -> M R unit) * (Command -> M R unit)) :=
  [ (_communities, communities_after_gate);
    (_invite, invite_after_gate);
    (_power, power_after_gate);
    ((fun c => _rooms c false), (fun c => rooms_after_gate c false));
    ((fun c => _rooms c true), (fun c => rooms_after_gate c true));
    ((fun c => _unlink_room c false), (fun c => unlink_room_after_gate c false));
    ((fun c => _unlink_room c true), (fun c => unlink_room_after_gate c true)) ].

Definition coordinator_gated_branches
    : list ((Command -> list string -> M R Flow) * (Command -> list string -> M R Flow)) :=
  [ (users_invite, users_invite_after_gate);
    (users_signuplink, users_signuplink_after_gate) ].

End Handlers.

(** ** A simulated deployment

    A concrete instance of the interfaces, used to run the handlers on
    concrete commands: a homeserver that knows a list of groups, a
    Keycloak realm with a list of accounts matched exactly, a signup
    service that answers with a token, a database that takes one
    mapping per event id, and a journal of the calls made to the other
    services. *)

Module Sim.

Record Remote := mkRemote {
  groups : list string;
  accounts : list KcUser;
  journal : list string
}.

Definition log (entry : string) : M Remote unit :=
  modify (fun w =>
    with_remote (mkRemote (groups (remote w)) (accounts (remote w))
                   (journal (remote w) ++ [entry])) w).

Definition yes_no (b : bool) : string := if b then "yes" else "no".

Definition sim_ensure_room_exists (t : RoomTuple) : M Remote (string * option string) :=
  let '(_, name, alias, _, parent, _, flag6, flag7, kind) := t in
  log ("ensure_room_exists " +:+ name +:+ " " +:+ alias +:+ " " +:+ parent +:+
       " " +:+ yes_no flag6 +:+ " " +:+ yes_no flag7) ;;
  ret ("created", None).

Definition sim_create_breakout_room (name created_by : string) : M Remote string :=
  log ("create_breakout_room " +:+ name) ;; ret "!breakout:example.org".

Definition sim_set_user_power (room user : string) (power : Z) : M Remote PowerResponse :=
  log ("set_user_power " +:+ room +:+ " " +:+ user +:+ " " +:+ Py.str_int power) ;;
  ret RoomPutStateResponse.

Definition mark_applied (room : string) (r : RecreateRow) : RecreateRow :=
  if rr_room_id r == room
  then mkRecreateRow (rr_room_id r) (requester r) (timestamp r) true
  else r.

Definition sim_recreate_room (room event : string) : M Remote (option string) :=
  log ("recreate_room " +:+ room) ;;
  modify (fun w =>
    with_store (with_recreate_rooms
      (List.map (mark_applied room) (recreate_rooms (store w))) (store w)) w) ;;
  ret (Some "!new:example.org").

Definition matches (query : option (string * string)) (u : KcUser) : bool :=
  match query with
  | None => true
  | Some (attr, value) =>
      if attr == "username" then kc_username u == value
      else if attr == "email" then kc_email u == value
      else false
  end.

Definition sim_kc_get_users (query : option (string * string)) : M Remote (list KcUser) :=
  gets (fun w => List.filter (matches query) (accounts (remote w))).

Definition sim_kc_create_user (username email : string) : M Remote (option string) :=
  modify (fun w =>
    with_remote (mkRemote (groups (remote w))
                   (accounts (remote w) ++ [mkKcUser ("id-" +:+ username) username email])
                   (journal (remote w))) w) ;;
  ret (Some ("id-" +:+ username)).

Definition response (status : Z) : Response := mkResponse status "b''" None.

(** The signup service answers with the token of the new page. *)
Definition page_created : Response :=
  mkResponse 200 "b'...'" (Some (JObj (JMember "signup_token" (JStr "page-1") JEnd))).

Definition sim_requests_get (url : string) (headers : list (string * string))
    : M Remote Response :=
  gets (fun w =>
    if List.existsb (fun alias => url == group_profile_url (config w) alias)
         (groups (remote w))
    then response 200 else response 404).

Definition sim_requests_post (url : string) (body : Json)
    (headers : list (string * string)) : M Remote Response :=
  match body with
  | JObj (JMember _ (JStr alias) (JMember _ (JObj _) JEnd)) =>
      modify (fun w =>
        with_remote (mkRemote (groups (remote w) ++ [alias]) (accounts (remote w))
                       (journal (remote w))) w) ;;
      ret (response 200)
  | JObj (JMember "creator" _ _) => ret page_created
  | _ => ret (response 200)
  end.

(** The database refuses a second mapping for an event id. *)
Definition sim_persist_breakout_room (event room : string) : M Remote unit :=
  mappings <- gets (fun w => breakout_rooms (store w)) ;;
  if List.existsb (fun mapping => fst mapping == event) mappings
  then raise (mkExn OtherException "UNIQUE constraint failed: breakout_rooms.event_id")
  else ret tt.

Fixpoint digits_value (acc : Z) (s : string) : option Z :=
  match s with
  | EmptyString => Some acc
  | String a s' =>
      let n := nat_of_ascii a in
      if (48 <=? n)%nat && (n <=? 57)%nat
      then digits_value (10 * acc + Z.of_nat (n - 48)) s'
      else None
  end.

(** [int(s)] for a decimal numeral with an optional sign. *)
Definition sim_py_int (s : string) : option Z :=
  match s with
  | EmptyString => None
  | String a (String _ _ as digits) =>
      if Ascii.eqb a "-" then option_map Z.opp (digits_value 0 digits)
      else if Ascii.eqb a "+" then digits_value 0 digits
      else digits_value 0 s
  | _ => digits_value 0 s
  end.

(** A CPython from 3.11 on. *)
#[export] Instance interpreter : Interpreter := {
  csv_refuses_nul := false
}.

#[export] Instance collaborators : Collaborators Remote := {
  ensure_room_exists := sim_ensure_room_exists;
  create_breakout_room := sim_create_breakout_room;
  set_user_power := sim_set_user_power;
  get_room_power_levels := fun _ => ret None;
  recreate_room := sim_recreate_room;
  joined_members := fun _ => ret None;
  ensure_room_id := fun room => ret room;
  invite_to_room := fun room user _ _ => log ("invite_to_room " +:+ room +:+ " " +:+ user);
  room_resolve_alias := fun _ => ret None;
  room_leave := fun room => log ("room_leave " +:+ room);
  check_user_id := fun user => Py.startswith user "@";
  validate_email := fun email =>
    if Py.contains email "@" then inl email else inr "The email address is not valid.";
  kc_get_users := sim_kc_get_users;
  kc_create_user := sim_kc_create_user;
  kc_send_update_account := fun user _ => log ("send_update_account " +:+ user);
  requests_get := sim_requests_get;
  requests_post := sim_requests_post;
  send_plain_email := fun email _ => log ("send_plain_email " +:+ email);
  persist_breakout_room := sim_persist_breakout_room;
  py_int := sim_py_int
}.

#[export] Instance help_strings : HelpStrings := {
  HELP_HELP := "help text";
  HELP_INVITE := "invite help";
  HELP_ROOMS := "rooms help";
  HELP_SPACES := "spaces help";
  HELP_ROOMS_RECREATE := "recreate help";
  HELP_ROOMS_RECREATE_CONFIRM := fun prefix =>
    "Please confirm with " +:+ prefix +:+ " rooms recreate confirm";
  HELP_ROOMS_UNLINK := "unlink help";
  HELP_USERS := "users help";
  HELP_USERS_CREATE := "users create help";
  HELP_USERS_INVITE := "users invite help";
  HELP_USERS_SIGNUPLINK := "users signuplink help";
  HELP_USERS_KEYCLOAK_DISABLED := "keycloak is disabled";
  HELP_USERS_KEYCLOAK_SIGNUP_DISABLED := "keycloak signup is disabled";
  INVITE_LINK_EMAIL := "Join %%organisation%% at %%link%% within %%days%% days."
}.

Definition cfg : Config :=
  mkConfig ["@alice:example.org"; "@bob:example.org"] ["@carol:example.org"]
    "example.org" "!bubo"
    "@bubo:example.org" "https://example.org" "token" true true
    (Some "https://signup.example.org") (Some "secret") (Some 7) None "Example".

Definition empty_storage : Storage := mkStorage [] [] [] [].

(** A fresh deployment at time [1000]: every message is delivered, the
    [n]-th with event id [$event]. *)
Definition world0 : World Remote :=
  mkWorld cfg 1000 empty_storage [] (fun _ => Some "$event") (mkRemote [] [] []).

Definition cmd (text who : string) : Command :=
  mkCommand text "!room:example.org" who "$command".

Definition alice : string := "@alice:example.org".
Definition bob : string := "@bob:example.org".
Definition carol : string := "@carol:example.org".
Definition mallory : string := "@mallory:example.org".

(** Runs commands one after the other; the run stops at the first one
    that does not end normally. *)
Fixpoint run (fuel : nat) (cs : list Command) (w : World Remote) : World Remote :=
  match cs with
  | [] => w
  | c :: cs' =>
      match process fuel c w with
      | (Done _, w') => run fuel cs' w'
      | (_, w') => w'
      end
  end.

(** The deployment after Alice asked for the recreation of the room, and
    after she confirmed it. *)
Definition pending : World Remote := run 0 [cmd "rooms recreate" alice] world0.

Definition recreated : World Remote :=
  run 0 [cmd "rooms recreate" alice; cmd "rooms recreate confirm" alice] world0.

(** A deployment whose transport fails to send, one that tracks the room
    Lobby, one whose realm has the account [a], and the group of the
    example of the [communities] help. *)
Definition offline : World Remote :=
  mkWorld cfg 1000 empty_storage [] (fun _ => None) (mkRemote [] [] []).

(** The deployment after a first breakout room was announced: the
    database holds the mapping for the event id [$event], which the
    transport also returns for every later message. *)
Definition announced : World Remote :=
  run 0 [cmd "breakout Coffee chat" mallory] world0.

Definition tracking : World Remote :=
  with_store
    (with_rooms [mkRoomRow "Lobby" "lobby" "!lobby:example.org" false] empty_storage)
    world0.

Definition registered : World Remote :=
  with_remote (mkRemote [] [mkKcUser "id-a" "a" "a@elsewhere.org"] []) world0.

Definition epic : CommunityTuple :=
  mkCommunityTuple None "My epic community" "epic-community"
    "The best community ever!" None None.

End Sim.

(** ** The maintenance loop of [bubo/communities.py] and notions for
    stating what the handlers do *)

Section Maintenance.
Context {R : Type} `{Interpreter} `{HelpStrings} `{Collaborators R}.

(** Modelled from the spec: a row of the tracked groups as the tuple
    [(dbid, name, alias, title, icon, description)] that
    [select * from communities] yields; the table holds name, alias and
    title, the other columns are empty. *)
Definition community_tuple (row : CommunityRow) : CommunityTuple :=
  mkCommunityTuple None (community_name row) (community_alias row)
    (community_title row) None None.

(** [maintain_configured_communities]: every tracked group is ensured;
    an exception is logged and the loop goes on. *)
Definition maintain_configured_communities : M R unit :=
  communities_ <- gets (fun w => communities (store w)) ;;
  for_each communities_ (fun community =>
    attempt (ensure_community_exists (community_tuple community)) ;; ret tt).

(** The world once the texts have been handed to the transport, one
    after the other, for the same room. *)
Fixpoint posted_all (room : string) (texts : list string) (w : World R) : World R :=
  match texts with
  | [] => w
  | text :: texts' => posted_all room texts' (posted room text w)
  end.

(** The tracked room with a given id, and the world once the room has
    been removed from the tracked rooms. *)
Definition tracked_room (room : string) (w : World R) : option RoomRow :=
  List.find (fun r => room_room_id r == room) (rooms (store w)).

Definition unlinked (room : string) (w : World R) : World R :=
  with_store
    (with_rooms (List.filter (fun r => negb (room_room_id r == room)) (rooms (store w)))
       (store w)) w.

End Maintenance.

(** [f"{config.keycloak_signup.get('url')}/api/pages"] *)
Definition signup_pages_url (cfg : Config) : string :=
  Py.str_opt (keycloak_signup_url cfg) +:+ "/api/pages".

(** A character of a token that the csv reader takes as it is: no double
    quote and no blank. *)
Definition plain_char (a : ascii) : bool :=
  negb (Ascii.eqb a (ascii_of_nat 34)) && negb (Py.is_space a).

Fixpoint all_chars (p : ascii -> bool) (s : string) : bool :=
  match s with
  | EmptyString => true
  | String a s' => p a && all_chars p s'
  end.

Definition no_newline (s : string) : bool :=
  all_chars (fun a => negb (Csv.is_newline a)) s.

(** No character that the csv reader of the interpreter refuses: on a
    CPython before 3.11, no NUL. *)
Definition csv_readable `{Interpreter} (s : string) : bool :=
  all_chars (fun a => negb (Ascii.eqb a Ascii.zero && csv_refuses_nul)) s.

(** A text that fits in one field of the csv reader. *)
Definition within_field_limit (s : string) : Prop :=
  (N.of_nat (String.length s) <= Csv.field_limit)%N.

(** A token as [str.split()] yields it: not empty, no blank inside. *)
Definition is_token (s : string) : bool :=
  Py.nonempty s && all_chars (fun a => negb (Py.is_space a)) s.

(** How a computation ended. *)
Definition raised {A} (o : Outcome A) : bool :=
  match o with Raised _ => true | _ => false end.

(** Further deployments to run the handlers on. *)
Module Scenarios.
Import Sim.

(** A realm with two accounts of the same username and one other. *)
Definition crowded : World Remote :=
  with_remote
    (mkRemote []
       [mkKcUser "id-1" "a" "a@one.org"; mkKcUser "id-2" "a" "a@two.org";
        mkKcUser "id-3" "b" "b@one.org"] [])
    world0.

(** A deployment with Keycloak switched off. *)
Definition no_keycloak : World Remote :=
  mkWorld
    (mkConfig [alice; bob] [carol] "example.org" "!bubo" "@bubo:example.org"
       "https://example.org" "token" false false None None None None "Example")
    1000 empty_storage [] (fun _ => Some "$event") (mkRemote [] [] []).

(** A deployment that tracks two rooms; one that tracks a group the
    homeserver knows. *)
Definition two_rooms : World Remote :=
  with_store
    (with_rooms
       [mkRoomRow "Lobby" "lobby" "!lobby:example.org" false;
        mkRoomRow "Attic" "attic" "!attic:example.org" false]
       empty_storage)
    world0.

Definition with_group : World Remote :=
  with_store
    (with_communities [mkCommunityRow "My epic community" "epic-community" "Best"]
       empty_storage)
    (with_remote (mkRemote ["epic-community"] [] []) world0).

End Scenarios.

(** * Properties *)

Example split_example :
  Py.split "rooms  recreate confirm " = ["rooms"; "recreate"; "confirm"].
Proof. reflexivity. Qed.

Example replace_example :
  Py.replace "a %%x%% b %%x%%" "%%x%%" "yy" = "a yy b yy".
Proof. reflexivity. Qed.

Example csv_quoted_example `{Interpreter} :
  Csv.reader_first " "%char
    (Py.dq +:+ "My room" +:+ Py.dq +:+ " alias parent yes no")
  = Some ["My room"; "alias"; "parent"; "yes"; "no"].
Proof. reflexivity. Qed.

Example csv_empty_example `{Interpreter} : Csv.reader_first " "%char "" = Some [].
Proof. reflexivity. Qed.

Section Facts.
Context {R : Type} `{Interpreter} `{HelpStrings} `{Collaborators R}.

Implicit Types (c : Command) (w : World R).

(** *** The monad *)

Lemma bind_done {A B} (m : M R A) (k : A -> M R B) w a w' :
  m w = (Done a, w') -> bind m k w = k a w'.
Proof. intros Hm. unfold bind. rewrite Hm. reflexivity. Qed.

Lemma bind_ret {A B} (a : A) (k : A -> M R B) w : bind (ret a) k w = k a w.
Proof. reflexivity. Qed.

Lemma bind_gets {A B} (f : World R -> A) (k : A -> M R B) w :
  bind (gets f) k w = k (f w) w.
Proof. reflexivity. Qed.

Lemma reply_posted c text w :
  reply c text w = (Done tt, posted (room_id c) text w).
Proof. reflexivity. Qed.

(** *** The permission gates *)

Lemma ensure_admin_member c w :
  sender c ∈ admins (config w) -> _ensure_admin c w = (Done true, w).
Proof.
  intros Hin. unfold _ensure_admin, get_users_for_access, bind, gets, ret.
  cbn -[bool_decide].
  rewrite bool_decide_eq_true_2 by assumption. reflexivity.
Qed.

Lemma ensure_admin_other c w :
  sender c ∉ admins (config w) -> _ensure_admin c w = (Done false, denied_admin c w).
Proof.
  intros Hin. unfold _ensure_admin, get_users_for_access, bind, gets, ret.
  cbn -[bool_decide].
  rewrite bool_decide_eq_false_2 by assumption. reflexivity.
Qed.

Lemma ensure_coordinator_member c w :
  sender c ∈ coordinators (config w) ∨ sender c ∈ admins (config w) ->
  _ensure_coordinator c w = (Done true, w).
Proof.
  intros Hin. unfold _ensure_coordinator, get_users_for_access, bind, gets, ret.
  cbn -[bool_decide].
  rewrite bool_decide_eq_true_2 by (apply elem_of_app; assumption). reflexivity.
Qed.

Lemma ensure_coordinator_other c w :
  sender c ∉ coordinators (config w) -> sender c ∉ admins (config w) ->
  _ensure_coordinator c w = (Done false, denied_coordinator c w).
Proof.
  intros Hc Ha. unfold _ensure_coordinator, get_users_for_access, bind, gets, ret.
  cbn -[bool_decide].
  rewrite bool_decide_eq_false_2; [reflexivity |].
  rewrite elem_of_app. tauto.
Qed.

(** *** Tiers *)

Lemma gated_denied c w (body : M R unit) :
  sender c ∉ coordinators (config w) -> sender c ∉ admins (config w) ->
  (ok <- _ensure_coordinator c ;; if negb ok then ret tt else body) w
  = (Done tt, denied_coordinator c w).
Proof.
  intros Hc Ha. rewrite (bind_done _ _ _ _ _ (ensure_coordinator_other c w Hc Ha)).
  reflexivity.
Qed.

Lemma gated_permitted c w (body : M R unit) :
  sender c ∈ coordinators (config w) ∨ sender c ∈ admins (config w) ->
  (ok <- _ensure_coordinator c ;; if negb ok then ret tt else body) w = body w.
Proof.
  intros Hin. rewrite (bind_done _ _ _ _ _ (ensure_coordinator_member c w Hin)).
  reflexivity.
Qed.

Lemma coordinator_gated_inv h body :
  (h, body) ∈ coordinator_gated ->
  exists k : Command -> M R unit,
    body = k ∧
    h = fun c => (ok <- _ensure_coordinator c ;; if negb ok then ret tt else k c).
Proof.
  unfold coordinator_gated. intros Hin.
  repeat (apply elem_of_cons in Hin as [Hin|Hin];
          [injection Hin as -> ->; eexists; split; reflexivity|]).
  apply elem_of_nil in Hin. destruct Hin.
Qed.

Lemma coordinator_gated_branches_inv h body :
  (h, body) ∈ coordinator_gated_branches ->
  exists k : Command -> list string -> M R Flow,
    body = k ∧
    h = fun c rest =>
          (ok <- _ensure_coordinator c ;; if negb ok then ret Return else k c rest).
Proof.
  unfold coordinator_gated_branches. intros Hin.
  repeat (apply elem_of_cons in Hin as [Hin|Hin];
          [injection Hin as -> ->; eexists; split; reflexivity|]).
  apply elem_of_nil in Hin. destruct Hin.
Qed.

(** C3.  Every handler that calls for the coordinator tier turns away a
    sender who is in neither membership set, with the permission message
    and nothing else; for a sender in the admin set the coordinator gate
    passes silently and each of these handlers does what it does past its
    gate.  The converse fails: a sender who is a coordinator and no admin
    is turned away by the admin gate, by every [recreate] command, when
    granting the admin power level, and when listing or creating user
    accounts. *)
Theorem permission_tiers c w :
  (sender c ∉ coordinators (config w) -> sender c ∉ admins (config w) ->
     (forall h body, (h, body) ∈ coordinator_gated ->
        h c w = (Done tt, denied_coordinator c w))
     ∧ (forall h body rest, (h, body) ∈ coordinator_gated_branches ->
        h c rest w = (Done Return, denied_coordinator c w)))
  ∧ (sender c ∈ admins (config w) ->
     _ensure_coordinator c w = (Done true, w)
     ∧ (forall h body, (h, body) ∈ coordinator_gated -> h c w = body c w)
     ∧ (forall h body rest, (h, body) ∈ coordinator_gated_branches ->
        h c rest w = body c rest w))
  ∧ (sender c ∈ coordinators (config w) -> sender c ∉ admins (config w) ->
     _ensure_admin c w = (Done false, denied_admin c w)
     ∧ (forall subcommand, _recreate_room c subcommand w = (Done tt, denied_admin c w))
     ∧ (forall user room rest,
          args c = user :: room :: "admin" :: rest ->
          user ≠ "help" -> Py.startswith room "#" = false ->
          _power c w
          = (Done tt,
             posted (room_id c) "Only bot admins can set admin level power, sorry."
               (denied_admin c w)))
     ∧ (forall fuel,
          keycloak_enabled (config w) = true ->
          args c = [] ∨ (exists rest, args c = "list" :: rest)
          ∨ (exists rest, args c = "create" :: rest) ->
          _users fuel c w = (Done tt, denied_admin c w))).
Proof.
  split; [|split].
  - intros Hc Ha. split.
    + intros h body Hin. destruct (coordinator_gated_inv h body Hin) as (k & -> & ->).
      apply gated_denied; assumption.
    + intros h body rest Hin.
      destruct (coordinator_gated_branches_inv h body Hin) as (k & -> & ->).
      rewrite (bind_done _ _ _ _ _ (ensure_coordinator_other c w Hc Ha)). reflexivity.
  - intros Ha. split; [|split].
    + apply ensure_coordinator_member. right. exact Ha.
    + intros h body Hin. destruct (coordinator_gated_inv h body Hin) as (k & -> & ->).
      apply gated_permitted. right. exact Ha.
    + intros h body rest Hin.
      destruct (coordinator_gated_branches_inv h body Hin) as (k & -> & ->).
      rewrite (bind_done _ _ _ _ _ (ensure_coordinator_member c w (or_intror Ha))).
      reflexivity.
  - intros Hc Ha. split; [|split; [|split]].
    + apply ensure_admin_other. exact Ha.
    + intros subcommand. unfold _recreate_room.
      rewrite (bind_done _ _ _ _ _ (ensure_admin_other c w Ha)). reflexivity.
    + intros user room rest Hargs Huser Hroom.
      unfold _power. rewrite gated_permitted by (left; exact Hc).
      unfold power_after_gate. rewrite Hargs.
      destruct (String.eqb_spec user "help") as [E|E]; [congruence|].
      unfold attempt, try_except, bind at 1 2 3 4. cbn -[_ensure_admin reply].
      rewrite Hroom. cbn -[_ensure_admin reply].
      unfold bind at 1 2. rewrite (ensure_admin_other c w Ha). reflexivity.
    + intros fuel Hkc Hargs. unfold _users. rewrite bind_gets, Hkc.
      destruct Hargs as [->|[[rest ->]|[rest ->]]];
        cbn -[_ensure_admin]; unfold bind at 1 2;
        rewrite (ensure_admin_other c w Ha); reflexivity.
Qed.

(** *** Room recreation *)

Lemma get_recreate_room_stored c w :
  get_recreate_room (room_id c) w = (Done (stored_request c w), w).
Proof. reflexivity. Qed.

Lemma find_filter_other (room : string) (l : list RecreateRow) :
  List.find (fun r => rr_room_id r == room)
    (List.filter (fun r => negb (rr_room_id r == room)) l) = None.
Proof.
  induction l as [|r l IH]; [reflexivity|]. cbn.
  destruct (rr_room_id r == room) eqn:E; cbn; [exact IH|]. rewrite E. exact IH.
Qed.

Lemma find_app_none {A} (f : A -> bool) (l1 l2 : list A) :
  List.find f l1 = None -> List.find f (l1 ++ l2) = List.find f l2.
Proof.
  induction l1 as [|x l1 IH]; cbn; [reflexivity|].
  destruct (f x); [discriminate|exact IH].
Qed.

Lemma filter_filter_other (room : string) (l : list RecreateRow) :
  List.filter (fun r => rr_room_id r == room)
    (List.filter (fun r => negb (rr_room_id r == room)) l) = [].
Proof.
  induction l as [|r l IH]; [reflexivity|]. cbn.
  destruct (rr_room_id r == room) eqn:E; cbn; [exact IH|]. rewrite E. exact IH.
Qed.

Lemma filter_filter_keep (room room' : string) (l : list RecreateRow) :
  room' ≠ room ->
  List.filter (fun r => rr_room_id r == room')
    (List.filter (fun r => negb (rr_room_id r == room)) l)
  = List.filter (fun r => rr_room_id r == room') l.
Proof.
  intros Hne. induction l as [|r l IH]; [reflexivity|]. cbn.
  destruct (String.eqb_spec (rr_room_id r) room) as [E|E]; cbn.
  - destruct (String.eqb_spec (rr_room_id r) room') as [E'|E']; [congruence|exact IH].
  - destruct (rr_room_id r == room'); [f_equal|]; exact IH.
Qed.

Lemma room_ids_filter_other (room : string) (l : list RecreateRow) :
  room ∉ List.map rr_room_id (List.filter (fun r => negb (rr_room_id r == room)) l).
Proof.
  induction l as [|r l IH]; cbn; [apply not_elem_of_nil|].
  destruct (String.eqb_spec (rr_room_id r) room) as [E|E]; cbn; [exact IH|].
  rewrite not_elem_of_cons. split; [congruence|exact IH].
Qed.

Lemma one_request_filter (f : RecreateRow -> bool) (l : list RecreateRow) :
  one_request_per_room l -> one_request_per_room (List.filter f l).
Proof.
  unfold one_request_per_room. induction l as [|r l IH]; cbn; [trivial|].
  intros Hnd. apply NoDup_cons in Hnd as [Hnotin Hnd].
  destruct (f r); cbn; [|auto].
  apply NoDup_cons. split; [|auto].
  intros Hin. apply Hnotin.
  apply list_elem_of_In, in_map_iff in Hin as (x & Hx & Hin).
  apply filter_In in Hin as [Hin _].
  apply list_elem_of_In, in_map_iff. eauto.
Qed.

Lemma recreate_confirmed_run c w :
  recreate_confirmed c w
  = match recreate_room (room_id c) (event_id c) w with
    | (Done new_room_id, w1) =>
        (Done tt,
         if Py.truthy new_room_id then w1
         else posted (room_id c)
                "Failed to create new room. Please see logs or contact support." w1)
    | (Raised e, w1) => (Raised e, w1)
    | (Unfinished, w1) => (Unfinished, w1)
    end.
Proof.
  unfold recreate_confirmed, bind.
  destruct (recreate_room (room_id c) (event_id c) w) as [[new_room_id|e|] w1];
    [|reflexivity|reflexivity].
  destruct (Py.truthy new_room_id); reflexivity.
Qed.

(** C1.  A [recreate confirm] for a room with a pending request [r] is
    gated by two checks in this order.  From a sender other than the
    requester it is rejected whatever the time: one message is sent, the
    stored request stays as it was, and for an admin sender the message is
    the one of the requester check.  From the requester, holding the admin
    tier, it is rejected with the message of the time check when more than
    60 seconds have passed since the request's timestamp, the stored
    request again unchanged.  When at most 60 seconds have passed it goes
    on to apply the request: the handler calls [recreate_room] for the room
    with the event id of the command, ends as that call ends, and sends
    the failure message when the call returns no new room id. *)
Theorem recreate_confirm_gates c w r :
  stored_request c w = Some r ->
  applied r = false ->
  (sender c ≠ requester r ->
     exists text,
       _recreate_room c (Some "confirm") w = (Done tt, posted (room_id c) text w)
       ∧ stored_request c (posted (room_id c) text w) = Some r
       ∧ (sender c ∈ admins (config w) ->
          text = "Room recreate confirm must be given by the room recreate requester."))
  ∧ (sender c = requester r -> sender c ∈ admins (config w) ->
     60 < clock w - timestamp r ->
     let text := "Room recreate confirmation must be given within 60 seconds. Please request recreation again." in
     _recreate_room c (Some "confirm") w = (Done tt, posted (room_id c) text w)
     ∧ stored_request c (posted (room_id c) text w) = Some r)
  ∧ (sender c = requester r -> sender c ∈ admins (config w) ->
     clock w - timestamp r <= 60 ->
     _recreate_room c (Some "confirm") w
     = match recreate_room (room_id c) (event_id c) w with
       | (Done new_room_id, w1) =>
           (Done tt,
            if Py.truthy new_room_id then w1
            else posted (room_id c)
                   "Failed to create new room. Please see logs or contact support." w1)
       | (Raised e, w1) => (Raised e, w1)
       | (Unfinished, w1) => (Unfinished, w1)
       end).
Proof.
  intros Hreq Happ. split; [|split].
  - intros Hne. destruct (decide (sender c ∈ admins (config w))) as [Ha|Ha].
    + exists "Room recreate confirm must be given by the room recreate requester.".
      split; [|split; [exact Hreq|reflexivity]].
      unfold _recreate_room. rewrite (bind_done _ _ _ _ _ (ensure_admin_member c w Ha)).
      cbn -[get_recreate_room]. rewrite (bind_done _ _ _ _ _ (get_recreate_room_stored c w)).
      rewrite Hreq.
      destruct (String.eqb_spec (requester r) (sender c)) as [E|E]; [congruence|].
      reflexivity.
    + exists (TEXT_PERMISSION_DENIED +:+ " Admin level access needed.").
      split; [|split; [exact Hreq|tauto]].
      unfold _recreate_room. rewrite (bind_done _ _ _ _ _ (ensure_admin_other c w Ha)).
      reflexivity.
  - intros Heq Ha Hlate. split; [|exact Hreq].
    unfold _recreate_room. rewrite (bind_done _ _ _ _ _ (ensure_admin_member c w Ha)).
    cbn -[get_recreate_room]. rewrite (bind_done _ _ _ _ _ (get_recreate_room_stored c w)).
    rewrite Hreq, <- Heq, String.eqb_refl. cbn -[Z.ltb Z.sub].
    rewrite (proj2 (Z.ltb_lt _ _)) by exact Hlate. reflexivity.
  - intros Heq Ha Hlate.
    unfold _recreate_room. rewrite (bind_done _ _ _ _ _ (ensure_admin_member c w Ha)).
    cbn -[get_recreate_room]. rewrite (bind_done _ _ _ _ _ (get_recreate_room_stored c w)).
    rewrite Hreq, <- Heq, String.eqb_refl. cbn -[Z.ltb Z.sub].
    rewrite (proj2 (Z.ltb_ge _ _)) by exact Hlate.
    apply recreate_confirmed_run.
Qed.

(** C10.  When the room has an unapplied request, stale or not, a bare
    [recreate] from any admin, the original requester or not, deletes it
    and stores a fresh request with the sender as requester and the
    current time as timestamp, then sends the confirmation prompt.
    Afterwards the room has exactly that one request, the requests of the
    other rooms are untouched, and a table with at most one request per
    room stays so. *)
Theorem recreate_restarts_request c w r :
  stored_request c w = Some r ->
  applied r = false ->
  sender c ∈ admins (config w) ->
  let w' := posted (room_id c) (HELP_ROOMS_RECREATE_CONFIRM (command_prefix (config w)))
              (with_store (with_recreate_rooms (restarted_requests c w) (store w)) w) in
  _recreate_room c None w = (Done tt, w')
  ∧ stored_request c w' = Some (fresh_request c w)
  ∧ List.filter (fun x => rr_room_id x == room_id c) (recreate_rooms (store w'))
    = [fresh_request c w]
  ∧ (forall room', room' ≠ room_id c ->
       List.filter (fun x => rr_room_id x == room') (recreate_rooms (store w'))
       = List.filter (fun x => rr_room_id x == room') (recreate_rooms (store w)))
  ∧ (one_request_per_room (recreate_rooms (store w)) ->
     one_request_per_room (recreate_rooms (store w'))).
Proof.
  intros Hreq Happ Ha w'. split; [|split; [|split; [|split]]].
  - unfold _recreate_room. rewrite (bind_done _ _ _ _ _ (ensure_admin_member c w Ha)).
    cbn -[get_recreate_room]. rewrite (bind_done _ _ _ _ _ (get_recreate_room_stored c w)).
    rewrite Hreq, Happ. reflexivity.
  - unfold stored_request, w', restarted_requests. cbn.
    rewrite find_app_none by apply find_filter_other. cbn. rewrite String.eqb_refl. reflexivity.
  - unfold w', restarted_requests. cbn.
    rewrite List.filter_app, filter_filter_other. cbn. rewrite String.eqb_refl. reflexivity.
  - intros room' Hne. unfold w', restarted_requests. cbn.
    rewrite List.filter_app, filter_filter_keep by exact Hne. cbn.
    destruct (String.eqb_spec (room_id c) room') as [E|E]; [congruence|].
    apply app_nil_r.
  - intros Hinv. unfold w', restarted_requests, one_request_per_room. cbn.
    rewrite map_app. apply NoDup_app. split; [|split].
    + apply (one_request_filter _ _ Hinv).
    + intros x Hx Hx'. cbn in Hx'. apply list_elem_of_singleton in Hx'. subst x.
      exact (room_ids_filter_other _ _ Hx).
    + cbn. apply NoDup_singleton.
Qed.

(** Once the request of a room is applied, a bare
    [recreate] from an admin is rejected with the "already recreated"
    message and changes nothing else; any [recreate] command from a sender
    outside the admin tier is rejected with the permission message; and a
    [recreate confirm] from an admin other than the requester, or from the
    requester more than 60 seconds after the request's timestamp, is
    rejected with the message of the check that fails.  Each rejection
    sends one message and leaves the storage as it was. *)
Theorem recreate_single_use c w r :
  stored_request c w = Some r ->
  applied r = true ->
  (sender c ∈ admins (config w) ->
     _recreate_room c None w
     = (Done tt, posted (room_id c)
          "Can only recreate a room once, this room has already been recreated." w))
  ∧ (sender c ∉ admins (config w) ->
     forall subcommand, _recreate_room c subcommand w = (Done tt, denied_admin c w))
  ∧ (sender c ∈ admins (config w) -> sender c ≠ requester r ->
     _recreate_room c (Some "confirm") w
     = (Done tt, posted (room_id c)
          "Room recreate confirm must be given by the room recreate requester." w))
  ∧ (sender c ∈ admins (config w) -> sender c = requester r ->
     60 < clock w - timestamp r ->
     _recreate_room c (Some "confirm") w
     = (Done tt, posted (room_id c)
          "Room recreate confirmation must be given within 60 seconds. Please request recreation again." w)).
Proof.
  intros Hreq Happ. split; [|split; [|split]].
  - intros Ha.
    unfold _recreate_room. rewrite (bind_done _ _ _ _ _ (ensure_admin_member c w Ha)).
    cbn -[get_recreate_room]. rewrite (bind_done _ _ _ _ _ (get_recreate_room_stored c w)).
    rewrite Hreq, Happ. reflexivity.
  - intros Ha subcommand.
    unfold _recreate_room. rewrite (bind_done _ _ _ _ _ (ensure_admin_other c w Ha)).
    reflexivity.
  - intros Ha Hne.
    unfold _recreate_room. rewrite (bind_done _ _ _ _ _ (ensure_admin_member c w Ha)).
    cbn -[get_recreate_room]. rewrite (bind_done _ _ _ _ _ (get_recreate_room_stored c w)).
    rewrite Hreq.
    destruct (String.eqb_spec (requester r) (sender c)) as [E|E]; [congruence|].
    reflexivity.
  - intros Ha Heq Hlate.
    unfold _recreate_room. rewrite (bind_done _ _ _ _ _ (ensure_admin_member c w Ha)).
    cbn -[get_recreate_room]. rewrite (bind_done _ _ _ _ _ (get_recreate_room_stored c w)).
    rewrite Hreq, <- Heq, String.eqb_refl. cbn -[Z.ltb Z.sub].
    rewrite (proj2 (Z.ltb_lt _ _)) by exact Hlate. reflexivity.
Qed.

(** C2.  The applied flag is read by the bare [recreate] only.  For an
    admin whose request for the room is applied, a bare [recreate] is
    rejected with the "already recreated" message and nothing else
    happens; a [recreate confirm] from the same requester at most 60
    seconds after the request's timestamp is not rejected: the handler
    calls [recreate_room] for the room once more and ends as that call
    ends. *)
Theorem recreate_confirm_ignores_applied c w r :
  stored_request c w = Some r ->
  applied r = true ->
  sender c ∈ admins (config w) ->
  sender c = requester r ->
  clock w - timestamp r <= 60 ->
  _recreate_room c None w
  = (Done tt, posted (room_id c)
       "Can only recreate a room once, this room has already been recreated." w)
  ∧ _recreate_room c (Some "confirm") w
    = match recreate_room (room_id c) (event_id c) w with
      | (Done new_room_id, w1) =>
          (Done tt,
           if Py.truthy new_room_id then w1
           else posted (room_id c)
                  "Failed to create new room. Please see logs or contact support." w1)
      | (Raised e, w1) => (Raised e, w1)
      | (Unfinished, w1) => (Unfinished, w1)
      end.
Proof.
  intros Hreq Happ Ha Heq Hintime. split.
  - unfold _recreate_room. rewrite (bind_done _ _ _ _ _ (ensure_admin_member c w Ha)).
    cbn -[get_recreate_room]. rewrite (bind_done _ _ _ _ _ (get_recreate_room_stored c w)).
    rewrite Hreq, Happ. reflexivity.
  - unfold _recreate_room. rewrite (bind_done _ _ _ _ _ (ensure_admin_member c w Ha)).
    cbn -[get_recreate_room]. rewrite (bind_done _ _ _ _ _ (get_recreate_room_stored c w)).
    rewrite Hreq, <- Heq, String.eqb_refl. cbn -[Z.ltb Z.sub].
    rewrite (proj2 (Z.ltb_ge _ _)) by exact Hintime.
    apply recreate_confirmed_run.
Qed.

(** *** Routing and help *)

(** C4 (amended).  [process] routes on a prefix of the command text: the
    first verb of [routes], in that order, that the text starts with picks
    the handler, whatever follows it in the first token.  A command that
    starts with none of the known verbs gets exactly the unknown-command
    response, and nothing else happens. *)
Theorem prefix_routing fuel c w :
  process fuel c w
  = match List.find (fun route => Py.startswith (command c) (fst route)) (routes fuel) with
    | Some route => snd route c w
    | None => _unknown_command c w
    end
  ∧ ((forall verb, verb ∈ known_verbs -> Py.startswith (command c) verb = false) ->
     process fuel c w = (Done tt, posted (room_id c) (unknown_command_text c) w)).
Proof.
  split.
  - unfold process, routes. cbn [List.find fst snd].
    repeat (destruct (Py.startswith (command c) _); [reflexivity|]). reflexivity.
  - intros Hnone. unfold process.
    rewrite !Hnone by (unfold known_verbs; rewrite !elem_of_cons; tauto).
    reflexivity.
Qed.


Lemma list_rooms_done spaces w :
  exists text, _list_rooms spaces w = (Done text, w) ∧ Py.nonempty text = true.
Proof.
  eexists. split; [reflexivity|]. destruct spaces; reflexivity.
Qed.

(** C5 (amended).  With no argument, or with [help] as first argument,
    [breakout] sends its help text and does nothing else, and so do
    [invite] and [power] past their gate.  With [help] as first argument
    [rooms], [spaces] and [users] send their help text.  With no argument
    [rooms], [spaces], [communities] and [users] list what the bot tracks
    instead.  The subcommands [users create], [users invite] and
    [users signuplink] send their help text when they ask for help, and
    [create help] of [rooms], [spaces] and [communities] is answered with
    the usage text.  All of this is past the permission gate of the handler
    and, for [users], with Keycloak enabled. *)
Theorem help_short_circuit fuel c w :
  (asks_help (args c) ->
     _breakout c w = (Done tt, posted (room_id c) breakout_help_text w)
     ∧ invite_after_gate c w = (Done tt, posted (room_id c) HELP_INVITE w)
     ∧ power_after_gate c w = (Done tt, posted (room_id c) HELP_POWER w))
  ∧ (forall space rest, args c = "help" :: rest ->
     Py.nonempty (rooms_help space) = true ->
     rooms_after_gate c space w = (Done tt, posted (room_id c) (rooms_help space) w))
  ∧ (forall rest, args c = "help" :: rest -> keycloak_enabled (config w) = true ->
     _users fuel c w = (Done tt, posted (room_id c) HELP_USERS w))
  ∧ (args c = [] ->
     (forall space, exists text,
        _list_rooms false w = (Done text, w)
        ∧ rooms_after_gate c space w = (Done tt, posted (room_id c) text w))
     ∧ (exists text,
        communities_after_gate c w = (Done tt, posted (room_id c) text w)
        ∧ Py.startswith text
            (communities_deprecated +:+ Py.nl +:+
             "I currently maintain the following communities:") = true)
     ∧ (keycloak_enabled (config w) = true -> sender c ∈ admins (config w) ->
        _users fuel c w
        = (users <- list_users ;; reply c (usernames_found users)) w))
  ∧ (forall rest, asks_help rest ->
     (args c = "create" :: rest -> keycloak_enabled (config w) = true ->
      sender c ∈ admins (config w) -> Py.nonempty HELP_USERS_CREATE = true ->
      _users fuel c w = (Done tt, posted (room_id c) HELP_USERS_CREATE w))
     ∧ (keycloak_signup_enabled (config w) = true ->
        users_invite_after_gate c rest w
        = (Done Return, posted (room_id c) HELP_USERS_INVITE w)
        ∧ users_signuplink_after_gate c rest w
          = (Done Return, posted (room_id c) HELP_USERS_SIGNUPLINK w)))
  ∧ (args c = ["create"; "help"] ->
     (forall space,
        rooms_after_gate c space w
        = (Done tt, posted (room_id c) (wrong_arguments_text space) w))
     ∧ communities_after_gate c w = (Done tt, posted (room_id c) communities_usage w)).
Proof.
  split; [|split; [|split; [|split; [|split]]]].
  - intros [Hargs|[rest Hargs]].
    + unfold _breakout, invite_after_gate, power_after_gate. rewrite Hargs.
      repeat split; reflexivity.
    + unfold _breakout, invite_after_gate, power_after_gate. rewrite Hargs.
      repeat split; reflexivity.
  - intros space rest Hargs Hne. unfold rooms_after_gate. rewrite Hargs.
    cbn -[reply]. rewrite Hne. reflexivity.
  - intros rest Hargs Hkc. unfold _users. rewrite bind_gets, Hkc, Hargs.
    cbn -[reply]. destruct (Py.nonempty HELP_USERS) eqn:E; reflexivity.
  - intros Hargs. split; [|split].
    + intros space. destruct (list_rooms_done false w) as (text & Hl & Hne).
      exists text. split; [exact Hl|].
      unfold rooms_after_gate. rewrite Hargs, bind_gets.
      rewrite (bind_done _ _ _ _ _ (bind_done _ _ _ _ _ Hl)).
      cbn -[reply]. rewrite Hne. reflexivity.
    + unfold communities_after_gate. rewrite Hargs.
      eexists. split; [reflexivity|]. reflexivity.
    + intros Hkc Ha. unfold _users. rewrite bind_gets, Hkc, Hargs.
      cbn -[reply _ensure_admin list_users].
      unfold bind at 1 2. rewrite (ensure_admin_member c w Ha).
      cbn -[reply list_users]. unfold bind.
      destruct (list_users w) as [[users| |] w']; reflexivity.
  - intros rest Hrest. split.
    + intros Hargs Hkc Ha Hne. unfold _users. rewrite bind_gets, Hkc, Hargs.
      cbn -[reply _ensure_admin for_fold].
      unfold bind at 1 2. rewrite (ensure_admin_member c w Ha).
      destruct Hrest as [->|[more ->]]; cbn -[reply]; rewrite Hne; reflexivity.
    + intros Hsignup. unfold users_invite_after_gate, users_signuplink_after_gate.
      rewrite !bind_gets, Hsignup.
      destruct Hrest as [->|[more ->]]; [split; reflexivity|].
      split; [reflexivity|]. destruct more; reflexivity.
  - intros Hargs. split.
    + intros space. unfold rooms_after_gate. rewrite Hargs. reflexivity.
    + unfold communities_after_gate. rewrite Hargs. reflexivity.
Qed.

(** A [recreate] subcommand of [rooms] or [spaces] is handed, past the
    coordinator gate, to [_recreate_room] with the argument that follows
    it, if any. *)
Lemma rooms_recreate_dispatch c w space rest :
  args c = "recreate" :: rest ->
  rooms_after_gate c space w = _recreate_room c (List.head rest) w.
Proof.
  intros Hargs. unfold rooms_after_gate. rewrite Hargs, bind_gets.
  cbn -[_recreate_room]. unfold bind.
  destruct (_recreate_room c (List.head rest) w) as [[[]| |] w']; reflexivity.
Qed.

(** X22.  The two recreate commands, from a sender who passes the coordinator
    gate, as [process] runs them. *)
Lemma process_rooms_recreate fuel c w :
  sender c ∈ coordinators (config w) ∨ sender c ∈ admins (config w) ->
  (command c = "rooms recreate" -> process fuel c w = _recreate_room c None w)
  ∧ (command c = "rooms recreate confirm" ->
     process fuel c w = _recreate_room c (Some "confirm") w).
Proof.
  intros Hin. split; intros Hcommand.
  - unfold process. rewrite Hcommand. cbn -[_rooms]. unfold _rooms.
    rewrite gated_permitted by exact Hin.
    apply (rooms_recreate_dispatch c w false []).
    unfold args. rewrite Hcommand. reflexivity.
  - unfold process. rewrite Hcommand. cbn -[_rooms]. unfold _rooms.
    rewrite gated_permitted by exact Hin.
    apply (rooms_recreate_dispatch c w false ["confirm"]).
    unfold args. rewrite Hcommand. reflexivity.
Qed.

(** *** Breakout rooms *)

(** C9.  Once the breakout room is created, the announcement is sent.
    When no event id comes back for it the handler sends the warning, which
    says that the room was created and that invites via reactions will not
    work.  When an event id comes back the mapping is written to the
    storage, outside any exception handler: a write that raises ends the
    handler with that exception, in the world the write left, and no
    warning is sent; a write that succeeds records the mapping. *)
Theorem breakout_write_failure_unreported c w room w1 :
  ~ asks_help (args c) ->
  create_breakout_room (Py.join " " (args c)) (sender c) w = (Done room, w1) ->
  let announced :=
    posted (room_id c) (breakout_announcement (Py.join " " (args c))) w1 in
  (Py.truthy (delivery w1 (length (outbox w1))) = false ->
     _breakout c w = (Done tt, posted (room_id c) breakout_store_failed announced)
     ∧ Py.contains breakout_store_failed "The room was created" = true
     ∧ Py.contains breakout_store_failed "invites via reactions will not work" = true)
  ∧ (forall event,
       delivery w1 (length (outbox w1)) = Some event -> Py.nonempty event = true ->
       (forall e w2,
          persist_breakout_room event room announced = (Raised e, w2) ->
          _breakout c w = (Raised e, w2))
       ∧ (forall w2,
            persist_breakout_room event room announced = (Done tt, w2) ->
            _breakout c w
            = (Done tt,
               with_store (with_breakout_rooms
                             (breakout_rooms (store w2) ++ [(event, room)]) (store w2))
                 w2))).
Proof.
  intros Hnohelp Hcreate announced.
  assert (exists a0 rest, args c = a0 :: rest ∧ (a0 == "help") = false)
    as (a0 & rest & Hargs & Ha0).
  { destruct (args c) as [|a0 rest] eqn:E.
    - destruct Hnohelp. left. reflexivity.
    - exists a0, rest. split; [reflexivity|].
      destruct (String.eqb_spec a0 "help") as [->|]; [|reflexivity].
      destruct Hnohelp. right. eauto. }
  assert (_breakout c w
            = (event <- send_text_to_room (room_id c)
                          (breakout_announcement (Py.join " " (args c))) ;;
               match event with
               | Some e =>
                   if Py.nonempty e then store_breakout_room e room
                   else reply c breakout_store_failed
               | None => reply c breakout_store_failed
               end) w1) as Hstep.
  { unfold _breakout. rewrite Hargs, Ha0, <- Hargs.
    rewrite (bind_done _ _ _ _ _ Hcreate). reflexivity. }
  split.
  - intros Hfail. split; [|split; reflexivity].
    rewrite Hstep. unfold bind, send_text_to_room.
    destruct (delivery w1 (length (outbox w1))) as [e|]; [|reflexivity].
    cbn in Hfail. rewrite Hfail. reflexivity.
  - intros event Hevent Hne.
    assert (_breakout c w = store_breakout_room event room announced) as Hwrite.
    { rewrite Hstep. unfold bind at 1. unfold send_text_to_room.
      rewrite Hevent, Hne. reflexivity. }
    split.
    + intros e w2 Hraised. rewrite Hwrite. unfold store_breakout_room, bind.
      rewrite Hraised. reflexivity.
    + intros w2 Hdone. rewrite Hwrite. unfold store_breakout_room, bind.
      rewrite Hdone. reflexivity.
Qed.


(** *** Reconciliation *)

(** C6.  On a homeserver where the profile request for the alias is a
    pure read that does not answer 200, and that accepts the creation
    (status at most 201) after which the profile request answers 200,
    the first call returns [created] and every later call returns
    [exists] and leaves the world as it is.  Whatever the server answers,
    a call that returns gives one of [created], [exists], and [error]
    with a detail, and on a server that answers every request the call
    returns. *)
Theorem ensure_community_idempotent (community : CommunityTuple) :
  (forall w w1 missing created present,
     let cfg := config w in
     let url := group_profile_url cfg (ct_alias community) in
     requests_get url (auth_headers cfg) w = (Done missing, w) ->
     status_code missing ≠ 200 ->
     requests_post (create_group_url cfg) (create_group_json community)
       (auth_headers cfg) w = (Done created, w1) ->
     status_code created <= 201 ->
     config w1 = cfg ->
     requests_get url (auth_headers cfg) w1 = (Done present, w1) ->
     status_code present = 200 ->
     ensure_community_exists community w = (Done ("created", None), w1)
     ∧ ensure_community_exists community w1 = (Done ("exists", None), w1)
     ∧ forall n,
         Nat.iter n (fun w' => snd (ensure_community_exists community w')) w1 = w1)
  ∧ (forall w result error w',
       ensure_community_exists community w = (Done (result, error), w') ->
       (result = "created" ∧ error = None)
       ∨ (result = "exists" ∧ error = None)
       ∨ (result = "error" ∧ exists detail, error = Some detail))
  ∧ ((forall url headers w, exists r w', requests_get url headers w = (Done r, w')) ->
     (forall url body headers w,
        exists r w', requests_post url body headers w = (Done r, w')) ->
     forall w, exists outcome w',
       ensure_community_exists community w = (Done outcome, w')).
Proof.
  split; [|split].
  - intros w w1 missing created present cfg url Hget Hmissing Hpost Hcreated Hcfg
      Hget1 Hpresent.
    assert (ensure_community_exists community w1 = (Done ("exists", None), w1)) as Hagain.
    { unfold ensure_community_exists. rewrite bind_gets, Hcfg.
      rewrite (bind_done _ _ _ _ _ Hget1), Hpresent. reflexivity. }
    split; [|split; [exact Hagain|]].
    + unfold ensure_community_exists. rewrite bind_gets.
      rewrite (bind_done _ _ _ _ _ Hget).
      rewrite (proj2 (Z.eqb_neq _ _) Hmissing).
      rewrite (bind_done _ _ _ _ _ Hpost).
      rewrite (proj2 (Z.ltb_ge _ _) Hcreated). reflexivity.
    + induction n as [|n IH]; [reflexivity|].
      rewrite Nat.iter_succ, IH, Hagain. reflexivity.
  - intros w result error w'. unfold ensure_community_exists, bind, gets, ret.
    destruct (requests_get _ _ w) as [[r| |] w0]; [|discriminate|discriminate].
    destruct (status_code r =? 200).
    + intros [= <- <- _]. right. left. split; reflexivity.
    + destruct (requests_post _ _ _ w0) as [[r'| |] w1]; [|discriminate|discriminate].
      destruct (201 <? status_code r').
      * intros [= <- <- _]. right. right. split; [reflexivity|eauto].
      * intros [= <- <- _]. left. split; reflexivity.
  - intros Hget Hpost w. unfold ensure_community_exists, bind, gets, ret.
    destruct (Hget (group_profile_url (config w) (ct_alias community))
                (auth_headers (config w)) w) as (r & w0 & ->).
    destruct (status_code r =? 200); [eauto|].
    destruct (Hpost (create_group_url (config w)) (create_group_json community)
                (auth_headers (config w)) w0) as (r' & w1 & ->).
    destruct (201 <? status_code r'); eauto.
Qed.


Lemma csv_params_done (l params : list string) :
  Csv.reader_first " "%char (Py.join " " l) = Some params ->
  (csv_params l : M R (list string)) = ret params.
Proof.
  unfold Csv.reader_first, csv_params. intros Hcsv.
  destruct (Csv.read_first " "%char (Py.join " " l)) as [row|e]; [|discriminate].
  injection Hcsv as ->. reflexivity.
Qed.

(** X21.  What [rooms create] and [spaces create] do check: a parameter count
    other than five, or a fourth parameter that is neither [yes] nor [no],
    is answered with the usage text and nothing else. *)
Lemma rooms_create_rejected c w space rest params :
  args c = "create" :: rest ->
  Csv.reader_first " "%char (Py.join " " rest) = Some params ->
  length params ≠ 5%nat ∨ (exists p3, params !! 3%nat = Some p3 ∧ yes_or_no p3 = false) ->
  rooms_after_gate c space w
  = (Done tt, posted (room_id c) (wrong_arguments_text space) w).
Proof.
  intros Hargs Hcsv Hbad. unfold rooms_after_gate.
  rewrite Hargs, bind_gets, (csv_params_done _ _ Hcsv). cbn -[reply].
  destruct params as [|p0 [|p1 [|p2 [|p3 [|p4 [|p5 params]]]]]]; try reflexivity.
  destruct Hbad as [Hlen|(p & Hp & Hno)]; [cbn in Hlen; congruence|].
  cbn in Hp. injection Hp as <-. unfold bind at 1 2. unfold ret at 1.
  rewrite Hno. reflexivity.
Qed.

End Facts.

(** *** Username disambiguation *)

Lemma pretty_N_go_nonempty (x : N) (s : string) :
  s ≠ "" -> pretty_N_go x s ≠ "".
Proof.
  revert s. induction (N.lt_wf_0 x) as [x _ IH]. intros s Hs.
  destruct (decide (0 < x)%N) as [Hpos|Hzero].
  - rewrite pretty_N_go_step by exact Hpos.
    apply IH; [apply N.div_lt; lia | discriminate].
  - assert (x = 0%N) as -> by lia. rewrite pretty_N_go_0. exact Hs.
Qed.

Lemma str_nat_nonempty (n : nat) : Py.str_nat n ≠ "".
Proof.
  unfold Py.str_nat, pretty, pretty_nat, pretty, pretty_N.
  destruct (decide (N.of_nat n = 0%N)); [discriminate|].
  destruct (decide (0 < N.of_nat n)%N) as [Hpos|]; [|lia].
  rewrite pretty_N_go_step by exact Hpos.
  apply pretty_N_go_nonempty. discriminate.
Qed.

Lemma append_nonempty (s t : string) : t ≠ "" -> Py.nonempty (s +:+ t) = true.
Proof. destruct s; [destruct t; [congruence|reflexivity]|reflexivity]. Qed.

Lemma append_self (s t : string) : s +:+ t = s -> t = "".
Proof.
  induction s as [|a s IH]; cbn; [trivial|]. intros Heq. injection Heq as Heq. auto.
Qed.

Lemma username_matches_free value (l : list KcUser) :
  value ∉ usernames l -> username_matches value l = [].
Proof.
  induction l as [|u l IH]; cbn; [trivial|].
  rewrite not_elem_of_cons. intros [Hne Hnot].
  destruct (String.eqb_spec (kc_username u) value); [congruence|auto].
Qed.

Lemma username_matches_taken value (l : list KcUser) :
  value ∈ usernames l -> username_matches value l ≠ [].
Proof.
  induction l as [|u l IH]; cbn.
  - intros Hin. apply elem_of_nil in Hin. destruct Hin.
  - rewrite elem_of_cons. intros [Heq|Hin].
    + rewrite Heq, String.eqb_refl. discriminate.
    + destruct (kc_username u == value); [discriminate|auto].
Qed.

Section Usernames.
Context {R : Type} `{Interpreter} `{HelpStrings} `{Collaborators R}.
Variables (w : World R) (directory : list KcUser).
Hypothesis enabled : keycloak_enabled (config w) = true.
Hypothesis exact_match : forall value,
  kc_get_users (Some ("username", value)) w
  = (Done (username_matches value directory), w).

Lemma filter_free value : value ∉ usernames directory -> username_matches value directory = [].
Proof. apply username_matches_free. Qed.

Lemma filter_taken value : value ∈ usernames directory -> username_matches value directory ≠ [].
Proof. apply username_matches_taken. Qed.

Lemma pick_taken fuel base value counter :
  value ∈ usernames directory ->
  pick_username (S fuel) base value counter w
  = pick_username fuel base (suffixed base (counter + 1)) (counter + 1) w.
Proof.
  intros Hin. cbn [pick_username].
  unfold attempt, try_except, get_user_by_attr, bind, gets, ret.
  rewrite enabled. cbn [negb]. rewrite exact_match.
  pose proof (filter_taken value Hin) as Hne.
  destruct (username_matches value directory) as [|u [|u' l]]; [congruence| |]; reflexivity.
Qed.

Lemma pick_free fuel base value counter :
  value ∉ usernames directory -> Py.nonempty value = true ->
  pick_username (S fuel) base value counter w = (Done value, w).
Proof.
  intros Hnot Hne. cbn [pick_username].
  unfold attempt, try_except, get_user_by_attr, bind, gets, ret.
  rewrite enabled. cbn [negb]. rewrite exact_match.
  rewrite (filter_free value Hnot). cbn. rewrite Hne. reflexivity.
Qed.

Lemma pick_run base (d : nat) : forall (j fuel : nat),
  (forall i, (j <= i < j + d)%nat -> suffixed base i ∈ usernames directory) ->
  suffixed base (j + d) ∉ usernames directory ->
  (d + 1 <= fuel)%nat ->
  pick_username fuel base (suffixed base j) j w
  = (Done (suffixed base (j + d)), w).
Proof.
  induction d as [|d IH]; intros j fuel Htaken Hfree Hfuel.
  - destruct fuel as [|fuel]; [lia|].
    rewrite Nat.add_0_r in *. apply pick_free; [exact Hfree|].
    apply append_nonempty, str_nat_nonempty.
  - destruct fuel as [|fuel]; [lia|].
    rewrite pick_taken by (apply Htaken; lia).
    replace (j + S d)%nat with ((j + 1) + d)%nat in * by lia.
    apply IH; [intros i Hi; apply Htaken; lia | exact Hfree | lia].
Qed.

Lemma candidates_inj base (i j : nat) :
  suffixed base i = suffixed base j -> i = j.
Proof.
  unfold suffixed. intros Heq. apply (inj (String.app base)) in Heq.
  unfold Py.str_nat in Heq. apply (inj pretty) in Heq. exact Heq.
Qed.

Lemma least_free base (m : nat) :
  (forall j, (1 <= j <= m)%nat -> suffixed base j ∈ usernames directory)
  ∨ (exists k, (1 <= k <= m)%nat ∧ (suffixed base k ∉ usernames directory)
       ∧ forall j, (1 <= j < k)%nat -> suffixed base j ∈ usernames directory).
Proof.
  induction m as [|m [IH|(k & Hk & Hfree & Hbelow)]].
  - left. intros j Hj. lia.
  - destruct (decide (suffixed base (S m) ∈ usernames directory)) as [Hin|Hnot].
    + left. intros j Hj. destruct (decide (j = S m)) as [->|]; [exact Hin|apply IH; lia].
    + right. exists (S m). split; [lia|]. split; [exact Hnot|].
      intros j Hj. apply IH. lia.
  - right. exists k. split; [lia|]. split; assumption.
Qed.

Lemma some_candidate_free base :
  base ∈ usernames directory ->
  ~ (forall j, (1 <= j <= length directory)%nat -> suffixed base j ∈ usernames directory).
Proof.
  intros Hbase Hall.
  set (cands := base :: List.map (suffixed base) (seq 1 (length directory))).
  assert (NoDup cands) as Hnd.
  { apply NoDup_cons. split.
    - intros Hin. apply list_elem_of_In, in_map_iff in Hin as (j & Hj & _).
      apply append_self in Hj. exact (str_nat_nonempty j Hj).
    - apply (NoDup_fmap_2_strong (suffixed base)).
      + intros i j _ _ Heq. exact (candidates_inj base i j Heq).
      + apply NoDup_seq. }
  assert (forall x, x ∈ cands -> x ∈ usernames directory) as Hsub.
  { intros x Hx. apply elem_of_cons in Hx as [->|Hx]; [exact Hbase|].
    apply list_elem_of_In, in_map_iff in Hx as (j & <- & Hj).
    apply in_seq in Hj. apply Hall. lia. }
  pose proof (submseteq_length _ _ (NoDup_submseteq _ _ Hnd Hsub)) as Hlen.
  unfold cands, usernames in Hlen. cbn in Hlen.
  rewrite !length_map, length_seq in Hlen. lia.
Qed.

Lemma pick_username_least_free base :
  base ∈ usernames directory ->
  exists k : nat,
    (1 <= k <= length directory)%nat
    ∧ (forall fuel, (length directory + 1 <= fuel)%nat ->
         pick_username fuel base base 0 w = (Done (suffixed base k), w))
    ∧ (suffixed base k ∉ usernames directory)
    ∧ suffixed base k ≠ base
    ∧ (forall j, (1 <= j < k)%nat -> suffixed base j ∈ usernames directory).
Proof.
  intros Hbase.
  destruct (least_free base (length directory)) as [Hall|(k & Hk & Hfree & Hbelow)].
  - destruct (some_candidate_free base Hbase Hall).
  - exists k. split; [exact Hk|]. split; [|split; [exact Hfree|split; [|exact Hbelow]]].
    + intros fuel Hfuel. destruct fuel as [|fuel]; [lia|].
      rewrite pick_taken by exact Hbase.
      replace k with (1 + (k - 1))%nat by lia.
      apply pick_run.
      * intros i Hi. apply Hbelow. lia.
      * replace (1 + (k - 1))%nat with k by lia. exact Hfree.
      * lia.
    + intros Heq. apply append_self in Heq. exact (str_nat_nonempty k Heq).
Qed.

(** C7.  Against a realm that answers username lookups by exact match on
    a list of accounts, when the derived candidate is the username of an
    existing account the loop ends, given one step more than there are
    accounts, with the candidate followed by the least number from 1 on
    that makes a free username: the chosen name is free, differs from the
    candidate, and every smaller suffix is taken.  For a valid email that
    no account has and whose lowercased, sanitized local part is that
    candidate, [users create] goes on to create the account under the
    chosen name. *)
Theorem username_disambiguation base :
  base ∈ usernames directory ->
  exists k : nat,
    (1 <= k <= length directory)%nat
    ∧ (forall fuel, (length directory + 1 <= fuel)%nat ->
         pick_username fuel base base 0 w = (Done (suffixed base k), w))
    ∧ (suffixed base k ∉ usernames directory)
    ∧ suffixed base k ≠ base
    ∧ (forall j, (1 <= j < k)%nat -> suffixed base j ∈ usernames directory)
    ∧ (forall fuel texts email valid,
         (length directory + 1 <= fuel)%nat ->
         validate_email email = inl valid ->
         username_candidate_of valid = base ->
         kc_get_users (Some ("email", valid)) w = (Done [], w) ->
         users_create_email fuel texts email w
         = users_create_account texts valid (suffixed base k) w).
Proof.
  intros Hbase.
  destruct (pick_username_least_free base Hbase)
    as (k & Hk & Hrun & Hfree & Hne & Hbelow).
  exists k. repeat (split; [assumption|]).
  intros fuel texts email valid Hfuel Hvalid Hcandidate Hemail.
  unfold users_create_email. rewrite Hvalid.
  unfold attempt, try_except, get_user_by_attr, bind at 1 2 3 4, gets, ret.
  rewrite enabled. cbn [negb]. rewrite Hemail, Hcandidate.
  unfold bind at 1. rewrite (Hrun fuel Hfuel). reflexivity.
Qed.
End Usernames.

(** ** The properties on the simulated deployment *)

Section OnSim.
Import Sim.

Ltac in_list := apply list_elem_of_In; vm_compute; tauto.
Ltac not_in_list := rewrite list_elem_of_In; vm_compute; intuition discriminate.

Lemma recreate_confirm_gates_witness :
  let r := mkRecreateRow "!room:example.org" alice 1000 false in
  let by_alice := cmd "rooms recreate confirm" alice in
  let by_bob := cmd "rooms recreate confirm" bob in
  let w59 := with_clock 1059 pending in
  let w61 := with_clock 1061 pending in
  stored_request by_alice w59 = Some r
  ∧ (exists w',
       _recreate_room by_alice (Some "confirm") w59 = (Done tt, w')
       ∧ journal (remote w') = ["recreate_room !room:example.org"]
       ∧ outbox w' = outbox w59
       ∧ stored_request by_alice w'
         = Some (mkRecreateRow "!room:example.org" alice 1000 true))
  ∧ _recreate_room by_alice (Some "confirm") w61
    = (Done tt,
       posted "!room:example.org"
         "Room recreate confirmation must be given within 60 seconds. Please request recreation again."
         w61)
  ∧ exists text,
      _recreate_room by_bob (Some "confirm") w59
      = (Done tt, posted "!room:example.org" text w59).
Proof.
  intros r by_alice by_bob w59 w61.
  split; [reflexivity|]. split; [|split].
  - exists (snd (recreate_room (room_id by_alice) (event_id by_alice) w59)).
    split; [|repeat split; vm_compute; reflexivity].
    destruct (recreate_confirm_gates by_alice w59 r eq_refl eq_refl) as (_ & _ & Hintime).
    rewrite Hintime; [reflexivity | reflexivity | in_list | cbn; lia].
  - apply (recreate_confirm_gates by_alice w61 r eq_refl eq_refl);
      [reflexivity | in_list | cbn; lia].
  - destruct (recreate_confirm_gates by_bob w59 r eq_refl eq_refl) as [Hother _].
    destruct Hother as (text & Heq & _); [discriminate|].
    exists text. exact Heq.
Defined.

Lemma recreate_restarts_request_witness :
  let by_bob := cmd "rooms recreate" bob in
  let w := with_clock 1500 pending in
  stored_request by_bob w = Some (mkRecreateRow "!room:example.org" alice 1000 false)
  ∧ exists w',
      _recreate_room by_bob None w = (Done tt, w')
      ∧ recreate_rooms (store w') = [mkRecreateRow "!room:example.org" bob 1500 false].
Proof.
  intros by_bob w. split; [reflexivity|].
  eexists. split.
  - apply (recreate_restarts_request by_bob w _ eq_refl eq_refl). in_list.
  - reflexivity.
Defined.

Lemma recreate_single_use_witness :
  let by_alice := cmd "rooms recreate" alice in
  stored_request by_alice recreated
  = Some (mkRecreateRow "!room:example.org" alice 1000 true)
  ∧ _recreate_room by_alice None recreated
    = (Done tt,
       posted "!room:example.org"
         "Can only recreate a room once, this room has already been recreated."
         recreated).
Proof.
  intros by_alice. split; [reflexivity|].
  apply (recreate_single_use by_alice recreated _ eq_refl eq_refl). in_list.
Defined.

(** The admin gate comes first: the request of the room is applied, and
    a bare [recreate] from Carol, who is a coordinator and no admin, is
    not answered with the "already recreated" message. *)
Example recreate_bare_by_coordinator_example :
  let by_carol := cmd "rooms recreate" carol in
  (exists r, stored_request by_carol recreated = Some r ∧ applied r = true)
  ∧ _recreate_room by_carol None recreated
    ≠ (Done tt,
       posted "!room:example.org"
         "Can only recreate a room once, this room has already been recreated."
         recreated).
Proof.
  intros by_carol. split.
  - eexists. split; reflexivity.
  - intros Heq. apply (f_equal (fun p => outbox (snd p))) in Heq.
    vm_compute in Heq. discriminate Heq.
Qed.

Ltac gated_entry :=
  unfold coordinator_gated; rewrite !elem_of_cons;
  repeat ((left; reflexivity) || right).

Lemma recreate_confirm_ignores_applied_witness :
  let bare := cmd "rooms recreate" alice in
  let confirm := cmd "rooms recreate confirm" alice in
  stored_request confirm recreated
  = Some (mkRecreateRow "!room:example.org" alice 1000 true)
  ∧ journal (remote recreated) = ["recreate_room !room:example.org"]
  ∧ _recreate_room bare None recreated
    = (Done tt,
       posted "!room:example.org"
         "Can only recreate a room once, this room has already been recreated."
         recreated)
  ∧ exists w',
      _recreate_room confirm (Some "confirm") recreated = (Done tt, w')
      ∧ journal (remote w')
        = ["recreate_room !room:example.org"; "recreate_room !room:example.org"]
      ∧ outbox w' = outbox recreated.
Proof.
  intros bare confirm. split; [reflexivity|]. split; [reflexivity|].
  assert (sender confirm ∈ admins (config recreated)) as Ha by in_list.
  assert (clock recreated - 1000 <= 60) as Hintime by (vm_compute; discriminate).
  split.
  - destruct (recreate_confirm_ignores_applied bare recreated _ eq_refl eq_refl Ha
                eq_refl Hintime) as [Hbare _].
    exact Hbare.
  - destruct (recreate_confirm_ignores_applied confirm recreated _ eq_refl eq_refl Ha
                eq_refl Hintime) as [_ Hconfirm].
    exists (snd (recreate_room (room_id confirm) (event_id confirm) recreated)).
    split; [rewrite Hconfirm; reflexivity|]. split; vm_compute; reflexivity.
Defined.

(** The confirm path does not look at the applied flag: a second confirm
    from the requester, still within 60 seconds of the request, reaches
    [recreate_room] once more. *)
Example recreate_confirm_twice_example :
  let confirm := cmd "rooms recreate confirm" alice in
  (exists r, stored_request confirm recreated = Some r ∧ applied r = true)
  ∧ journal (remote recreated) = ["recreate_room !room:example.org"]
  ∧ journal (remote (run 0 [confirm] recreated))
    = ["recreate_room !room:example.org"; "recreate_room !room:example.org"].
Proof.
  intros confirm. split; [eexists; split; reflexivity|]. split; reflexivity.
Qed.

Lemma permission_tiers_witness :
  let power_by who := cmd "power @dave:example.org !room:example.org admin" who in
  _power (power_by mallory) world0
  = (Done tt, denied_coordinator (power_by mallory) world0)
  ∧ _power (power_by alice) world0 = power_after_gate (power_by alice) world0
  ∧ _power (power_by carol) world0
    = (Done tt,
       posted "!room:example.org" "Only bot admins can set admin level power, sorry."
         (denied_admin (power_by carol) world0)).
Proof.
  intros power_by. split; [|split].
  - destruct (permission_tiers (power_by mallory) world0) as (Hneither & _ & _).
    destruct Hneither as [Hdenied _]; [not_in_list | not_in_list |].
    apply (Hdenied _power power_after_gate). gated_entry.
  - destruct (permission_tiers (power_by alice) world0) as (_ & Hadmin & _).
    destruct Hadmin as (_ & Hpermitted & _); [in_list|].
    apply (Hpermitted _power power_after_gate). gated_entry.
  - destruct (permission_tiers (power_by carol) world0) as (_ & _ & Hcoordinator).
    destruct Hcoordinator as (_ & _ & Hpower & _); [in_list | not_in_list |].
    apply (Hpower "@dave:example.org" "!room:example.org" []);
      [reflexivity | discriminate | reflexivity].
Defined.

Lemma prefix_routing_witness :
  let c := cmd "ping" mallory in
  (forall verb, verb ∈ known_verbs -> Py.startswith (command c) verb = false)
  ∧ process 0 c world0
    = (Done tt,
       posted "!room:example.org"
         "Unknown command 'ping'. Try the 'help' command for more information."
         world0).
Proof.
  intros c.
  assert (forall verb, verb ∈ known_verbs -> Py.startswith (command c) verb = false)
    as Hnone.
  { intros verb Hin. unfold known_verbs in Hin.
    repeat (apply elem_of_cons in Hin as [->|Hin]; [reflexivity|]).
    apply elem_of_nil in Hin. destruct Hin. }
  split; [exact Hnone|].
  apply (prefix_routing 0 c world0). exact Hnone.
Defined.

(** C4, as stated, fails: the first token [breakouts] is no known verb,
    yet the command is routed to the breakout handler, which creates a
    room and records the mapping for it. *)
Lemma unknown_verb_counterexample :
  let c := cmd "breakouts now" mallory in
  first_token c = Some "breakouts"
  ∧ ("breakouts" ∉ known_verbs)
  ∧ journal (remote (snd (process 0 c world0))) = ["create_breakout_room now"]
  ∧ process 0 c world0
    ≠ (Done tt, posted (room_id c) (unknown_command_text c) world0).
Proof.
  intros c. split; [reflexivity|]. split; [not_in_list|]. split; [reflexivity|].
  intros Heq. apply (f_equal (fun p => journal (remote (snd p)))) in Heq.
  vm_compute in Heq. discriminate Heq.
Qed.

Lemma help_short_circuit_witness :
  let c := cmd "breakout help" mallory in
  asks_help (args c)
  ∧ _breakout c world0 = (Done tt, posted "!room:example.org" breakout_help_text world0).
Proof.
  intros c.
  assert (asks_help (args c)) as Hhelp by (right; exists []; reflexivity).
  split; [exact Hhelp|].
  destruct (help_short_circuit 0 c world0) as (Hbare & _).
  destruct (Hbare Hhelp) as (Hbreakout & _). exact Hbreakout.
Defined.

(** C5, as stated, fails: a bare [rooms] from a coordinator is answered
    with the list of the tracked rooms, not with the help text. *)
Lemma help_short_circuit_counterexample :
  let c := cmd "rooms" carol in
  asks_help (args c)
  ∧ process 0 c tracking
    = (Done tt,
       posted "!room:example.org"
         ("I currently maintain the following rooms:" +:+ Py.nl +:+ Py.nl +:+
          "* Lobby / #lobby:example.org / !lobby:example.org" +:+ Py.nl)
         tracking)
  ∧ process 0 c tracking ≠ (Done tt, posted "!room:example.org" HELP_ROOMS tracking).
Proof.
  intros c. split; [left; reflexivity|]. split; [reflexivity|].
  intros Heq. apply (f_equal (fun p => outbox (snd p))) in Heq.
  vm_compute in Heq. discriminate Heq.
Qed.

Lemma ensure_community_idempotent_witness :
  let created := with_remote (mkRemote ["epic-community"] [] []) world0 in
  requests_get (group_profile_url cfg "epic-community") (auth_headers cfg) world0
  = (Done (response 404), world0)
  ∧ requests_get (group_profile_url cfg "epic-community") (auth_headers cfg) created
    = (Done (response 200), created)
  ∧ ensure_community_exists epic world0 = (Done ("created", None), created)
  ∧ ensure_community_exists epic created = (Done ("exists", None), created).
Proof.
  intros created. split; [reflexivity|]. split; [reflexivity|].
  destruct (ensure_community_idempotent epic) as [Hidem _].
  destruct (Hidem world0 created (response 404) (response 200) (response 200))
    as (Hfirst & Hsecond & _);
    [reflexivity | discriminate | reflexivity | cbn; lia | reflexivity
    | reflexivity | reflexivity |].
  split; assumption.
Defined.

Lemma username_disambiguation_witness :
  username_candidate_of "a@x.com" = "a"
  ∧ "a" ∈ usernames (accounts (remote registered))
  ∧ pick_username 2 "a" "a" 0 registered = (Done "a1", registered).
Proof.
  split; [reflexivity|].
  assert ("a" ∈ usernames (accounts (remote registered))) as Hin by in_list.
  split; [exact Hin|].
  assert (forall value,
            kc_get_users (Some ("username", value)) registered
            = (Done (username_matches value (accounts (remote registered))), registered))
    as Hexact by (intros value; reflexivity).
  destruct (username_disambiguation registered (accounts (remote registered))
              eq_refl Hexact "a" Hin)
    as (k & Hk & Hrun & _).
  assert (k = 1%nat) as -> by (cbn in Hk; lia).
  apply (Hrun 2%nat). cbn. lia.
Defined.

Lemma breakout_write_failure_unreported_witness :
  let c := cmd "breakout Tea time" mallory in
  let refused := mkExn OtherException "UNIQUE constraint failed: breakout_rooms.event_id" in
  breakout_rooms (store announced) = [("$event", "!breakout:example.org")]
  ∧ exists w2,
      _breakout c announced = (Raised refused, w2)
      ∧ outbox w2
        = [("!room:example.org", breakout_announcement "Coffee chat");
           ("!room:example.org", breakout_announcement "Tea time")]
      ∧ journal (remote w2)
        = ["create_breakout_room Coffee chat"; "create_breakout_room Tea time"]
      ∧ breakout_rooms (store w2) = [("$event", "!breakout:example.org")].
Proof.
  intros c refused. split; [reflexivity|].
  pose (w1 := snd (create_breakout_room "Tea time" mallory announced)).
  pose (w2 := posted "!room:example.org" (breakout_announcement "Tea time") w1).
  assert (~ asks_help (args c)) as Hnohelp
    by (intros [Hnil|[rest Hrest]]; discriminate).
  assert (create_breakout_room (Py.join " " (args c)) (sender c) announced
          = (Done "!breakout:example.org", w1)) as Hcreate by reflexivity.
  destruct (breakout_write_failure_unreported c announced "!breakout:example.org" w1
              Hnohelp Hcreate) as [_ Hwritten].
  destruct (Hwritten "$event" eq_refl eq_refl) as [Hraised _].
  exists w2. split; [|repeat split; vm_compute; reflexivity].
  apply Hraised. reflexivity.
Defined.

(** C8.  [rooms create Lobby lobby main yes maybe], from a coordinator:
    the last flag is neither [yes] nor [no], yet the room is created, with
    that flag read as false. *)
Lemma rooms_create_second_flag_unchecked :
  let c := cmd "rooms create Lobby lobby main yes maybe" carol in
  journal (remote (run 0 [c] world0)) = ["ensure_room_exists Lobby lobby main yes no"]
  ∧ outbox (run 0 [c] world0)
    = [("!room:example.org", "Room Lobby (#lobby:example.org) created successfully.")].
Proof. split; reflexivity. Qed.

Example users_create_example :
  let w := run 3 [cmd "users create a@x.com" alice] registered in
  usernames (accounts (remote w)) = ["a"; "a1"]
  ∧ outbox w = [("!room:example.org", "Successfully create a@x.com!")].
Proof. split; vm_compute; reflexivity. Qed.

Lemma rooms_create_rejected_witness :
  let c := cmd "rooms create Lobby lobby main maybe yes" carol in
  rooms_after_gate c false world0
  = (Done tt, posted "!room:example.org" (wrong_arguments_text false) world0).
Proof.
  intros c.
  apply (rooms_create_rejected c world0 false
           ["Lobby"; "lobby"; "main"; "maybe"; "yes"]
           ["Lobby"; "lobby"; "main"; "maybe"; "yes"]);
    [reflexivity | reflexivity |].
  right. exists "maybe". split; reflexivity.
Defined.

End OnSim.


(** ** Further properties of the handlers *)

(** *** Tokens and the csv reader *)

Lemma all_chars_app p (s t : string) :
  all_chars p (s +:+ t) = all_chars p s && all_chars p t.
Proof.
  induction s as [|a s IH]; simpl; [reflexivity|]. rewrite IH. apply andb_assoc.
Qed.

Lemma split_from_tokens (s : string) : forall tok t,
  tok = "" ∨ is_token tok = true ->
  t ∈ Py.split_from tok s -> is_token t = true.
Proof.
  induction s as [|a s IH]; intros tok t Htok Hin; cbn in Hin.
  - destruct tok; [apply elem_of_nil in Hin; destruct Hin|].
    apply list_elem_of_singleton in Hin. subst t.
    destruct Htok as [Htok|Htok]; [discriminate|exact Htok].
  - destruct (Py.is_space a) eqn:Hspace.
    + destruct tok as [|b tok].
      * apply (IH "" t); [left; reflexivity|exact Hin].
      * apply elem_of_cons in Hin as [->|Hin].
        -- destruct Htok as [Htok|Htok]; [discriminate|exact Htok].
        -- apply (IH "" t); [left; reflexivity|exact Hin].
    + apply (IH (tok +:+ String a "") t); [|exact Hin].
      right. unfold is_token. rewrite all_chars_app. cbn. rewrite Hspace. cbn.
      destruct Htok as [->|Htok]; [reflexivity|].
      unfold is_token in Htok. apply andb_true_iff in Htok as [_ Hall].
      rewrite Hall. destruct tok; reflexivity.
Qed.

Lemma args_tokens c t : t ∈ args c -> is_token t = true.
Proof.
  intros Hin. apply (split_from_tokens (command c) "" t); [left; reflexivity|].
  unfold args in Hin. unfold Py.split in Hin.
  destruct (Py.split_from "" (command c)); [exact Hin|].
  apply elem_of_cons. right. exact Hin.
Qed.

Lemma newline_is_space a : Csv.is_newline a = true -> Py.is_space a = true.
Proof.
  unfold Csv.is_newline. intros Hnl. apply orb_true_iff in Hnl as [Hnl|Hnl];
    apply Ascii.eqb_eq in Hnl; subst a; reflexivity.
Qed.

Lemma token_no_newline t : is_token t = true -> no_newline t = true.
Proof.
  unfold is_token, no_newline. intros Htok. apply andb_true_iff in Htok as [_ Hall].
  induction t as [|a t IH]; [reflexivity|]. cbn in *.
  apply andb_true_iff in Hall as [Ha Hall]. rewrite (IH Hall), andb_true_r.
  destruct (Csv.is_newline a) eqn:E; [|reflexivity].
  rewrite (newline_is_space a E) in Ha. discriminate.
Qed.

Lemma join_all_chars (p : ascii -> bool) (l : list string) :
  p " "%char = true ->
  (forall t, t ∈ l -> all_chars p t = true) -> all_chars p (Py.join " " l) = true.
Proof.
  intros Hsep. induction l as [|t l IH]; intros Hall; [reflexivity|].
  assert (all_chars p t = true) as Ht
    by (apply Hall, elem_of_cons; left; reflexivity).
  assert (all_chars p (Py.join " " l) = true) as Hl
    by (apply IH; intros u Hu; apply Hall, elem_of_cons; right; exact Hu).
  unfold Py.join in *. cbn. destruct l as [|u l]; [exact Ht|].
  rewrite all_chars_app, Ht.
  change (" " +:+ String.concat " " (u :: l))
    with (String " "%char (String.concat " " (u :: l))).
  cbn [all_chars andb]. rewrite Hsep. exact Hl.
Qed.

Lemma join_no_newline (l : list string) :
  (forall t, t ∈ l -> is_token t = true) -> no_newline (Py.join " " l) = true.
Proof.
  intros Hall. apply join_all_chars; [reflexivity|].
  intros t Ht. apply token_no_newline, Hall, Ht.
Qed.

Lemma join_csv_readable `{Interpreter} (l : list string) :
  (forall t, t ∈ l -> csv_readable t = true) -> csv_readable (Py.join " " l) = true.
Proof. intros Hall. apply join_all_chars; [reflexivity|exact Hall]. Qed.

Lemma append_empty_r (s : string) : s +:+ "" = s.
Proof.
  induction s as [|a s IH]; [reflexivity|].
  change (String a (s +:+ "") = String a s). rewrite IH. reflexivity.
Qed.

Lemma append_snoc (s t : string) a : (s +:+ String a "") +:+ t = s +:+ String a t.
Proof.
  induction s as [|b s IH]; [reflexivity|].
  change (String b ((s +:+ String a "") +:+ t) = String b (s +:+ String a t)).
  rewrite IH. reflexivity.
Qed.

Lemma length_app_string (s t : string) :
  String.length (s +:+ t) = (String.length s + String.length t)%nat.
Proof.
  induction s as [|a s IH]; [reflexivity|].
  change (S (String.length (s +:+ t)) = S (String.length s + String.length t)).
  rewrite IH. reflexivity.
Qed.

Lemma parse_add_char_fits a r :
  (N.of_nat (String.length (Csv.field r)) < Csv.field_limit)%N ->
  Csv.parse_add_char a r
  = inl (Csv.mkReader (Csv.state r) (Csv.fields r) (Csv.field r +:+ String a "")).
Proof.
  intros Hfits. unfold Csv.parse_add_char.
  rewrite (proj2 (N.leb_gt _ _) Hfits). reflexivity.
Qed.

Lemma parse_add_char_full a r :
  (Csv.field_limit <= N.of_nat (String.length (Csv.field r)))%N ->
  Csv.parse_add_char a r = inr Csv.FieldTooLarge.
Proof.
  intros Hfull. unfold Csv.parse_add_char.
  rewrite (proj2 (N.leb_le _ _) Hfull). reflexivity.
Qed.

Lemma process_char_no_newline d q r a :
  Csv.state r ≠ Csv.EAT_CRNL -> Csv.is_newline a = false ->
  (N.of_nat (String.length (Csv.field r)) < Csv.field_limit)%N ->
  exists r', Csv.parse_process_char d q r (Some a) = inl r'
             ∧ Csv.state r' ≠ Csv.EAT_CRNL
             ∧ (String.length (Csv.field r') <= S (String.length (Csv.field r)))%nat.
Proof.
  intros Hstate Hnl Hfits.
  assert (forall st, Csv.parse_add_char a (Csv.set_state st r)
                     = inl (Csv.mkReader st (Csv.fields r) (Csv.field r +:+ String a "")))
    as Hadd by (intros st; exact (parse_add_char_fits a (Csv.set_state st r) Hfits)).
  pose proof (parse_add_char_fits a r Hfits) as Hadd'.
  assert (String.length (Csv.field r +:+ String a "") = S (String.length (Csv.field r)))
    as Hlen by (rewrite length_app_string; cbn; lia).
  unfold Csv.parse_process_char, Csv.start_field, Csv.add_char_then.
  rewrite ?Hadd, Hadd'.
  destruct (Csv.state r) eqn:E; try congruence; rewrite ?Hnl;
    repeat match goal with
           | |- context [if ?b then _ else _] => destruct b
           end;
    eexists; (split; [reflexivity|]); cbn -[String.length]; rewrite ?Hlen;
    (split; [congruence|cbn; lia]).
Qed.

Lemma process_line_no_newline `{Interpreter} d q (line : string) : forall r,
  Csv.state r ≠ Csv.EAT_CRNL -> no_newline line = true -> csv_readable line = true ->
  (N.of_nat (String.length (Csv.field r) + String.length line) <= Csv.field_limit)%N ->
  exists r', Csv.process_line d q r line = inl r'.
Proof.
  induction line as [|a line IH]; intros r Hstate Hline Hreadable Hfits.
  - cbn. unfold Csv.parse_process_char, Csv.start_field.
    destruct (Csv.state r); try congruence; eauto.
  - cbn in Hline. apply andb_true_iff in Hline as [Ha Hline].
    apply negb_true_iff in Ha.
    cbn in Hreadable. apply andb_true_iff in Hreadable as [Hnul Hreadable].
    apply negb_true_iff in Hnul.
    cbn [String.length] in Hfits.
    destruct (process_char_no_newline d q r a Hstate Ha) as (r' & Hstep & Hstate' & Hlen);
      [lia|].
    cbn [Csv.process_line]. rewrite Hnul, Hstep.
    apply IH; [assumption | assumption | assumption | lia].
Qed.

Lemma plain_char_tests a :
  plain_char a = true ->
  Csv.is_newline a = false ∧ Ascii.eqb a (ascii_of_nat 34) = false
  ∧ Ascii.eqb a " "%char = false.
Proof.
  unfold plain_char. intros Hp. apply andb_true_iff in Hp as [Hq Hs].
  apply negb_true_iff in Hq, Hs. split; [|split; [exact Hq|]].
  - destruct (Csv.is_newline a) eqn:E; [|reflexivity].
    rewrite (newline_is_space a E) in Hs. discriminate.
  - destruct (Ascii.eqb_spec a " "%char) as [->|]; [discriminate|reflexivity].
Qed.

(** One plain character read inside an unquoted field. *)
Lemma csv_in_field_char `{Interpreter} a fs f line :
  plain_char a = true -> csv_readable (String a "") = true ->
  Csv.process_line " "%char (ascii_of_nat 34) (Csv.mkReader Csv.IN_FIELD fs f)
    (String a line)
  = match Csv.parse_add_char a (Csv.mkReader Csv.IN_FIELD fs f) with
    | inl r' => Csv.process_line " "%char (ascii_of_nat 34) r' line
    | inr e => inr e
    end.
Proof.
  intros Ha Hreadable. destruct (plain_char_tests a Ha) as (Hnl & Hq & Hd).
  cbn in Hreadable. rewrite andb_true_r in Hreadable. apply negb_true_iff in Hreadable.
  cbn [Csv.process_line]. rewrite Hreadable.
  unfold Csv.parse_process_char. cbn [Csv.state]. rewrite Hnl, Hd. reflexivity.
Qed.

Lemma csv_in_field `{Interpreter} (t : string) : forall fs f line,
  all_chars plain_char t = true -> csv_readable t = true ->
  within_field_limit (f +:+ t) ->
  Csv.process_line " "%char (ascii_of_nat 34) (Csv.mkReader Csv.IN_FIELD fs f) (t +:+ line)
  = Csv.process_line " "%char (ascii_of_nat 34) (Csv.mkReader Csv.IN_FIELD fs (f +:+ t)) line.
Proof.
  unfold within_field_limit.
  induction t as [|a t IH]; intros fs f line Hall Hreadable Hfits.
  - rewrite append_empty_r. reflexivity.
  - simpl in Hall. apply andb_true_iff in Hall as [Ha Hall].
    cbn in Hreadable. apply andb_true_iff in Hreadable as [Hnul Hreadable].
    change (String a t +:+ line) with (String a (t +:+ line)).
    rewrite csv_in_field_char; [|exact Ha|cbn; rewrite Hnul; reflexivity].
    rewrite length_app_string in Hfits. cbn [String.length] in Hfits.
    rewrite parse_add_char_fits by (cbn [Csv.field]; lia).
    cbn [Csv.state Csv.fields Csv.field].
    rewrite IH; [rewrite append_snoc; reflexivity | exact Hall | exact Hreadable |].
    rewrite append_snoc, length_app_string. cbn [String.length]. lia.
Qed.

Lemma csv_in_field_overflow `{Interpreter} (t : string) : forall fs f line,
  all_chars plain_char t = true -> csv_readable t = true ->
  within_field_limit f -> ~ within_field_limit (f +:+ t) ->
  Csv.process_line " "%char (ascii_of_nat 34) (Csv.mkReader Csv.IN_FIELD fs f) (t +:+ line)
  = inr Csv.FieldTooLarge.
Proof.
  unfold within_field_limit.
  induction t as [|a t IH]; intros fs f line Hall Hreadable Hf Hover.
  - rewrite append_empty_r in Hover. contradiction.
  - simpl in Hall. apply andb_true_iff in Hall as [Ha Hall].
    cbn in Hreadable. apply andb_true_iff in Hreadable as [Hnul Hreadable].
    change (String a t +:+ line) with (String a (t +:+ line)).
    rewrite csv_in_field_char; [|exact Ha|cbn; rewrite Hnul; reflexivity].
    destruct (N.ltb_spec (N.of_nat (String.length f)) Csv.field_limit) as [Hroom|Hfull].
    + rewrite parse_add_char_fits by exact Hroom.
      cbn [Csv.state Csv.fields Csv.field].
      apply IH; [exact Hall | exact Hreadable | |].
      * rewrite length_app_string. cbn [String.length]. lia.
      * rewrite append_snoc. exact Hover.
    + rewrite parse_add_char_full by exact Hfull. reflexivity.
Qed.

Lemma csv_start_token `{Interpreter} (t : string) fs line st :
  st = Csv.START_RECORD ∨ st = Csv.START_FIELD ->
  Py.nonempty t = true -> all_chars plain_char t = true -> csv_readable t = true ->
  Csv.process_line " "%char (ascii_of_nat 34) (Csv.mkReader st fs "") (t +:+ line)
  = Csv.process_line " "%char (ascii_of_nat 34) (Csv.mkReader Csv.IN_FIELD fs "") (t +:+ line).
Proof.
  intros Hst Hne Hall Hreadable. destruct t as [|a t]; [discriminate|].
  simpl in Hall. apply andb_true_iff in Hall as [Ha Hall].
  cbn in Hreadable. apply andb_true_iff in Hreadable as [Hnul Hreadable].
  apply negb_true_iff in Hnul.
  destruct (plain_char_tests a Ha) as (Hnl & Hq & Hd).
  change (String a t +:+ line) with (String a (t +:+ line)).
  cbn [Csv.process_line]. rewrite Hnul.
  unfold Csv.parse_process_char, Csv.start_field, Csv.add_char_then.
  destruct Hst as [-> | ->]; cbn [Csv.state]; rewrite Hnl, Hq, Hd;
    rewrite !parse_add_char_fits by reflexivity; reflexivity.
Qed.

(** The delimiter ends an unquoted field. *)
Lemma csv_separator `{Interpreter} fs f line :
  Csv.process_line " "%char (ascii_of_nat 34) (Csv.mkReader Csv.IN_FIELD fs f)
    (String " "%char line)
  = Csv.process_line " "%char (ascii_of_nat 34)
      (Csv.mkReader Csv.START_FIELD (fs ++ [f]) "") line.
Proof. reflexivity. Qed.

Lemma csv_plain_tokens `{Interpreter} (l : list string) : forall t fs st,
  st = Csv.START_RECORD ∨ st = Csv.START_FIELD ->
  (forall u, u ∈ t :: l ->
     Py.nonempty u = true ∧ all_chars plain_char u = true ∧ csv_readable u = true
     ∧ within_field_limit u) ->
  Csv.process_line " "%char (ascii_of_nat 34) (Csv.mkReader st fs "") (Py.join " " (t :: l))
  = inl (Csv.mkReader Csv.START_RECORD (fs ++ t :: l) "").
Proof.
  induction l as [|u l IH]; intros t fs st Hst Hall.
  - destruct (Hall t) as (Hne & Hplain & Hreadable & Hfits);
      [apply elem_of_cons; left; reflexivity|].
    unfold Py.join. simpl String.concat.
    rewrite <- (append_empty_r t) at 1.
    rewrite (csv_start_token t fs "" st Hst Hne Hplain Hreadable).
    rewrite (csv_in_field t fs "" "" Hplain Hreadable Hfits). reflexivity.
  - destruct (Hall t) as (Hne & Hplain & Hreadable & Hfits);
      [apply elem_of_cons; left; reflexivity|].
    unfold Py.join in *.
    change (String.concat " " (t :: u :: l))
      with (t +:+ String " " (String.concat " " (u :: l))).
    rewrite (csv_start_token t fs _ st Hst Hne Hplain Hreadable).
    rewrite (csv_in_field t fs "" _ Hplain Hreadable Hfits).
    rewrite csv_separator. change ("" +:+ t) with t.
    rewrite (IH u (fs ++ [t])%list Csv.START_FIELD); [| right; reflexivity |].
    + rewrite <- app_assoc. reflexivity.
    + intros v Hv. apply Hall, elem_of_cons. right. exact Hv.
Qed.

Lemma csv_plain_tokens_overflow `{Interpreter} (l : list string) : forall t fs st,
  st = Csv.START_RECORD ∨ st = Csv.START_FIELD ->
  (forall u, u ∈ t :: l ->
     Py.nonempty u = true ∧ all_chars plain_char u = true ∧ csv_readable u = true) ->
  (exists u, u ∈ t :: l ∧ ~ within_field_limit u) ->
  Csv.process_line " "%char (ascii_of_nat 34) (Csv.mkReader st fs "") (Py.join " " (t :: l))
  = inr Csv.FieldTooLarge.
Proof.
  assert (within_field_limit "") as Hempty by (unfold within_field_limit; cbn; lia).
  induction l as [|u l IH]; intros t fs st Hst Hall Hlong.
  - destruct (Hall t) as (Hne & Hplain & Hreadable);
      [apply elem_of_cons; left; reflexivity|].
    destruct Hlong as (v & Hv & Hover).
    apply list_elem_of_singleton in Hv. subst v.
    unfold Py.join. simpl String.concat.
    rewrite <- (append_empty_r t) at 1.
    rewrite (csv_start_token t fs "" st Hst Hne Hplain Hreadable).
    apply csv_in_field_overflow; assumption.
  - destruct (Hall t) as (Hne & Hplain & Hreadable);
      [apply elem_of_cons; left; reflexivity|].
    unfold Py.join in *.
    change (String.concat " " (t :: u :: l))
      with (t +:+ String " " (String.concat " " (u :: l))).
    rewrite (csv_start_token t fs _ st Hst Hne Hplain Hreadable).
    destruct (N.leb_spec (N.of_nat (String.length t)) Csv.field_limit) as [Hfits|Hover].
    + rewrite (csv_in_field t fs "" _ Hplain Hreadable Hfits).
      rewrite csv_separator.
      apply (IH u (fs ++ ["" +:+ t])%list Csv.START_FIELD); [right; reflexivity | |].
      * intros v Hv. apply Hall, elem_of_cons. right. exact Hv.
      * destruct Hlong as (v & Hv & Hvlong). exists v. split; [|exact Hvlong].
        apply elem_of_cons in Hv as [->|Hv]; [|exact Hv].
        destruct Hvlong. exact Hfits.
    + apply csv_in_field_overflow; [exact Hplain | exact Hreadable | exact Hempty |].
      unfold within_field_limit. change ("" +:+ t) with t. lia.
Qed.

(** *** Usernames and stripping *)

Lemma all_chars_filter p (s : string) : all_chars p (Py.filter_chars p s) = true.
Proof.
  induction s as [|a s IH]; [reflexivity|]. cbn.
  destruct (p a) eqn:E; [cbn; rewrite E, IH; reflexivity|exact IH].
Qed.

Lemma filter_chars_all p (s : string) :
  all_chars p s = true -> Py.filter_chars p s = s.
Proof.
  induction s as [|a s IH]; [reflexivity|]. cbn. intros Hall.
  apply andb_true_iff in Hall as [Ha Hall]. rewrite Ha, (IH Hall). reflexivity.
Qed.

Lemma username_char_lower a : username_char a = true -> Py.lower_ascii a = a.
Proof.
  unfold username_char, Py.lower_ascii. intros Hc.
  destruct ((65 <=? nat_of_ascii a)%nat && (nat_of_ascii a <=? 90)%nat) eqn:E;
    [|reflexivity].
  apply andb_true_iff in E as [E1 E2]. apply Nat.leb_le in E1, E2.
  repeat (apply orb_true_iff in Hc as [Hc|Hc]);
    try (apply andb_true_iff in Hc as [Hc1 Hc2]; apply Nat.leb_le in Hc1, Hc2; lia);
    apply Nat.eqb_eq in Hc; lia.
Qed.

Lemma lower_username s : all_chars username_char s = true -> Py.lower s = s.
Proof.
  induction s as [|a s IH]; [reflexivity|]. cbn. intros Hall.
  apply andb_true_iff in Hall as [Ha Hall].
  rewrite (username_char_lower a Ha), (IH Hall). reflexivity.
Qed.

Lemma before_at (s t : string) :
  all_chars username_char s = true ->
  Py.before "@"%char (s +:+ String "@"%char t) = s.
Proof.
  induction s as [|a s IH]; [reflexivity|]. cbn. intros Hall.
  apply andb_true_iff in Hall as [Ha Hall].
  change (String a s +:+ String "@"%char t) with (String a (s +:+ String "@"%char t)).
  cbn [Py.before]. destruct (Ascii.eqb_spec a "@"%char) as [->|_]; [discriminate|].
  rewrite (IH Hall). reflexivity.
Qed.

(** X16.  The username candidate derived from an address holds only
    the characters [a-z], [0-9], [.], [_] and [-], and a local part made
    of these characters is its own candidate. *)
Theorem username_candidate_alphabet :
  (forall email, all_chars username_char (username_candidate_of email) = true)
  ∧ (forall local domain,
       all_chars username_char local = true ->
       username_candidate_of (local +:+ String "@"%char domain) = local).
Proof.
  split.
  - intros email. apply all_chars_filter.
  - intros local domain Hall. unfold username_candidate_of.
    rewrite (before_at local domain Hall), (lower_username local Hall).
    apply filter_chars_all. exact Hall.
Qed.

Lemma lstrip_token t : is_token t = true -> Py.lstrip t = t.
Proof.
  unfold is_token. destruct t as [|a t]; [reflexivity|]. cbn.
  intros Htok. apply andb_true_iff in Htok as [Ha _].
  apply negb_true_iff in Ha. rewrite Ha. reflexivity.
Qed.

Lemma rstrip_blank_free t :
  all_chars (fun a => negb (Py.is_space a)) t = true -> Py.rstrip t = t.
Proof.
  induction t as [|a t IH]; [reflexivity|]. cbn. intros Hall.
  apply andb_true_iff in Hall as [Ha Hall]. apply negb_true_iff in Ha.
  rewrite (IH Hall), Ha. destruct t; reflexivity.
Qed.

Lemma strip_token t : is_token t = true -> Py.strip t = t.
Proof.
  intros Htok. unfold Py.strip. rewrite (lstrip_token t Htok).
  apply rstrip_blank_free. unfold is_token in Htok.
  apply andb_true_iff in Htok as [_ Hall]. exact Hall.
Qed.

Lemma append_assoc_string (a b c : string) : (a +:+ b) +:+ c = a +:+ (b +:+ c).
Proof.
  induction a as [|x a IH]; [reflexivity|].
  change (String x ((a +:+ b) +:+ c) = String x (a +:+ (b +:+ c))). rewrite IH. reflexivity.
Qed.

Lemma join_empty_snoc {A} (f : A -> string) (l : list A) (x : A) :
  Py.join "" (List.map f (l ++ [x])%list) = Py.join "" (List.map f l) +:+ f x.
Proof.
  unfold Py.join. induction l as [|a l IH]; [reflexivity|].
  destruct l as [|b l].
  - reflexivity.
  - change (f a +:+ ("" +:+ String.concat "" (List.map f ((b :: l) ++ [x])%list))
            = (f a +:+ ("" +:+ String.concat "" (List.map f (b :: l)))) +:+ f x).
    rewrite IH. change ("" +:+ ?s) with s. rewrite append_assoc_string. reflexivity.
Qed.


Section MoreFacts.
Context {R : Type} `{Interpreter} `{HelpStrings} `{Collaborators R}.
Implicit Types (c : Command) (w : World R).

Lemma attempt_done {A} (m : M R A) w a w1 :
  m w = (Done a, w1) -> attempt m w = (Done (inl a), w1).
Proof. intros Hm. unfold attempt, try_except, bind, ret. rewrite Hm. reflexivity. Qed.

Lemma attempt_raised {A} (m : M R A) w e w1 :
  m w = (Raised e, w1) -> attempt m w = (Done (inr e), w1).
Proof. intros Hm. unfold attempt, try_except, bind, ret. rewrite Hm. reflexivity. Qed.

Lemma attempt_never_raises {A} (m : M R A) w : raised (fst (attempt m w)) = false.
Proof.
  unfold attempt, try_except, bind, ret. destruct (m w) as [[a|e|] w1]; reflexivity.
Qed.

(** X1.  The arguments of a command are tokens, free of line breaks.
    When, joined with spaces, they fit in one field of the csv reader
    (131072 characters) and hold no character the reader of the
    interpreter refuses, reading them back never fails: the [create]
    subcommands do not end in a csv error. *)
Theorem csv_params_never_raises (c : Command) (rest : list string) (w : World R) :
  (forall t, t ∈ rest -> t ∈ args c) ->
  within_field_limit (Py.join " " rest) ->
  (forall t, t ∈ rest -> csv_readable t = true) ->
  exists params, csv_params rest w = (Done params, w).
Proof.
  intros Hsub Hfits Hreadable. unfold csv_params, Csv.read_first.
  destruct (process_line_no_newline " "%char (ascii_of_nat 34) (Py.join " " rest)
              (Csv.mkReader Csv.START_RECORD [] "")) as [r Hr].
  - discriminate.
  - apply join_no_newline. intros t Ht. apply (args_tokens c), Hsub, Ht.
  - apply join_csv_readable, Hreadable.
  - exact Hfits.
  - rewrite Hr. destruct (Csv.state r); eauto.
Qed.

(** X2.  For arguments that hold no double quote, and no character the
    reader of the interpreter refuses: when every argument fits in a field
    of the csv reader, the reader gives the arguments back as they are,
    and the parameters of [create] are the typed arguments; when an
    argument is longer than a field may be (131072 characters), the reader
    raises [csv.Error], and [rooms create], [spaces create] and
    [communities create] end in that exception without an answer. *)
Theorem csv_params_plain (c : Command) (rest : list string) (w : World R) :
  (forall t, t ∈ rest -> t ∈ args c) ->
  (forall t, t ∈ rest -> Py.contains t Py.dq = false) ->
  (forall t, t ∈ rest -> csv_readable t = true) ->
  ((forall t, t ∈ rest -> within_field_limit t) ->
     csv_params rest w = (Done rest, w))
  ∧ ((exists t, t ∈ rest ∧ ~ within_field_limit t) ->
     let too_large := mkExn CsvError "field larger than field limit (131072)" in
     csv_params rest w = (Raised too_large, w)
     ∧ (args c = "create" :: rest ->
        (forall space, rooms_after_gate c space w = (Raised too_large, w))
        ∧ communities_after_gate c w = (Raised too_large, w))).
Proof.
  intros Hsub Hquote Hreadable.
  assert (forall u, u ∈ rest -> Py.nonempty u = true ∧ all_chars plain_char u = true)
    as Hplain.
  { intros u Hu. pose proof (args_tokens c u (Hsub u Hu)) as Htok.
    specialize (Hquote u Hu). unfold is_token in Htok.
    apply andb_true_iff in Htok as [Hne Hblank]. split; [exact Hne|].
    clear -Hblank Hquote. induction u as [|a u IH]; [reflexivity|].
    simpl in Hblank. apply andb_true_iff in Hblank as [Ha Hblank].
    cbn in Hquote. apply orb_false_iff in Hquote as [Hq Hquote].
    simpl. rewrite IH by assumption. rewrite andb_true_r.
    unfold plain_char. rewrite Ha, andb_true_r.
    destruct (Ascii.eqb_spec a (ascii_of_nat 34)) as [->|]; [|reflexivity].
    destruct u; vm_compute in Hq; discriminate Hq. }
  split.
  - intros Hfits. unfold csv_params, Csv.read_first.
    destruct rest as [|t rest]; [reflexivity|].
    rewrite (csv_plain_tokens rest t [] Csv.START_RECORD); [reflexivity|left; reflexivity|].
    intros u Hu. destruct (Hplain u Hu) as [Hne Hchars]. auto.
  - intros Hlong too_large.
    assert (csv_params rest w = (Raised too_large, w)) as Hraised.
    { unfold csv_params, Csv.read_first.
      destruct rest as [|t rest].
      { destruct Hlong as (t & Ht & _). apply elem_of_nil in Ht. destruct Ht. }
      rewrite (csv_plain_tokens_overflow rest t [] Csv.START_RECORD);
        [reflexivity | left; reflexivity | | exact Hlong].
      intros u Hu. destruct (Hplain u Hu) as [Hne Hchars]. auto. }
    split; [exact Hraised|]. intros Hargs. split.
    + intros space. unfold rooms_after_gate. rewrite Hargs, bind_gets.
      cbn -[csv_params reply]. unfold bind at 1 2. rewrite Hraised. reflexivity.
    + unfold communities_after_gate. rewrite Hargs, bind_gets.
      cbn -[csv_params reply]. unfold bind at 1 2. rewrite Hraised. reflexivity.
Qed.

(** *** Room recreation, once more *)

Lemma filter_no_request (room : string) (l : list RecreateRow) :
  List.find (fun r => rr_room_id r == room) l = None ->
  List.filter (fun r => negb (rr_room_id r == room)) l = l.
Proof.
  induction l as [|r l IH]; cbn; [trivial|].
  destruct (rr_room_id r == room); [discriminate|]. cbn. intros Hnone.
  rewrite IH by exact Hnone. reflexivity.
Qed.

Lemma recreate_bare_unapplied c w :
  sender c ∈ admins (config w) ->
  (forall r, stored_request c w = Some r -> applied r = false) ->
  _recreate_room c None w
  = (Done tt,
     posted (room_id c) (HELP_ROOMS_RECREATE_CONFIRM (command_prefix (config w)))
       (with_store (with_recreate_rooms (restarted_requests c w) (store w)) w)).
Proof.
  intros Ha Hunapplied.
  unfold _recreate_room. rewrite (bind_done _ _ _ _ _ (ensure_admin_member c w Ha)).
  cbn -[get_recreate_room]. rewrite (bind_done _ _ _ _ _ (get_recreate_room_stored c w)).
  destruct (stored_request c w) as [r|] eqn:Hreq.
  - rewrite (Hunapplied r eq_refl). reflexivity.
  - unfold bind, ret, store_recreate_room, modify, gets, reply, send_text_to_room.
    cbn. unfold restarted_requests, fresh_request.
    rewrite (filter_no_request _ _ Hreq). reflexivity.
Qed.

Lemma stored_request_restarted c c' w t :
  room_id c' = room_id c ->
  stored_request c'
    (with_clock t
       (posted (room_id c) (HELP_ROOMS_RECREATE_CONFIRM (command_prefix (config w)))
          (with_store (with_recreate_rooms (restarted_requests c w) (store w)) w)))
  = Some (fresh_request c w).
Proof.
  intros Hroom. unfold stored_request, restarted_requests. cbn. rewrite Hroom.
  rewrite find_app_none by apply find_filter_other.
  cbn. rewrite String.eqb_refl. reflexivity.
Qed.

(** X3.  For an admin and a room without a request, a bare [recreate]
    appends a fresh unapplied request with the sender and the current
    time and sends the confirmation prompt; the room then has that
    request, and a table with at most one request per room stays so. *)
Theorem recreate_first_request c w :
  sender c ∈ admins (config w) ->
  stored_request c w = None ->
  let w' := posted (room_id c) (HELP_ROOMS_RECREATE_CONFIRM (command_prefix (config w)))
              (with_store
                 (with_recreate_rooms
                    (recreate_rooms (store w) ++ [fresh_request c w]) (store w)) w) in
  _recreate_room c None w = (Done tt, w')
  ∧ stored_request c w' = Some (fresh_request c w)
  ∧ (one_request_per_room (recreate_rooms (store w)) ->
     one_request_per_room (recreate_rooms (store w'))).
Proof.
  intros Ha Hnone w'.
  assert (restarted_requests c w = (recreate_rooms (store w) ++ [fresh_request c w])%list)
    as Hsame by (unfold restarted_requests; rewrite (filter_no_request _ _ Hnone); reflexivity).
  split; [|split].
  - rewrite recreate_bare_unapplied; [|exact Ha|].
    + rewrite Hsame. reflexivity.
    + intros r Hr. unfold stored_request in *. congruence.
  - unfold w', stored_request. cbn. rewrite find_app_none by exact Hnone.
    cbn. rewrite String.eqb_refl. reflexivity.
  - intros Hinv. unfold w', one_request_per_room. cbn.
    rewrite map_app. apply NoDup_app. split; [exact Hinv|split].
    + intros x Hx Hx'. cbn in Hx'. apply list_elem_of_singleton in Hx'. subst x.
      apply list_elem_of_In, in_map_iff in Hx as (r & Hr & Hin).
      apply (find_none _ _ Hnone) in Hin. rewrite Hr, String.eqb_refl in Hin.
      discriminate.
    + cbn. apply NoDup_singleton.
Qed.

(** X4.  After a bare [recreate] by an admin, a confirm for the same room
    [d] seconds later finds the request just stored: from the same sender
    and with [d <= 60] the handler calls [recreate_room] for the room with
    the event id of the confirm, ends as that call ends and sends the
    failure message when no new room id comes back; with [d > 60] the
    confirm is rejected; from another admin it is rejected whatever [d]. *)
Theorem recreate_request_then_confirm c c' w d :
  sender c ∈ admins (config w) ->
  (forall r, stored_request c w = Some r -> applied r = false) ->
  room_id c' = room_id c ->
  let later := with_clock (clock w + d) (snd (_recreate_room c None w)) in
  stored_request c' later = Some (fresh_request c w)
  ∧ (sender c' = sender c -> d <= 60 ->
     _recreate_room c' (Some "confirm") later
     = match recreate_room (room_id c') (event_id c') later with
       | (Done new_room_id, w1) =>
           (Done tt,
            if Py.truthy new_room_id then w1
            else posted (room_id c')
                   "Failed to create new room. Please see logs or contact support." w1)
       | (Raised e, w1) => (Raised e, w1)
       | (Unfinished, w1) => (Unfinished, w1)
       end)
  ∧ (sender c' = sender c -> 60 < d ->
     _recreate_room c' (Some "confirm") later
     = (Done tt,
        posted (room_id c')
          "Room recreate confirmation must be given within 60 seconds. Please request recreation again."
          later))
  ∧ (sender c' ≠ sender c -> sender c' ∈ admins (config w) ->
     _recreate_room c' (Some "confirm") later
     = (Done tt,
        posted (room_id c')
          "Room recreate confirm must be given by the room recreate requester."
          later)).
Proof.
  intros Ha Hunapplied Hroom later.
  assert (stored_request c' later = Some (fresh_request c w)) as Hstored.
  { unfold later. rewrite (recreate_bare_unapplied c w Ha Hunapplied). cbn [snd].
    apply stored_request_restarted. exact Hroom. }
  assert (config later = config w) as Hcfg.
  { unfold later. rewrite (recreate_bare_unapplied c w Ha Hunapplied). reflexivity. }
  assert (clock later = clock w + d) as Hclock by reflexivity.
  clearbody later.
  split; [exact Hstored|]. split; [|split].
  - intros Hsender Hd.
    assert (sender c' ∈ admins (config later)) as Ha' by (rewrite Hcfg, Hsender; exact Ha).
    unfold _recreate_room. rewrite (bind_done _ _ _ _ _ (ensure_admin_member c' later Ha')).
    cbn -[get_recreate_room].
    rewrite (bind_done _ _ _ _ _ (get_recreate_room_stored c' later)), Hstored.
    cbn [requester fresh_request]. rewrite Hsender, String.eqb_refl.
    cbn -[Z.ltb Z.sub recreate_confirmed]. rewrite Hclock.
    rewrite (proj2 (Z.ltb_ge _ _)) by lia. apply recreate_confirmed_run.
  - intros Hsender Hd.
    assert (sender c' ∈ admins (config later)) as Ha' by (rewrite Hcfg, Hsender; exact Ha).
    unfold _recreate_room. rewrite (bind_done _ _ _ _ _ (ensure_admin_member c' later Ha')).
    cbn -[get_recreate_room].
    rewrite (bind_done _ _ _ _ _ (get_recreate_room_stored c' later)), Hstored.
    cbn [requester fresh_request]. rewrite Hsender, String.eqb_refl.
    cbn -[Z.ltb Z.sub recreate_confirmed]. rewrite Hclock.
    rewrite (proj2 (Z.ltb_lt _ _)) by lia. reflexivity.
  - intros Hsender Ha0.
    assert (sender c' ∈ admins (config later)) as Ha' by (rewrite Hcfg; exact Ha0).
    unfold _recreate_room. rewrite (bind_done _ _ _ _ _ (ensure_admin_member c' later Ha')).
    cbn -[get_recreate_room].
    rewrite (bind_done _ _ _ _ _ (get_recreate_room_stored c' later)), Hstored.
    cbn [requester fresh_request].
    destruct (String.eqb_spec (sender c) (sender c')) as [E|E]; [congruence|].
    reflexivity.
Qed.

(** X5.  For an admin, [recreate confirm] without a stored request is
    answered with the "before requesting" message, and a subcommand other
    than [confirm] with the usage text, both without any other effect.
    After the recreation itself the handler speaks only on failure: it
    sends the failure message when no new room id comes back and nothing
    when one does. *)
Theorem recreate_refusals c w :
  sender c ∈ admins (config w) ->
  (stored_request c w = None ->
     _recreate_room c (Some "confirm") w
     = (Done tt,
        posted (room_id c)
          "Cannot confirm room recreate before requesting room recreate." w))
  ∧ (forall subcommand,
       Py.nonempty subcommand = true -> subcommand ≠ "confirm" ->
       _recreate_room c (Some subcommand) w
       = (Done tt,
          posted (room_id c)
            ("Unknown subcommand. Usage:" +:+ Py.nl +:+ Py.nl +:+ HELP_ROOMS_RECREATE) w))
  ∧ (forall w1 new_room,
       recreate_room (room_id c) (event_id c) w = (Done new_room, w1) ->
       recreate_confirmed c w
       = (Done tt,
          if Py.truthy new_room then w1
          else posted (room_id c)
                 "Failed to create new room. Please see logs or contact support." w1)).
Proof.
  intros Ha. split; [|split].
  - intros Hnone.
    unfold _recreate_room. rewrite (bind_done _ _ _ _ _ (ensure_admin_member c w Ha)).
    cbn -[get_recreate_room].
    rewrite (bind_done _ _ _ _ _ (get_recreate_room_stored c w)), Hnone. reflexivity.
  - intros subcommand Hne Hother.
    unfold _recreate_room. rewrite (bind_done _ _ _ _ _ (ensure_admin_member c w Ha)).
    cbn -[reply]. rewrite Hne. cbn -[reply].
    destruct (String.eqb_spec subcommand "confirm") as [E|E]; [congruence|]. reflexivity.
  - intros w1 new_room Hrun. unfold recreate_confirmed.
    rewrite (bind_done _ _ _ _ _ Hrun). destruct (Py.truthy new_room); reflexivity.
Qed.

(** *** Power and invitations *)

(** X6.  Past the gate, [power] with a user and no room is answered with
    "Cannot understand arguments" and the help text; with a level other
    than [moderator] and [admin] with the level message, after the alias,
    if the room is one, has been resolved; and with an alias that does
    not resolve with "Could not resolve room ID".  [set_user_power] is not
    reached in any of these cases. *)
Theorem power_argument_errors c w user :
  user ≠ "help" ->
  (args c = [user] ->
     power_after_gate c w
     = (Done tt,
        posted (room_id c)
          ("Cannot understand arguments." +:+ Py.nl +:+ Py.nl +:+ HELP_POWER) w))
  ∧ (forall room level rest,
       args c = user :: room :: level :: rest ->
       level ≠ "moderator" -> level ≠ "admin" ->
       (Py.startswith room "#" = false ->
          power_after_gate c w
          = (Done tt, posted (room_id c) "Level must be 'moderator' or 'admin'." w))
       ∧ (forall resolved w1,
            Py.startswith room "#" = true ->
            room_resolve_alias room w = (Done (Some resolved), w1) ->
            power_after_gate c w
            = (Done tt, posted (room_id c) "Level must be 'moderator' or 'admin'." w1)))
  ∧ (forall room rest w1,
       args c = user :: room :: rest ->
       Py.startswith room "#" = true ->
       room_resolve_alias room w = (Done None, w1) ->
       power_after_gate c w
       = (Done tt,
          posted (room_id c) "Could not resolve room ID. Please ensure room exists." w1)).
Proof.
  intros Huser.
  assert ((user == "help") = false) as Hnohelp
    by (destruct (String.eqb_spec user "help"); congruence).
  split; [|split].
  - intros Hargs. unfold power_after_gate. rewrite Hargs, Hnohelp. reflexivity.
  - intros room level rest Hargs Hm Ha.
    assert ((level == "moderator") = false) as Hm'
      by (destruct (String.eqb_spec level "moderator"); congruence).
    assert ((level == "admin") = false) as Ha'
      by (destruct (String.eqb_spec level "admin"); congruence).
    split.
    + intros Hroom. unfold power_after_gate. rewrite Hargs, Hnohelp.
      unfold attempt, try_except, bind at 1 2 3 4. cbn -[reply]. rewrite Hroom.
      cbn -[reply]. rewrite Hm', Ha'. reflexivity.
    + intros resolved w1 Hroom Hresolve. unfold power_after_gate.
      rewrite Hargs, Hnohelp.
      unfold attempt, try_except, bind at 1 2 3 4. cbn -[reply]. rewrite Hroom.
      unfold bind at 1. rewrite Hresolve. cbn -[reply]. rewrite Hm', Ha'. reflexivity.
  - intros room rest w1 Hargs Hroom Hresolve. unfold power_after_gate.
    rewrite Hargs, Hnohelp.
    unfold attempt, try_except, bind at 1 2 3 4. cbn -[reply]. rewrite Hroom.
    unfold bind at 1. rewrite Hresolve. reflexivity.
Qed.

(** X7.  The level of [power] defaults to [moderator]: leaving it out
    gives the same run as writing [moderator]. *)
Theorem power_default_level c c' w user room :
  args c = [user; room] -> args c' = [user; room; "moderator"] ->
  room_id c' = room_id c ->
  power_after_gate c w = power_after_gate c' w.
Proof.
  intros Hargs Hargs' Hroom. unfold power_after_gate. rewrite Hargs, Hargs'.
  destruct (user == "help"); [unfold reply; rewrite Hroom; reflexivity|].
  unfold reply. rewrite Hroom. reflexivity.
Qed.

Lemma invalid_users_posted c room alias (users : list string) : forall w,
  (forall u, u ∈ users -> check_user_id u = false) ->
  for_each users (fun user =>
    if negb (check_user_id user)
    then reply c ("Invalid user mxid: " +:+ user)
    else invite_to_room room user (room_id c) alias) w
  = (Done tt,
     posted_all (room_id c) (List.map (fun u => "Invalid user mxid: " +:+ u) users) w).
Proof.
  induction users as [|u users IH]; intros w Hall; [reflexivity|].
  cbn [for_each List.map posted_all].
  rewrite (Hall u) by (apply elem_of_cons; left; reflexivity). cbn [negb].
  rewrite (bind_done _ _ _ _ _ (reply_posted c _ w)).
  apply IH. intros v Hv. apply Hall, elem_of_cons. right. exact Hv.
Qed.

(** X8.  Past the gate, [invite] with a room alone invites the sender;
    with user ids that are all malformed it sends one "Invalid user mxid"
    message per id, in order, and invites nobody.  When resolving the room
    raises, an attribute or protocol error is answered with "Could not
    resolve room ID", an index error with the help text, and any other
    exception is not caught. *)
Theorem invite_outcomes c w alias others :
  args c = alias :: others -> alias ≠ "help" ->
  (forall room w1,
     ensure_room_id alias w = (Done room, w1) ->
     (others = [] ->
        invite_after_gate c w = invite_to_room room (sender c) (room_id c) alias w1)
     ∧ (others ≠ [] -> (forall u, u ∈ others -> check_user_id u = false) ->
        invite_after_gate c w
        = (Done tt,
           posted_all (room_id c)
             (List.map (fun u => "Invalid user mxid: " +:+ u) others) w1)))
  ∧ (forall e w1,
       ensure_room_id alias w = (Raised e, w1) ->
       invite_after_gate c w
       = match exn_kind e with
         | AttributeError | ProtocolError =>
             (Done tt,
              posted (room_id c)
                "Could not resolve room ID. Please ensure room exists." w1)
         | IndexError =>
             (Done tt,
              posted (room_id c)
                ("Cannot understand arguments." +:+ Py.nl +:+ Py.nl +:+ HELP_INVITE) w1)
         | _ => (Raised e, w1)
         end).
Proof.
  intros Hargs Halias.
  assert ((alias == "help") = false) as Hnohelp
    by (destruct (String.eqb_spec alias "help"); congruence).
  split.
  - intros room w1 Hroom. split.
    + intros ->. unfold invite_after_gate. rewrite Hargs, Hnohelp.
      rewrite (bind_done _ _ _ _ _ (attempt_done _ _ _ _ Hroom)). reflexivity.
    + intros Hsome Hinvalid. unfold invite_after_gate. rewrite Hargs, Hnohelp.
      rewrite (bind_done _ _ _ _ _ (attempt_done _ _ _ _ Hroom)).
      destruct others as [|u others]; [congruence|].
      apply invalid_users_posted. exact Hinvalid.
  - intros e w1 Hraise. unfold invite_after_gate. rewrite Hargs, Hnohelp.
    rewrite (bind_done _ _ _ _ _ (attempt_raised _ _ _ _ Hraise)).
    destruct (exn_kind e); reflexivity.
Qed.

Lemma find_filter_room (room : string) (l : list RoomRow) :
  List.find (fun r => room_room_id r == room)
    (List.filter (fun r => negb (room_room_id r == room)) l) = None.
Proof.
  induction l as [|r l IH]; [reflexivity|]. cbn.
  destruct (room_room_id r == room) eqn:E; cbn; [exact IH|]. rewrite E. exact IH.
Qed.

Lemma find_filter_other_room (room room' : string) (l : list RoomRow) :
  room' ≠ room ->
  List.find (fun r => room_room_id r == room')
    (List.filter (fun r => negb (room_room_id r == room)) l)
  = List.find (fun r => room_room_id r == room') l.
Proof.
  intros Hne. induction l as [|r l IH]; [reflexivity|]. cbn.
  destruct (String.eqb_spec (room_room_id r) room) as [E|E]; cbn.
  - destruct (String.eqb_spec (room_room_id r) room') as [E'|E']; [congruence|exact IH].
  - destruct (room_room_id r == room'); [reflexivity|exact IH].
Qed.

(** X9.  Past the gate, [unlink] without a room is answered with its help
    text.  A room that is not tracked is answered with "Cannot unlink",
    nothing removed.  A tracked room is removed from the table, the other
    rooms stay, and the room is left only with [unlink-and-leave].  When
    resolving the room raises, a key or protocol error is answered with
    "Error resolving room ID" and any other exception is not caught. *)
Theorem unlink_outcomes c w leave :
  ((args c = [] ∨ exists a0, args c = [a0]) ->
     unlink_room_after_gate c leave w = (Done tt, posted (room_id c) HELP_ROOMS_UNLINK w))
  ∧ (forall a0 a1 rest room w1,
       args c = a0 :: a1 :: rest ->
       ensure_room_id a1 w = (Done room, w1) ->
       (tracked_room room w1 = None ->
          unlink_room_after_gate c leave w
          = (Done tt,
             posted (room_id c)
               ("Cannot unlink room " +:+ room +:+ " which doesn't seem tracked by Bubo")
               w1))
       ∧ (tracked_room room w1 ≠ None -> leave = false ->
          let w' := posted (room_id c)
                      ("Room " +:+ room +:+ " has been removed from Bubo database.")
                      (unlinked room w1) in
          unlink_room_after_gate c leave w = (Done tt, w')
          ∧ tracked_room room w' = None
          ∧ forall other, other ≠ room -> tracked_room other w' = tracked_room other w1)
       ∧ (tracked_room room w1 ≠ None -> leave = true ->
          unlink_room_after_gate c leave w
          = (room_leave room ;;
             reply c ("Room " +:+ room +:+ " has been removed from Bubo database." +:+
                      " Bubo has also left the room")) (unlinked room w1)))
  ∧ (forall a0 a1 rest e w1,
       args c = a0 :: a1 :: rest ->
       ensure_room_id a1 w = (Raised e, w1) ->
       unlink_room_after_gate c leave w
       = match exn_kind e with
         | KeyError | ProtocolError =>
             (Done tt, posted (room_id c) "Error resolving room ID" w1)
         | _ => (Raised e, w1)
         end).
Proof.
  split; [|split].
  - intros [Hargs|[a0 Hargs]]; unfold unlink_room_after_gate; rewrite Hargs; reflexivity.
  - intros a0 a1 rest room w1 Hargs Hroom.
    assert (unlink_room_after_gate c leave w
            = (tracked <- get_room room ;;
               match tracked with
               | None =>
                   reply c ("Cannot unlink room " +:+ room +:+
                            " which doesn't seem tracked by Bubo")
               | Some _ =>
                   unlink_room room ;;
                   (if leave then room_leave room else ret tt) ;;
                   reply c ("Room " +:+ room +:+ " has been removed from Bubo database." +:+
                            (if leave then " Bubo has also left the room" else ""))
               end) w1) as Hstep.
    { unfold unlink_room_after_gate. rewrite Hargs.
      rewrite (bind_done _ _ _ _ _ (attempt_done _ _ _ _ Hroom)). reflexivity. }
    assert (get_room room w1 = (Done (tracked_room room w1), w1)) as Hget by reflexivity.
    rewrite Hstep, (bind_done _ _ _ _ _ Hget). split; [|split].
    + intros ->. reflexivity.
    + intros Htracked ->. destruct (tracked_room room w1) as [row|]; [|congruence].
      split; [reflexivity|]. split.
      * unfold tracked_room, unlinked. cbn. apply find_filter_room.
      * intros other Hother. unfold tracked_room, unlinked. cbn.
        apply find_filter_other_room. exact Hother.
    + intros Htracked ->. destruct (tracked_room room w1) as [row|]; [|congruence].
      reflexivity.
  - intros a0 a1 rest e w1 Hargs Hraise. unfold unlink_room_after_gate. rewrite Hargs.
    rewrite (bind_done _ _ _ _ _ (attempt_raised _ _ _ _ Hraise)).
    destruct (exn_kind e); reflexivity.
Qed.
(** *** Users *)

(** X10.  With Keycloak disabled, [users] answers every sender and every
    argument list with the "disabled" text, before any permission gate,
    and the functions of [users.py] return their empty result without
    contacting Keycloak. *)
Theorem keycloak_disabled_inert fuel c w :
  keycloak_enabled (config w) = false ->
  _users fuel c w = (Done tt, posted (room_id c) HELP_USERS_KEYCLOAK_DISABLED w)
  ∧ list_users w = (Done [], w)
  ∧ (forall attr value, get_user_by_attr attr value w = (Done None, w))
  ∧ (forall username email, create_user username email w = (Done None, w))
  ∧ (forall user, send_password_reset user w = (Done tt, w)).
Proof.
  intros Hoff. unfold _users, list_users, get_user_by_attr, create_user,
    send_password_reset. rewrite !bind_gets, Hoff. repeat split.
  - intros attr value. rewrite bind_gets, Hoff. reflexivity.
  - intros username email. rewrite bind_gets, Hoff. reflexivity.
  - intros user. rewrite bind_gets, Hoff. reflexivity.
Qed.

(** X11.  A first argument that is no subcommand: [communities] (for
    anything but [create], [help] included) and [rooms]/[spaces] answer
    "Unknown subcommand!", [users] answers with its help text, without
    asking for any tier. *)
Theorem unknown_subcommands fuel c w a0 rest :
  args c = a0 :: rest ->
  (a0 ≠ "create" ->
     communities_after_gate c w = (Done tt, posted (room_id c) "Unknown subcommand!" w))
  ∧ (a0 ∉ ["create"; "help"; "list"; "list-no-admin"; "recreate"; "unlink";
           "unlink-and-leave"] ->
     forall space,
       rooms_after_gate c space w = (Done tt, posted (room_id c) "Unknown subcommand!" w))
  ∧ (a0 ∉ ["list"; "help"; "create"; "invite"; "signuplink"] ->
     keycloak_enabled (config w) = true ->
     _users fuel c w = (Done tt, posted (room_id c) HELP_USERS w)).
Proof.
  intros Hargs.
  assert (forall s, a0 ≠ s -> (a0 == s) = false) as Hneq
    by (intros s Hs; destruct (String.eqb_spec a0 s); congruence).
  split; [|split].
  - intros Hcreate. unfold communities_after_gate. rewrite Hargs, bind_gets.
    rewrite (Hneq _ Hcreate). reflexivity.
  - intros Hnot space. rewrite !not_elem_of_cons in Hnot.
    destruct Hnot as (N1 & N2 & N3 & N4 & N5 & N6 & N7 & _).
    unfold rooms_after_gate. rewrite Hargs, bind_gets.
    rewrite (Hneq _ N1), (Hneq _ N2), (Hneq _ N3), (Hneq _ N4), (Hneq _ N5),
      (Hneq _ N6), (Hneq _ N7). reflexivity.
  - intros Hnot Hon. rewrite !not_elem_of_cons in Hnot.
    destruct Hnot as (N1 & N2 & N3 & N4 & N5 & _).
    unfold _users. rewrite bind_gets, Hon, Hargs. cbn [negb].
    rewrite (Hneq _ N1), (Hneq _ N2), (Hneq _ N3), (Hneq _ N4), (Hneq _ N5).
    reflexivity.
Qed.

(** X12.  [users create] adds exactly one line and creates no account
    for an address that is invalid (Keycloak is not even asked), that an
    account already has, that several accounts have, or whose lookup
    raises. *)
Theorem users_create_email_refusals fuel texts email w :
  (forall ex, validate_email email = inr ex ->
     users_create_email fuel texts email w
     = (Done (texts ++ ["The email " +:+ email +:+ " looks invalid: " +:+ ex])%list, w))
  ∧ (forall valid, validate_email email = inl valid ->
     keycloak_enabled (config w) = true ->
     (forall u w1,
        kc_get_users (Some ("email", valid)) w = (Done [u], w1) ->
        users_create_email fuel texts email w
        = (Done (texts ++ ["Found an existing user by email " +:+ valid +:+
                            " - ignoring"])%list, w1))
     ∧ (forall u u' more w1,
          kc_get_users (Some ("email", valid)) w = (Done (u :: u' :: more), w1) ->
          users_create_email fuel texts email w
          = (Done (texts ++ ["Error looking up existing users by email " +:+ valid +:+
                              ": " +:+ "More than one user found with the same email = " +:+
                              valid])%list, w1))
     ∧ (forall e w1,
          kc_get_users (Some ("email", valid)) w = (Raised e, w1) ->
          users_create_email fuel texts email w
          = (Done (texts ++ ["Error looking up existing users by email " +:+ valid +:+
                              ": " +:+ exn_str e])%list, w1))).
Proof.
  split.
  - intros ex Hinvalid. unfold users_create_email. rewrite Hinvalid. reflexivity.
  - intros valid Hvalid Hon. split; [|split].
    + intros u w1 Hfound. unfold users_create_email. rewrite Hvalid.
      unfold attempt, try_except, get_user_by_attr, bind, gets, ret.
      rewrite Hon. cbn [negb]. rewrite Hfound. reflexivity.
    + intros u u' more w1 Hfound. unfold users_create_email. rewrite Hvalid.
      unfold attempt, try_except, get_user_by_attr, bind, gets, ret, raise.
      rewrite Hon. cbn [negb]. rewrite Hfound. reflexivity.
    + intros e w1 Hfound. unfold users_create_email. rewrite Hvalid.
      unfold attempt, try_except, get_user_by_attr, bind, gets, ret.
      rewrite Hon. cbn [negb]. rewrite Hfound. reflexivity.
Qed.

Lemma users_invite_email_shape c texts email w :
  raised (fst (users_invite_email c texts email w)) = false
  ∧ forall texts' w',
      users_invite_email c texts email w = (Done texts', w') ->
      exists text, texts' = (texts ++ [text])%list.
Proof.
  unfold users_invite_email. destruct (validate_email email) as [valid|ex].
  - unfold bind. pose proof (attempt_never_raises (invite_user valid (sender c)) w) as Hnr.
    destruct (attempt (invite_user valid (sender c)) w) as [[[u|e]|e|] w1];
      cbn in Hnr; try discriminate; (split; [reflexivity|]);
      intros texts' w' Heq; try discriminate;
      injection Heq as <- <-; eauto.
  - split; [reflexivity|]. intros texts' w' [= <- <-]. eauto.
Qed.

Lemma invite_loop_shape c (emails : list string) : forall texts w,
  raised (fst (for_fold emails texts (users_invite_email c) w)) = false
  ∧ forall texts' w',
      for_fold emails texts (users_invite_email c) w = (Done texts', w') ->
      length texts' = (length texts + length emails)%nat.
Proof.
  induction emails as [|email emails IH]; intros texts w.
  - split; [reflexivity|]. intros texts' w' [= <- <-]. cbn. lia.
  - cbn [for_fold]. unfold bind.
    destruct (users_invite_email_shape c texts email w) as [Hnr Hone].
    destruct (users_invite_email c texts email w) as [[texts1|e|] w1];
      cbn in Hnr; try discriminate.
    + destruct (Hone texts1 w1 eq_refl) as [text ->].
      destruct (IH (texts ++ [text])%list w1) as [Hnr' Hlen]. split; [exact Hnr'|].
      intros texts' w' Heq. rewrite (Hlen texts' w' Heq), length_app. cbn. lia.
    + split; [reflexivity|]. intros texts' w' Heq. discriminate.
Qed.

(** X13.  The addresses of [users create] and [users invite] are
    processed once each: the set built from the arguments has no
    duplicates and holds exactly the arguments ([strip] changes no
    argument). *)
Theorem email_set_distinct (c : Command) (rest : list string) :
  (forall t, t ∈ rest -> t ∈ args c) ->
  NoDup (email_set rest)
  ∧ (forall email, email ∈ email_set rest <-> email ∈ rest)
  ∧ (length (email_set rest) <= length rest)%nat.
Proof.
  intros Hsub.
  assert (List.map Py.strip rest = rest) as Hstrip.
  { clear -Hsub. induction rest as [|t rest IH]; [reflexivity|]. cbn.
    rewrite (strip_token t), IH; [reflexivity| |].
    - intros u Hu. apply Hsub, elem_of_cons. right. exact Hu.
    - apply (args_tokens c), Hsub, elem_of_cons. left. reflexivity. }
  unfold email_set. rewrite Hstrip. split; [apply NoDup_elements|]. split.
  - intros email. rewrite elem_of_elements, elem_of_list_to_set. reflexivity.
  - apply submseteq_length, NoDup_submseteq; [apply NoDup_elements|].
    intros x. rewrite elem_of_elements, elem_of_list_to_set. trivial.
Qed.

(** X14.  [users invite] never ends in an exception raised while
    inviting, and when it ends its answer has one line per distinct
    address. *)
Theorem users_invite_lines c rest a1 more w :
  rest = a1 :: more -> a1 ≠ "help" ->
  keycloak_signup_enabled (config w) = true ->
  raised (fst (users_invite_after_gate c rest w)) = false
  ∧ forall flow w',
      users_invite_after_gate c rest w = (Done flow, w') ->
      exists texts,
        flow = Text (Some (Py.join Py.nl texts))
        ∧ length texts = length (email_set rest).
Proof.
  intros Hrest Hnohelp Hon.
  assert ((a1 == "help") = false) as Hne
    by (destruct (String.eqb_spec a1 "help"); congruence).
  unfold users_invite_after_gate. rewrite bind_gets, Hon. cbn [negb].
  rewrite Hrest, Hne, <- Hrest. unfold bind.
  destruct (invite_loop_shape c (email_set rest) [] w) as [Hnr Hlen].
  destruct (for_fold (email_set rest) [] (users_invite_email c) w) as [[texts|e|] w1];
    cbn in Hnr; try discriminate.
  - split; [reflexivity|]. intros flow w' Heq. unfold ret in Heq.
    injection Heq as <- <-. exists texts. split; [reflexivity|]. exact (Hlen texts w1 eq_refl).
  - split; [reflexivity|]. intros flow w' Heq. discriminate.
Qed.

(** X15.  [users signuplink], past its gate: counts that are no
    integers or are below 1 are answered with the help text and no request
    is made; when the request raises or answers with a status from 400 to
    599 the answer is the generic error text, and so it is when the body of
    the response is no JSON document or is not a JSON object; otherwise
    the link is the signup url followed by [str] of the [signup_token]
    member of the body, [None] when the body has none. *)
Theorem signuplink_outcomes c w a1 a2 more :
  a1 ≠ "help" ->
  keycloak_signup_enabled (config w) = true ->
  let rest := a1 :: a2 :: more in
  let help := (Done Return, posted (room_id c) HELP_USERS_SIGNUPLINK w) in
  let failed w1 :=
    (Done (Text (Some "Error creating signup link. Please contact an administrator.")),
     w1) in
  (py_int a1 = None ∨ py_int a2 = None -> users_signuplink_after_gate c rest w = help)
  ∧ (forall max_signups days_valid,
       py_int a1 = Some max_signups -> py_int a2 = Some days_valid ->
       (max_signups < 1 ∨ days_valid < 1 -> users_signuplink_after_gate c rest w = help)
       ∧ (1 <= max_signups -> 1 <= days_valid ->
          let request :=
            requests_post (signup_pages_url (config w))
              (signup_pages_json (config w) (sender c) (JInt max_signups)
                 (JInt days_valid))
              [("Content-Type", "application/json")] in
          (forall e w1, request w = (Raised e, w1) ->
             users_signuplink_after_gate c rest w = failed w1)
          ∧ (forall response w1, request w = (Done response, w1) ->
             400 <= status_code response < 600 ->
             users_signuplink_after_gate c rest w = failed w1)
          ∧ (forall response w1, request w = (Done response, w1) ->
             status_code response < 400 ∨ 600 <= status_code response ->
             users_signuplink_after_gate c rest w
             = match json_body response with
               | Some (JObj members) =>
                   (Done (Text (Some
                      ("Signup link created for " +:+ Py.str_int max_signups +:+
                       " signups with a validity of " +:+ Py.str_int days_valid +:+
                       " days. " +:+ "The link is " +:+
                       Py.str_opt (keycloak_signup_url (config w)) +:+ "/" +:+
                       py_str (dict_get members "signup_token")))), w1)
               | _ => failed w1
               end))).
Proof.
  intros Hnohelp Hon rest help failed.
  assert ((a1 == "help") = false) as Hne
    by (destruct (String.eqb_spec a1 "help"); congruence).
  assert (forall k : M R Flow,
            (cfg <- gets config ;;
             if negb (keycloak_signup_enabled cfg) then
               reply c HELP_USERS_KEYCLOAK_SIGNUP_DISABLED ;; ret Return
             else k) w = k w) as Hgate
    by (intros k; rewrite bind_gets, Hon; reflexivity).
  split.
  - intros Hnone. unfold users_signuplink_after_gate, rest. rewrite Hgate, Hne.
    destruct Hnone as [-> | ->]; [reflexivity|]. destruct (py_int a1); reflexivity.
  - intros max_signups days_valid Hmax Hdays. split.
    + intros Hlow. unfold users_signuplink_after_gate, rest.
      rewrite Hgate, Hne, Hmax, Hdays.
      assert ((max_signups <? 1) || (days_valid <? 1) = true) as ->; [|reflexivity].
      apply orb_true_iff. destruct Hlow; [left|right]; apply Z.ltb_lt; assumption.
    + intros Hm Hd request.
      assert ((max_signups <? 1) || (days_valid <? 1) = false) as Hok
        by (apply orb_false_iff; split; apply Z.ltb_ge; assumption).
      assert (forall o w1, request w = (o, w1) ->
                create_signup_link (sender c) max_signups days_valid w
                = match o with
                  | Done response =>
                      (raise_for_status response ;;
                       body <- response_json response ;;
                       signup_token <- json_get body "signup_token" ;;
                       ret (Py.str_opt (keycloak_signup_url (config w)) +:+ "/" +:+
                            py_str signup_token)) w1
                  | Raised e => (Raised e, w1)
                  | Unfinished => (Unfinished, w1)
                  end) as Hlink.
      { intros o w1 Hreq. unfold create_signup_link. rewrite bind_gets, Hon. cbn [negb].
        unfold bind at 1. fold (signup_pages_url (config w)). fold request.
        rewrite Hreq. destruct o; reflexivity. }
      split; [|split].
      * intros e w1 Hreq. unfold users_signuplink_after_gate, rest.
        rewrite Hgate, Hne, Hmax, Hdays, Hok.
        rewrite (bind_done _ _ _ _ _ (attempt_raised _ _ _ _ (Hlink _ _ Hreq))).
        reflexivity.
      * intros response w1 Hreq Hstatus. unfold users_signuplink_after_gate, rest.
        rewrite Hgate, Hne, Hmax, Hdays, Hok.
        assert (create_signup_link (sender c) max_signups days_valid w
                = (Raised (mkExn HTTPError (Py.str_int (status_code response))), w1))
          as Hfail.
        { rewrite (Hlink _ _ Hreq). unfold bind, ret, raise_for_status.
          assert ((400 <=? status_code response) && (status_code response <? 600) = true)
            as -> by (apply andb_true_iff; split; [apply Z.leb_le|apply Z.ltb_lt]; lia).
          reflexivity. }
        rewrite (bind_done _ _ _ _ _ (attempt_raised _ _ _ _ Hfail)). reflexivity.
      * intros response w1 Hreq Hstatus. unfold users_signuplink_after_gate, rest.
        rewrite Hgate, Hne, Hmax, Hdays, Hok.
        assert (create_signup_link (sender c) max_signups days_valid w
                = (body <- response_json response ;;
                   signup_token <- json_get body "signup_token" ;;
                   ret (Py.str_opt (keycloak_signup_url (config w)) +:+ "/" +:+
                        py_str signup_token)) w1) as Hbody.
        { rewrite (Hlink _ _ Hreq). unfold bind at 1. unfold raise_for_status.
          assert ((400 <=? status_code response) && (status_code response <? 600) = false)
            as ->; [|reflexivity].
          apply andb_false_iff.
          destruct Hstatus; [left; apply Z.leb_gt|right; apply Z.ltb_ge]; lia. }
        unfold response_json in Hbody.
        destruct (json_body response) as [[ |b|z|repr|text|items|members]|];
          try (rewrite (bind_done _ _ _ _ _ (attempt_raised _ _ _ _ Hbody)); reflexivity).
        rewrite (bind_done _ _ _ _ _ (attempt_done _ _ _ _ Hbody)). reflexivity.
Qed.

(** *** Communities and room lists *)

(** X18.  [communities create NAME ALIAS TITLE] records the group in the
    storage only when it was created; for a group that exists and for an
    error it answers and stores nothing. *)
Theorem communities_create_records c w rest name alias title result error w1 :
  args c = "create" :: rest ->
  Csv.reader_first " "%char (Py.join " " rest) = Some [name; alias; title] ->
  name ≠ "help" ->
  ensure_community_exists (mkCommunityTuple None name alias title None None) w
  = (Done (result, error), w1) ->
  (result = "created" ->
     communities_after_gate c w
     = (Done tt,
        posted (room_id c)
          (communities_deprecated +:+ Py.nl +:+ "Community " +:+ name +:+ " (+" +:+
           alias +:+ ":" +:+ server_name (config w) +:+ ") " +:+ "created successfully.")
          (with_store
             (with_communities
                (communities (store w1) ++ [mkCommunityRow name alias title]) (store w1))
             w1)))
  ∧ (result = "exists" ->
     communities_after_gate c w
     = (Done tt,
        posted (room_id c)
          (communities_deprecated +:+ Py.nl +:+ "Sorry! Community " +:+ name +:+
           " (+" +:+ alias +:+ ":" +:+ server_name (config w) +:+ ") " +:+
           "already exists.") w1))
  ∧ (result ≠ "created" -> result ≠ "exists" ->
     communities_after_gate c w
     = (Done tt,
        posted (room_id c) ("Error creating community: " +:+ Py.str_opt error) w1)).
Proof.
  intros Hargs Hcsv Hname Hensure.
  assert ((name == "help") = false) as Hnohelp
    by (destruct (String.eqb_spec name "help"); congruence).
  assert (forall result',
            result' = result ->
            communities_after_gate c w
            = (text <-
                 (if result' == "created" then
                    store_community name alias title ;;
                    ret (communities_deprecated +:+ Py.nl +:+
                         "Community " +:+ name +:+ " (+" +:+ alias +:+ ":" +:+
                         server_name (config w) +:+ ") " +:+ "created successfully.")
                  else if result' == "exists" then
                    ret (communities_deprecated +:+ Py.nl +:+
                         "Sorry! Community " +:+ name +:+ " (+" +:+ alias +:+ ":" +:+
                         server_name (config w) +:+ ") " +:+ "already exists.")
                  else ret ("Error creating community: " +:+ Py.str_opt error)) ;;
               reply c text) w1) as Hstep.
  { intros result' ->. unfold communities_after_gate.
    rewrite bind_gets, Hargs, (csv_params_done _ _ Hcsv).
    cbn -[reply ensure_community_exists store_community].
    unfold bind at 2. unfold ret at 1. rewrite Hnohelp.
    unfold bind at 1 2. rewrite Hensure. reflexivity. }
  split; [|split].
  - intros Hr. rewrite (Hstep "created" (eq_sym Hr)). reflexivity.
  - intros Hr. rewrite (Hstep "exists" (eq_sym Hr)). reflexivity.
  - intros Hc He. rewrite (Hstep result eq_refl).
    destruct (String.eqb_spec result "created") as [E|_]; [congruence|].
    destruct (String.eqb_spec result "exists") as [E|_]; [congruence|].
    reflexivity.
Qed.

Lemma maintain_loop_never_raises (l : list CommunityRow) : forall w,
  raised (fst (for_each l (fun community =>
            attempt (ensure_community_exists (community_tuple community)) ;; ret tt) w))
  = false.
Proof.
  induction l as [|row l IH]; intros w; [reflexivity|].
  cbn [for_each]. unfold bind at 1 2.
  unfold attempt, try_except, bind at 1.
  destruct (ensure_community_exists (community_tuple row) w) as [[a|e|] w1];
    cbn; try reflexivity; apply IH.
Qed.

(** X19.  The maintenance loop over the tracked groups never ends in an
    exception, and when the homeserver knows every tracked group it makes
    no change at all. *)
Theorem maintain_communities_survives w :
  raised (fst (maintain_configured_communities w)) = false
  ∧ ((forall row, row ∈ communities (store w) ->
        exists response,
          requests_get (group_profile_url (config w) (community_alias row))
            (auth_headers (config w)) w = (Done response, w)
          ∧ status_code response = 200) ->
     maintain_configured_communities w = (Done tt, w)).
Proof.
  split.
  - unfold maintain_configured_communities. rewrite bind_gets.
    apply maintain_loop_never_raises.
  - unfold maintain_configured_communities. rewrite bind_gets.
    generalize (communities (store w)) as l.
    induction l as [|row l IH]; intros Hall; [reflexivity|].
    cbn [for_each].
    destruct (Hall row) as (response & Hget & Hstatus);
      [apply elem_of_cons; left; reflexivity|].
    assert (ensure_community_exists (community_tuple row) w = (Done ("exists", None), w))
      as Hexists.
    { unfold ensure_community_exists. rewrite bind_gets.
      cbn [ct_alias community_tuple].
      rewrite (bind_done _ _ _ _ _ Hget), Hstatus. reflexivity. }
    unfold bind at 1 2. unfold attempt, try_except, bind at 1. rewrite Hexists.
    cbn. apply IH. intros r Hr. apply Hall, elem_of_cons. right. exact Hr.
Qed.

(** X20.  [list-no-admin] lists nothing but its header, and asks for no
    member list, when for every tracked room of the kind the power levels
    are missing, empty, or give the bot at least 100. *)
Theorem no_admin_rooms_all_admin spaces w :
  (forall room, room ∈ rooms (store w) -> room_is_space room = spaces ->
     exists levels,
       get_room_power_levels (room_room_id room) w = (Done levels, w)
       ∧ match levels with
         | Some (entry :: users) =>
             100 <= power_of (entry :: users) (user_id (config w))
         | _ => True
         end) ->
  _list_no_admin_rooms spaces w
  = (Done ("I lack admin power in the following " +:+
           (if spaces then "spaces" else "rooms") +:+ " I maintain:" +:+
           Py.nl +:+ Py.nl), w).
Proof.
  intros Hall. unfold _list_no_admin_rooms, get_rooms.
  rewrite bind_gets, bind_gets.
  assert (forall l acc,
            (forall room, room ∈ l -> room ∈ rooms (store w) ∧ room_is_space room = spaces) ->
            for_fold l acc (fun rooms_list room =>
              levels <- get_room_power_levels (room_room_id room) ;;
              match levels with
              | Some ((_ :: _) as users) =>
                  if power_of users (user_id (config w)) <? 100 then
                    members <- joined_members (room_room_id room) ;;
                    let admin_users := List.filter (fun kv => snd kv =? 100) users in
                    let suffix :=
                      match admin_users with
                      | [] => ""
                      | _ => ". **The " +:+ (if spaces then "space" else "room") +:+
                             " has " +:+ Py.str_nat (length admin_users) +:+
                             " other admins.**"
                      end in
                    ret (rooms_list ++
                         [room_line (config w) room +:+ " / users: " +:+
                          match members with
                          | Some ((_ :: _) as user_count) =>
                              Py.str_nat (length user_count)
                          | _ => "unknown"
                          end +:+ suffix +:+ Py.nl])%list
                  else ret rooms_list
              | _ => ret rooms_list
              end) w = (Done acc, w)) as Hloop.
  { induction l as [|room l IH]; intros acc Hl; [reflexivity|].
    cbn [for_fold].
    destruct (Hl room) as [Hin Hkind]; [apply elem_of_cons; left; reflexivity|].
    destruct (Hall room Hin Hkind) as (levels & Hget & Hlevels).
    unfold bind at 1 2. rewrite Hget.
    destruct levels as [[|entry users]|].
    - apply IH. intros r Hr. apply Hl, elem_of_cons. right. exact Hr.
    - rewrite (proj2 (Z.ltb_ge _ _) Hlevels).
      apply IH. intros r Hr. apply Hl, elem_of_cons. right. exact Hr.
    - apply IH. intros r Hr. apply Hl, elem_of_cons. right. exact Hr. }
  assert (forall room,
            room ∈ List.filter (fun r => Bool.eqb (room_is_space r) spaces)
                     (rooms (store w)) ->
            room ∈ rooms (store w) ∧ room_is_space room = spaces) as Hkinds.
  { intros room Hroom. apply list_elem_of_In, filter_In in Hroom as [Hin Hkind].
    split; [apply list_elem_of_In; exact Hin|]. apply Bool.eqb_prop. exact Hkind. }
  rewrite (bind_done _ _ _ _ _ (Hloop _ [] Hkinds)). reflexivity.
Qed.
(** X23.  With Keycloak enabled, the end of the [users create] loop body:
    an exception of [create_user] or of the password reset is not caught
    and ends the command; a user id that is missing or empty adds the
    "Failed to create" line and sends no reset; otherwise the reset is
    sent and the "Successfully create" line added. *)
Theorem users_create_account_outcomes texts email username (w : World R) :
  keycloak_enabled (config w) = true ->
  (forall e w1,
     kc_create_user username email w = (Raised e, w1) ->
     users_create_account texts email username w = (Raised e, w1))
  ∧ (forall user w1,
       kc_create_user username email w = (Done user, w1) ->
       (Py.truthy user = false ->
          users_create_account texts email username w
          = (Done (texts ++ ["Failed to create user for email " +:+ email])%list, w1))
       ∧ (forall uid,
            user = Some uid -> Py.nonempty uid = true ->
            keycloak_enabled (config w1) = true ->
            (forall w2,
               kc_send_update_account uid ["UPDATE_PASSWORD"] w1 = (Done tt, w2) ->
               users_create_account texts email username w
               = (Done (texts ++ ["Successfully create " +:+ email +:+ "!"])%list, w2))
            ∧ (forall e w2,
                 kc_send_update_account uid ["UPDATE_PASSWORD"] w1 = (Raised e, w2) ->
                 users_create_account texts email username w = (Raised e, w2)))).
Proof.
  intros Hon.
  assert (create_user username email w = kc_create_user username email w) as Hcreate.
  { unfold create_user, bind, gets. rewrite Hon. reflexivity. }
  split.
  - intros e w1 Hkc. unfold users_create_account, bind. rewrite Hcreate, Hkc. reflexivity.
  - intros user w1 Hkc. split.
    + intros Hfalsy. unfold users_create_account, bind at 1. rewrite Hcreate, Hkc.
      destruct user as [uid|]; [|reflexivity].
      cbn in Hfalsy. rewrite Hfalsy. reflexivity.
    + intros uid -> Hfull Hon1.
      assert (send_password_reset uid w1
              = kc_send_update_account uid ["UPDATE_PASSWORD"] w1) as Hreset.
      { unfold send_password_reset, bind, gets. rewrite Hon1. reflexivity. }
      split.
      * intros w2 Hsend. unfold users_create_account, bind at 1. rewrite Hcreate, Hkc.
        rewrite Hfull. unfold bind. rewrite Hreset, Hsend. reflexivity.
      * intros e w2 Hsend. unfold users_create_account, bind at 1. rewrite Hcreate, Hkc.
        rewrite Hfull. unfold bind. rewrite Hreset, Hsend. reflexivity.
Qed.

(** X24.  After [communities create] has created a group, a bare
    [communities] lists the groups stored before followed by the line of
    the new group. *)
Theorem communities_create_then_list c c' (w : World R) rest name alias title error w1 :
  args c = "create" :: rest ->
  Csv.reader_first " "%char (Py.join " " rest) = Some [name; alias; title] ->
  name ≠ "help" ->
  ensure_community_exists (mkCommunityTuple None name alias title None None) w
  = (Done ("created", error), w1) ->
  args c' = [] ->
  let w' := snd (communities_after_gate c w) in
  communities (store w') = (communities (store w1) ++ [mkCommunityRow name alias title])%list
  ∧ communities_after_gate c' w'
    = (Done tt,
       posted (room_id c')
         (communities_deprecated +:+ Py.nl +:+
          "I currently maintain the following communities:" +:+ Py.nl +:+ Py.nl +:+
          Py.join "" (List.map (community_line (config w1)) (communities (store w1))) +:+
          "* " +:+ name +:+ " / +" +:+ alias +:+ ":" +:+ server_name (config w1) +:+
          " / " +:+ title +:+ Py.nl) w').
Proof.
  intros Hargs Hcsv Hname Hensure Hlist w'.
  assert ((name == "help") = false) as Hnohelp
    by (destruct (String.eqb_spec name "help"); congruence).
  assert (w' = posted (room_id c)
                 (communities_deprecated +:+ Py.nl +:+ "Community " +:+ name +:+ " (+" +:+
                  alias +:+ ":" +:+ server_name (config w) +:+ ") " +:+
                  "created successfully.")
                 (with_store
                    (with_communities
                       (communities (store w1) ++ [mkCommunityRow name alias title])
                       (store w1)) w1)) as Hw'.
  { unfold w', communities_after_gate.
    rewrite bind_gets, Hargs, (csv_params_done _ _ Hcsv).
    cbn -[reply ensure_community_exists store_community].
    unfold bind at 2. unfold ret at 1. rewrite Hnohelp.
    unfold bind at 1 2. rewrite Hensure. reflexivity. }
  split; [rewrite Hw'; reflexivity|].
  unfold communities_after_gate. rewrite bind_gets, Hlist.
  unfold bind, gets, ret, reply, send_text_to_room.
  assert (communities (store w') = (communities (store w1) ++ [mkCommunityRow name alias title])%list) as -> by (rewrite Hw'; reflexivity).
  assert (config w' = config w1) as -> by (rewrite Hw'; reflexivity).
  rewrite join_empty_snoc. reflexivity.
Qed.

End MoreFacts.

Section Picking.
Context {R : Type} `{Interpreter} `{HelpStrings} `{Collaborators R}.
Variables (w : World R) (directory : list KcUser).
Hypothesis enabled : keycloak_enabled (config w) = true.
Hypothesis exact_match : forall value,
  kc_get_users (Some ("username", value)) w
  = (Done (username_matches value directory), w).

(** X17.  Against a realm that matches usernames exactly, a candidate
    that is free and not empty is chosen as it is, in one iteration; an
    empty candidate that is free is never chosen, the loop does not end
    whatever the number of iterations. *)
Theorem pick_username_free_candidate base :
  base ∉ usernames directory ->
  (Py.nonempty base = true ->
     forall fuel, pick_username (S fuel) base base 0 w = (Done base, w))
  ∧ (base = "" -> forall fuel, pick_username fuel base base 0 w = (Unfinished, w)).
Proof.
  intros Hfree. split.
  - intros Hne fuel. apply (pick_free w directory enabled exact_match); assumption.
  - intros -> fuel. induction fuel as [|fuel IH]; [reflexivity|].
    cbn [pick_username].
    unfold attempt, try_except, get_user_by_attr, bind, gets, ret.
    rewrite enabled. cbn [negb]. rewrite exact_match.
    rewrite (username_matches_free "" directory Hfree). cbn. exact IH.
Qed.
End Picking.

(** ** The further properties on the simulated deployment *)

Section OnScenarios.
Import Sim Scenarios.

Ltac member := apply list_elem_of_In; vm_compute; tauto.
Ltac no_member := rewrite list_elem_of_In; vm_compute; intuition discriminate.
Ltac each_of Ht :=
  repeat (apply elem_of_cons in Ht as [->|Ht]; [reflexivity|]);
  apply elem_of_nil in Ht; destruct Ht.

Lemma csv_params_never_raises_witness :
  let c := cmd "rooms create Lobby lobby" carol in
  args c = ["create"; "Lobby"; "lobby"]
  ∧ exists params, csv_params ["Lobby"; "lobby"] world0 = (Done params, world0).
Proof.
  intros c. split; [reflexivity|].
  apply (csv_params_never_raises c ["Lobby"; "lobby"] world0).
  - intros t Ht. change (args c) with ["create"; "Lobby"; "lobby"].
    apply elem_of_cons. right. exact Ht.
  - vm_compute. discriminate.
  - intros t Ht. each_of Ht.
Defined.

Lemma csv_params_plain_witness :
  let c := cmd "rooms create Lobby lobby main yes no" carol in
  let rest := ["Lobby"; "lobby"; "main"; "yes"; "no"] in
  args c = "create" :: rest
  ∧ csv_params rest world0 = (Done rest, world0).
Proof.
  intros c rest. split; [reflexivity|].
  assert (forall t, t ∈ rest -> t ∈ args c) as Hsub.
  { intros t Ht. change (args c) with ("create" :: rest).
    apply elem_of_cons. right. exact Ht. }
  assert (forall t, t ∈ rest -> Py.contains t Py.dq = false) as Hquote
    by (intros t Ht; unfold rest in Ht; each_of Ht).
  assert (forall t, t ∈ rest -> csv_readable t = true) as Hreadable
    by (intros t Ht; unfold rest in Ht; each_of Ht).
  destruct (csv_params_plain c rest world0 Hsub Hquote Hreadable) as [Hfits _].
  apply Hfits. intros t Ht. unfold rest in Ht.
  repeat (apply elem_of_cons in Ht as [->|Ht]; [vm_compute; discriminate|]).
  apply elem_of_nil in Ht. destruct Ht.
Defined.

Lemma recreate_first_request_witness :
  let c := cmd "rooms recreate" alice in
  stored_request c world0 = None
  ∧ exists w',
      _recreate_room c None world0 = (Done tt, w')
      ∧ stored_request c w' = Some (mkRecreateRow "!room:example.org" alice 1000 false).
Proof.
  intros c. split; [reflexivity|].
  assert (sender c ∈ admins (config world0)) as Ha by member.
  destruct (recreate_first_request c world0 Ha eq_refl) as (Hrun & Hstored & _).
  eexists. split; [exact Hrun|exact Hstored].
Defined.

Lemma recreate_request_then_confirm_witness :
  let request := cmd "rooms recreate" alice in
  let confirm := cmd "rooms recreate confirm" alice in
  let later :=
    with_clock (clock world0 + 59) (snd (_recreate_room request None world0)) in
  exists w',
    _recreate_room confirm (Some "confirm") later = (Done tt, w')
    ∧ journal (remote w') = ["recreate_room !room:example.org"]
    ∧ outbox w' = outbox later
    ∧ stored_request confirm w'
      = Some (mkRecreateRow "!room:example.org" alice 1000 true).
Proof.
  intros request confirm later.
  assert (sender request ∈ admins (config world0)) as Ha by member.
  assert (forall r, stored_request request world0 = Some r -> applied r = false)
    as Hunapplied by (intros r Hr; discriminate Hr).
  destruct (recreate_request_then_confirm request confirm world0 59 Ha Hunapplied eq_refl)
    as (_ & Hwithin & _).
  exists (snd (recreate_room (room_id confirm) (event_id confirm) later)).
  split; [|repeat split; vm_compute; reflexivity].
  unfold later. rewrite Hwithin; [reflexivity | reflexivity | lia].
Defined.

Lemma recreate_refusals_witness :
  let c := cmd "rooms recreate confirm" alice in
  stored_request c world0 = None
  ∧ _recreate_room c (Some "confirm") world0
    = (Done tt,
       posted "!room:example.org"
         "Cannot confirm room recreate before requesting room recreate." world0).
Proof.
  intros c. split; [reflexivity|].
  assert (sender c ∈ admins (config world0)) as Ha by member.
  destruct (recreate_refusals c world0 Ha) as (Hnone & _). apply Hnone. reflexivity.
Defined.

Lemma power_argument_errors_witness :
  let c := cmd "power @dave:example.org" carol in
  power_after_gate c world0
  = (Done tt,
     posted "!room:example.org"
       ("Cannot understand arguments." +:+ Py.nl +:+ Py.nl +:+ HELP_POWER) world0).
Proof.
  intros c.
  assert ("@dave:example.org" ≠ "help") as Huser by discriminate.
  destruct (power_argument_errors c world0 "@dave:example.org" Huser) as (Hone & _).
  apply Hone. reflexivity.
Defined.

Lemma power_default_level_witness :
  let short := cmd "power @dave:example.org !den:example.org" carol in
  let long := cmd "power @dave:example.org !den:example.org moderator" carol in
  power_after_gate short world0 = power_after_gate long world0
  ∧ journal (remote (snd (power_after_gate short world0)))
    = ["set_user_power !den:example.org @dave:example.org 50"].
Proof.
  intros short long. split; [|vm_compute; reflexivity].
  apply (power_default_level short long world0 "@dave:example.org" "!den:example.org");
    reflexivity.
Defined.

Lemma invite_outcomes_witness :
  let c := cmd "invite !den:example.org dave erin" carol in
  invite_after_gate c world0
  = (Done tt,
     posted "!room:example.org" "Invalid user mxid: erin"
       (posted "!room:example.org" "Invalid user mxid: dave" world0)).
Proof.
  intros c.
  assert ("!den:example.org" ≠ "help") as Halias by discriminate.
  destruct (invite_outcomes c world0 "!den:example.org" ["dave"; "erin"] eq_refl Halias)
    as (Hresolved & _).
  destruct (Hresolved "!den:example.org" world0 eq_refl) as (_ & Hinvalid).
  apply Hinvalid; [discriminate|]. intros u Hu. each_of Hu.
Defined.

Lemma unlink_outcomes_witness :
  let c := cmd "rooms unlink !lobby:example.org" carol in
  exists w',
    unlink_room_after_gate c false two_rooms = (Done tt, w')
    ∧ tracked_room "!lobby:example.org" w' = None
    ∧ tracked_room "!attic:example.org" w'
      = Some (mkRoomRow "Attic" "attic" "!attic:example.org" false).
Proof.
  intros c.
  destruct (unlink_outcomes c two_rooms false) as (_ & Hresolved & _).
  destruct (Hresolved "unlink" "!lobby:example.org" [] "!lobby:example.org" two_rooms
              eq_refl eq_refl) as (_ & Htracked & _).
  destruct Htracked as (Hrun & Hgone & Hothers); [discriminate|reflexivity|].
  eexists. split; [exact Hrun|]. split; [exact Hgone|].
  rewrite Hothers by discriminate. reflexivity.
Defined.

Lemma keycloak_disabled_inert_witness :
  let c := cmd "users list" mallory in
  _users 0 c no_keycloak
  = (Done tt, posted "!room:example.org" HELP_USERS_KEYCLOAK_DISABLED no_keycloak).
Proof.
  intros c. destruct (keycloak_disabled_inert 0 c no_keycloak eq_refl) as (Husers & _).
  exact Husers.
Defined.

Lemma unknown_subcommands_witness :
  let c := cmd "communities help" carol in
  communities_after_gate c world0
  = (Done tt, posted "!room:example.org" "Unknown subcommand!" world0).
Proof.
  intros c. destruct (unknown_subcommands 0 c world0 "help" [] eq_refl) as (Hcommunities & _).
  apply Hcommunities. discriminate.
Defined.

Lemma users_create_email_refusals_witness :
  users_create_email 3 [] "nobody" world0
  = (Done ["The email nobody looks invalid: The email address is not valid."], world0).
Proof.
  destruct (users_create_email_refusals 3 [] "nobody" world0) as (Hinvalid & _).
  apply (Hinvalid "The email address is not valid."). reflexivity.
Defined.

Lemma email_set_distinct_witness :
  let c := cmd "users invite a@x.org a@x.org b@x.org" carol in
  let rest := ["a@x.org"; "a@x.org"; "b@x.org"] in
  args c = "invite" :: rest
  ∧ NoDup (email_set rest)
  ∧ ("a@x.org" ∈ email_set rest).
Proof.
  intros c rest. split; [reflexivity|].
  assert (forall t, t ∈ rest -> t ∈ args c) as Hsub.
  { intros t Ht. change (args c) with ("invite" :: rest).
    apply elem_of_cons. right. exact Ht. }
  destruct (email_set_distinct c rest Hsub) as (Hnodup & Hsame & _).
  split; [exact Hnodup|]. apply Hsame. apply elem_of_cons. left. reflexivity.
Defined.

Lemma users_invite_lines_witness :
  let c := cmd "users invite a@x.org b@x.org" carol in
  raised (fst (users_invite_after_gate c ["a@x.org"; "b@x.org"] world0)) = false.
Proof.
  intros c.
  assert ("a@x.org" ≠ "help") as Hnohelp by discriminate.
  destruct (users_invite_lines c ["a@x.org"; "b@x.org"] "a@x.org" ["b@x.org"] world0
              eq_refl Hnohelp eq_refl) as (Hnever & _).
  exact Hnever.
Defined.

Lemma signuplink_outcomes_witness :
  let c := cmd "users signuplink 5 3" carol in
  users_signuplink_after_gate c ["5"; "3"] world0
  = (Done (Text (Some
       ("Signup link created for 5 signups with a validity of 3 days. " +:+
        "The link is https://signup.example.org/page-1"))), world0).
Proof.
  intros c.
  assert ("5" ≠ "help") as Hnohelp by discriminate.
  destruct (signuplink_outcomes c world0 "5" "3" [] Hnohelp eq_refl) as (_ & Hcounts).
  destruct (Hcounts 5 3 eq_refl eq_refl) as (_ & Hrequest).
  destruct Hrequest as (_ & _ & Hanswered); [lia | lia |].
  rewrite (Hanswered page_created world0); [reflexivity | reflexivity | cbn; lia].
Defined.

Lemma username_candidate_alphabet_witness :
  all_chars username_char "john.doe" = true
  ∧ username_candidate_of "john.doe@example.org" = "john.doe"
  ∧ username_candidate_of "John+Doe@example.org" = "johndoe".
Proof.
  split; [reflexivity|]. split; [|reflexivity].
  destruct username_candidate_alphabet as (_ & Hsame).
  apply (Hsame "john.doe" "example.org"). reflexivity.
Defined.

Lemma pick_username_free_candidate_witness :
  username_candidate_of "+@x.org" = ""
  ∧ pick_username 1 "b" "b" 0 registered = (Done "b", registered)
  ∧ pick_username 50 "" "" 0 registered = (Unfinished, registered).
Proof.
  split; [reflexivity|].
  assert (forall value,
            kc_get_users (Some ("username", value)) registered
            = (Done (username_matches value (accounts (remote registered))), registered))
    as Hexact by (intros value; reflexivity).
  split.
  - assert ("b" ∉ usernames (accounts (remote registered))) as Hfree by no_member.
    destruct (pick_username_free_candidate registered (accounts (remote registered))
                eq_refl Hexact "b" Hfree) as (Hchosen & _).
    apply Hchosen. reflexivity.
  - assert ("" ∉ usernames (accounts (remote registered))) as Hfree by no_member.
    destruct (pick_username_free_candidate registered (accounts (remote registered))
                eq_refl Hexact "" Hfree) as (_ & Hloops).
    apply Hloops. reflexivity.
Defined.

Lemma communities_create_records_witness :
  let c := cmd "communities create Epic epic-community Best" carol in
  exists w',
    communities_after_gate c world0 = (Done tt, w')
    ∧ communities (store w') = [mkCommunityRow "Epic" "epic-community" "Best"].
Proof.
  intros c.
  assert ("Epic" ≠ "help") as Hname by discriminate.
  assert (Csv.reader_first " "%char (Py.join " " ["Epic"; "epic-community"; "Best"])
          = Some ["Epic"; "epic-community"; "Best"]) as Hcsv
    by (vm_compute; reflexivity).
  pose (community := mkCommunityTuple None "Epic" "epic-community" "Best" None None).
  assert (ensure_community_exists community world0
          = (Done ("created", None), snd (ensure_community_exists community world0)))
    as Hensure by (vm_compute; reflexivity).
  destruct (communities_create_records c world0 ["Epic"; "epic-community"; "Best"]
              "Epic" "epic-community" "Best" "created" None
              (snd (ensure_community_exists community world0))
              eq_refl Hcsv Hname Hensure) as (Hcreated & _).
  eexists. split; [apply Hcreated; reflexivity|]. reflexivity.
Defined.

Lemma maintain_communities_survives_witness :
  maintain_configured_communities with_group = (Done tt, with_group).
Proof.
  destruct (maintain_communities_survives with_group) as (_ & Hknown).
  apply Hknown. intros row Hrow.
  apply list_elem_of_singleton in Hrow. subst row.
  exists (response 200). split; reflexivity.
Defined.

Lemma no_admin_rooms_all_admin_witness :
  _list_no_admin_rooms false two_rooms
  = (Done ("I lack admin power in the following rooms I maintain:" +:+
           Py.nl +:+ Py.nl), two_rooms).
Proof.
  apply (no_admin_rooms_all_admin false two_rooms).
  intros room Hroom Hkind. exists None. split; [reflexivity|exact I].
Defined.

Lemma process_rooms_recreate_witness :
  let c := cmd "rooms recreate" alice in
  process 0 c world0 = _recreate_room c None world0.
Proof.
  intros c.
  assert (sender c ∈ coordinators (config world0) ∨ sender c ∈ admins (config world0))
    as Hin by (right; member).
  destruct (process_rooms_recreate 0 c world0 Hin) as (Hbare & _).
  apply Hbare. reflexivity.
Defined.

Lemma users_create_account_outcomes_witness :
  exists w',
    users_create_account [] "b@x.org" "b" world0
    = (Done ["Successfully create b@x.org!"], w')
    ∧ journal (remote w') = ["send_update_account id-b"].
Proof.
  pose (w1 := snd (kc_create_user "b" "b@x.org" world0)).
  pose (w2 := snd (kc_send_update_account "id-b" ["UPDATE_PASSWORD"] w1)).
  destruct (users_create_account_outcomes [] "b@x.org" "b" world0 eq_refl) as (_ & Hdone).
  assert (kc_create_user "b" "b@x.org" world0 = (Done (Some "id-b"), w1)) as Hcreated
    by (vm_compute; reflexivity).
  destruct (Hdone (Some "id-b") w1 Hcreated) as (_ & Hfull).
  destruct (Hfull "id-b" eq_refl eq_refl eq_refl) as (Hsent & _).
  exists w2. split; [|vm_compute; reflexivity].
  apply Hsent. vm_compute. reflexivity.
Defined.

Lemma communities_create_then_list_witness :
  let create := cmd "communities create Epic epic-community Best" carol in
  let list := cmd "communities" carol in
  let w' := snd (communities_after_gate create world0) in
  communities (store w') = [mkCommunityRow "Epic" "epic-community" "Best"]
  ∧ fst (communities_after_gate list w') = Done tt.
Proof.
  intros create list w'.
  assert ("Epic" ≠ "help") as Hname by discriminate.
  assert (Csv.reader_first " "%char (Py.join " " ["Epic"; "epic-community"; "Best"])
          = Some ["Epic"; "epic-community"; "Best"]) as Hcsv
    by (vm_compute; reflexivity).
  pose (community := mkCommunityTuple None "Epic" "epic-community" "Best" None None).
  assert (ensure_community_exists community world0
          = (Done ("created", None), snd (ensure_community_exists community world0)))
    as Hensure by (vm_compute; reflexivity).
  destruct (communities_create_then_list create list world0
              ["Epic"; "epic-community"; "Best"] "Epic" "epic-community" "Best" None
              (snd (ensure_community_exists community world0))
              eq_refl Hcsv Hname Hensure eq_refl) as (Hstored & Hlisted).
  subst w'. split; [rewrite Hstored; vm_compute; reflexivity|].
  rewrite Hlisted. reflexivity.
Defined.


End OnScenarios.
